(** * EPIAS dashboard: ticket manager, HTTP client, normalisers, fetchers

    A shallow embedding of the API access layer of the repository
    ([src/api/auth.py], [src/api/epias.py]), of its response normalisers
    ([src/data/processors.py]) and of the batch fetchers
    ([src/data/fetchers.py]), followed by the properties the design
    document states about them. *)

From Stdlib Require Import ZArith List String Ascii Bool Lia Permutation Sorted.
From stdpp Require Import base option gmap strings.
Import ListNotations.
Local Open Scope string_scope.
Local Open Scope Z_scope.
#[local] Set Warnings "-clear-no-such-hyp".

(* ===================================================================== *)
(** * Python exceptions and the result of a call                         *)
(* ===================================================================== *)

(** The exceptions the modelled code can raise.  [HTTPError] is what
    [Response.raise_for_status] of the requests library raises; the
    constructors after it are Python built-ins or requests' transport
    failure.  [AuthenticationError] and [APIError] are the classes of the
    design document's taxonomy: no module under [src/api] defines or raises
    them, they are here so that the properties can tell them apart from
    what the code raises.  [Unmodelled] is not an exception: it is the
    outcome of a call whose behaviour depends on pandas internals that
    this development does not describe ([pd.to_datetime] applied to a list
    or a dict, which may build an index instead of a scalar); it is never
    caught by an [except Exception] handler of the model. *)
Inductive exn : Type :=
| AuthenticationError
| APIError (status : Z)
| HTTPError (status : Z)
| ConnectionError
| JSONDecodeError
| ValueError (msg : string)
| TypeError
| KeyError (key : string)
| AttributeError
| OverflowError
| Unmodelled.

(** A call either returns a value or raises. *)
Inductive result (A : Type) : Type :=
| Ok (a : A)
| Raise (e : exn).
Arguments Ok {A} a.
Arguments Raise {A} e.

Definition is_ok {A} (r : result A) : bool :=
  match r with Ok _ => true | Raise _ => false end.

Definition rbind {A B} (r : result A) (k : A -> result B) : result B :=
  match r with
  | Ok a => k a
  | Raise e => Raise e
  end.

(** [try: body except: handler] with a bare [except]. *)
Definition try_except {A} (body : result A) (handler : exn -> result A) : result A :=
  match body with
  | Ok a => Ok a
  | Raise e => handler e
  end.

(** [try: body except Exception: handler]. *)
Definition try_except_Exception {A} (body : result A) (handler : exn -> result A)
    : result A :=
  match body with
  | Ok a => Ok a
  | Raise Unmodelled => Raise Unmodelled
  | Raise e => handler e
  end.

(** Sequencing a fallible step over a list, left to right, stopping at the
    first exception: the shape of a [for] loop that appends to a list. *)
Fixpoint mapM {A B} (f : A -> result B) (l : list A) : result (list B) :=
  match l with
  | [] => Ok []
  | x :: xs =>
      rbind (f x) (fun y => rbind (mapM f xs) (fun ys => Ok (y :: ys)))
  end.

Declare Scope result_scope.
Delimit Scope result_scope with result.
Notation "'let*' x ':=' r 'in' k" := (rbind r (fun x => k))
  (at level 10, x name, r at level 100, k at level 200) : result_scope.

(* ===================================================================== *)
(** * The network and the clock                                          *)
(* ===================================================================== *)

(** What [requests] hands back: the status line and the body.  [json_body]
    is the outcome of [resp.json()]: [None] when the body is not JSON. *)
Record Response (J : Type) : Type := mkResponse {
  status_code : Z;
  text : string;
  json_body : option J
}.
Arguments mkResponse {J}.
Arguments status_code {J}.
Arguments text {J}.
Arguments json_body {J}.

(** One scripted exchange with a server: how long it takes and how it ends
    (a response, or a transport exception raised by requests). *)
Record Exchange (J : Type) : Type := mkExchange {
  latency : N;
  outcome : result (Response J)
}.
Arguments mkExchange {J}.
Arguments latency {J}.
Arguments outcome {J}.

(** The requests that leave the process, in the order they are made. *)
Inductive Event (J : Type) : Type :=
| EvAuthPost (data : string) (done_at : Z) (res : result (Response J))
| EvData (method url : string) (ticket : option string) (payload : J)
         (done_at : Z) (res : result (Response J)).
Arguments EvAuthPost {J}.
Arguments EvData {J}.

(** The world outside the process.  The servers are given by the exchanges
    they will answer with, in order; an exhausted script behaves as an
    unreachable host.  [clock] is what [time.time()] reads, in seconds. *)
Record World (J : Type) : Type := mkWorld {
  clock : Z;
  auth_server : list (Exchange J);
  data_server : list (Exchange J);
  trace : list (Event J)
}.
Arguments mkWorld {J}.
Arguments clock {J}.
Arguments auth_server {J}.
Arguments data_server {J}.
Arguments trace {J}.

Definition advance {J} (d : N) (w : World J) : World J :=
  mkWorld (clock w + Z.of_N d) (auth_server w) (data_server w) (trace w).

Definition is_auth_event {J} (e : Event J) : bool :=
  match e with EvAuthPost _ _ _ => true | EvData _ _ _ _ _ _ => false end.

Definition is_data_event {J} (e : Event J) : bool :=
  match e with EvAuthPost _ _ _ => false | EvData _ _ _ _ _ _ => true end.

(** Number of requests sent to the authentication endpoint, and to the data
    endpoints, in a trace. *)
Definition auth_requests {J} (tr : list (Event J)) : nat :=
  length (List.filter is_auth_event tr).

Definition data_requests {J} (tr : list (Event J)) : nat :=
  length (List.filter is_data_event tr).

(* ===================================================================== *)
(** * src/api/auth.py                                                    *)
(* ===================================================================== *)

Module Auth.

Definition AUTH_URL : string := "https://giris.epias.com.tr/cas/v1/tickets".
Definition TOKEN_HEADER : string := "TGT".
Definition TTL_SECONDS : Z := 2 * 60 * 60.

(** [TGTManager]: the credentials and the single cached ticket slot. *)
Record TGTManager : Type := mkTGTManager {
  username : string;
  password : string;
  _token : option string;
  _expires_at : Z
}.

(** [TGTManager.__init__]. *)
Definition init (user pass : string) : TGTManager :=
  mkTGTManager user pass None 0.

Section WithJson.
Context {J : Type}.

(** The state a method of the manager runs in. *)
Record Sys : Type := mkSys {
  tgt_mgr : TGTManager;
  net : World J
}.

(** Stateful, fallible computations: the state survives an exception. *)
Definition M (A : Type) : Type := Sys -> result A * Sys.

Definition ret {A} (a : A) : M A := fun s => (Ok a, s).
Definition raise {A} (e : exn) : M A := fun s => (Raise e, s).
Definition bind {A B} (m : M A) (k : A -> M B) : M B :=
  fun s =>
    match m s with
    | (Ok a, s') => k a s'
    | (Raise e, s') => (Raise e, s')
    end.

Definition time_time : M Z := fun s => (Ok (clock (net s)), s).

Definition set_token (tok : string) : M unit :=
  fun s =>
    let m := tgt_mgr s in
    (Ok tt, mkSys (mkTGTManager (username m) (password m) (Some tok) (_expires_at m)) (net s)).

Definition set_expires_at (t : Z) : M unit :=
  fun s =>
    let m := tgt_mgr s in
    (Ok tt, mkSys (mkTGTManager (username m) (password m) (_token m) t) (net s)).

(** [requests.post(AUTH_URL, headers=..., data=..., timeout=10)]: the next
    exchange of the authentication server is consumed, the clock moves by
    its latency and the request is recorded. *)
Definition requests_post_auth (data : string) : M (Response J) :=
  fun s =>
    let w := net s in
    match auth_server w with
    | [] =>
        (Raise ConnectionError,
         mkSys (tgt_mgr s)
           (mkWorld (clock w) [] (data_server w)
              (trace w ++ [EvAuthPost data (clock w) (Raise ConnectionError)])))
    | x :: rest =>
        let t := clock w + Z.of_N (latency x) in
        (outcome x,
         mkSys (tgt_mgr s)
           (mkWorld t rest (data_server w)
              (trace w ++ [EvAuthPost data t (outcome x)])))
    end.

(** [Response.raise_for_status]: raises on 4xx and 5xx only. *)
Definition raise_for_status (resp : Response J) : M unit :=
  if (400 <=? status_code resp) && (status_code resp <? 600)
  then raise (HTTPError (status_code resp))
  else ret tt.

(** [str.strip()] on the ASCII range: the characters [str.isspace] accepts
    there are 0x09-0x0D, 0x1C-0x1F and the blank. *)
Definition is_space (a : ascii) : bool :=
  let n := nat_of_ascii a in
  ((9 <=? n)%nat && (n <=? 13)%nat) || ((28 <=? n)%nat && (n <=? 31)%nat) || (n =? 32)%nat.

Fixpoint lstrip_chars (l : list ascii) : list ascii :=
  match l with
  | a :: l' => if is_space a then lstrip_chars l' else l
  | [] => []
  end.

Definition strip (s : string) : string :=
  string_of_list_ascii
    (rev (lstrip_chars (rev (lstrip_chars (list_ascii_of_string s))))).

(** [str.startswith]. *)
Definition startswith (s pre : string) : bool := String.prefix pre s.

(** [TGTManager._request_new_token]. *)
Definition _request_new_token : M string :=
  bind (fun s =>
          requests_post_auth
            ("username=" ++ username (tgt_mgr s) ++ "&password=" ++ password (tgt_mgr s)) s)
       (fun resp =>
  bind (raise_for_status resp) (fun _ =>
  let token := strip (text resp) in
  if negb (startswith token "TGT-")
  then raise (ValueError "Unexpected token format returned by CAS")
  else ret token)).

(** [TGTManager.current].  The two assignments happen only after
    [_request_new_token] has returned; an exception leaves the slot as it
    was. *)
Definition current (force_refresh : bool) : M (option string) :=
  bind time_time (fun now =>
  bind (fun s =>
          if force_refresh || (_expires_at (tgt_mgr s) <=? now)
          then
            bind _request_new_token (fun tok =>
            bind (set_token tok) (fun _ =>
            bind time_time (fun now' =>
            set_expires_at (now' + TTL_SECONDS - 60)))) s
          else ret tt s)
       (fun _ => fun s => ret (_token (tgt_mgr s)) s)).

(** Time passing between two calls. *)
Definition wait (d : N) (s : Sys) : Sys := mkSys (tgt_mgr s) (advance d (net s)).

(** [200 <= status < 300]. *)
Definition success_status (status : Z) : bool := (200 <=? status) && (status <? 300).

(** The status range on which [raise_for_status] raises. *)
Definition error_status (status : Z) : bool := (400 <=? status) && (status <? 600).

(** The ticket an authentication exchange delivers, when
    [_request_new_token] accepts it, with the instant it was received. *)
Definition delivered (e : Event J) : option (string * Z) :=
  match e with
  | EvAuthPost _ t (Ok resp) =>
      if error_status (status_code resp) then None
      else if startswith (strip (text resp)) "TGT-" then Some (strip (text resp), t)
      else None
  | _ => None
  end.

(** The most recent ticket acquisition recorded in a trace. *)
Fixpoint last_acquisition (tr : list (Event J)) : option (string * Z) :=
  match tr with
  | [] => None
  | e :: tr' =>
      match last_acquisition tr' with
      | Some a => Some a
      | None => delivered e
      end
  end.

(** What the next request to the authentication endpoint will end in, and
    the state it leaves behind. *)
Definition next_auth_outcome (s : Sys) : result (Response J) :=
  match auth_server (net s) with
  | [] => Raise ConnectionError
  | x :: _ => outcome x
  end.

Definition after_auth (s : Sys) : Sys :=
  snd (requests_post_auth
         ("username=" ++ username (tgt_mgr s) ++ "&password=" ++ password (tgt_mgr s)) s).

(** The verdict of [_request_new_token] on the outcome of its request. *)
Definition token_of_outcome (o : result (Response J)) : result string :=
  match o with
  | Raise e => Raise e
  | Ok resp =>
      if error_status (status_code resp) then Raise (HTTPError (status_code resp))
      else if startswith (strip (text resp)) "TGT-" then Ok (strip (text resp))
      else Raise (ValueError "Unexpected token format returned by CAS")
  end.

(** The manager after a successful refresh. *)
Definition refreshed (tok : string) (s : Sys) : Sys :=
  mkSys (mkTGTManager (username (tgt_mgr s)) (password (tgt_mgr s)) (Some tok)
           (clock (net s) + TTL_SECONDS - 60))
        (net s).

(** The invariant of the cached slot: the cached ticket is the one of the
    latest acquisition, and its cached expiry is that acquisition's instant
    plus the validity window minus the margin. *)
Definition ticket_inv (s : Sys) : Prop :=
  forall tok, _token (tgt_mgr s) = Some tok ->
    exists acq, last_acquisition (trace (net s)) = Some (tok, acq) /\
                _expires_at (tgt_mgr s) = acq + TTL_SECONDS - 60.

(** A client of the manager: calls to [current] with time passing in
    between.  [run] returns what each call returned together with the state
    right after it. *)
Inductive action : Type :=
| Call (force_refresh : bool)
| Wait (d : N).

Fixpoint run (acts : list action) (s : Sys) : list (result (option string) * Sys) :=
  match acts with
  | [] => []
  | Call f :: acts' =>
      let '(r, s') := current f s in (r, s') :: run acts' s'
  | Wait d :: acts' => run acts' (wait d s)
  end.

End WithJson.
Arguments Sys J : clear implicits.
Arguments M J A : clear implicits.
End Auth.

(* ===================================================================== *)
(** * src/api/epias.py                                                   *)
(* ===================================================================== *)

Module Epias.
Import Auth.

Definition BASE : string := "https://seffaflik.epias.com.tr/electricity-service/v1".

Section WithJson.
Context {J : Type}.

(** [self.session.request(method, url, headers=headers, timeout=30,
    json=payload)].  The fixed headers are the same on every call; the one
    that varies, the ticket, is recorded with the request. *)
Definition session_request (method url : string) (ticket : option string)
    (payload : J) : M J (Response J) :=
  fun s =>
    let w := net s in
    match data_server w with
    | [] =>
        (Raise ConnectionError,
         mkSys (tgt_mgr s)
           (mkWorld (clock w) (auth_server w) []
              (trace w ++ [EvData method url ticket payload (clock w) (Raise ConnectionError)])))
    | x :: rest =>
        let t := clock w + Z.of_N (latency x) in
        (outcome x,
         mkSys (tgt_mgr s)
           (mkWorld t (auth_server w) rest
              (trace w ++ [EvData method url ticket payload t (outcome x)])))
    end.

(** [resp.json()]. *)
Definition resp_json (resp : Response J) : M J J :=
  match json_body resp with
  | Some j => ret j
  | None => raise JSONDecodeError
  end.

(** [resp.status_code in (401, 406)]. *)
Definition auth_failure (resp : Response J) : bool :=
  (status_code resp =? 401) || (status_code resp =? 406).

(** [EpiasClient._request]. *)
Definition _request (method path : string) (payload : J) : M J J :=
  let url := BASE ++ path in
  bind (current false) (fun ticket =>
  bind (session_request method url ticket payload) (fun resp =>
  bind (if auth_failure resp
        then
          bind (current true) (fun ticket' =>
          session_request method url ticket' payload)
        else ret resp) (fun resp =>
  bind (raise_for_status resp) (fun _ =>
  resp_json resp)))).

(** [EpiasClient.get] and [EpiasClient.post]. *)
Definition get (path : string) (params : J) : M J J := _request "GET" path params.
Definition post (path : string) (payload : J) : M J J := _request "POST" path payload.

(** What the next request to a data endpoint will end in, and the state it
    leaves behind. *)
Definition next_data_outcome (s : Sys J) : result (Response J) :=
  match data_server (net s) with
  | [] => Raise ConnectionError
  | x :: _ => outcome x
  end.

Definition after_data (method url : string) (ticket : option string) (payload : J)
    (s : Sys J) : Sys J :=
  snd (session_request method url ticket payload s).

(** What [_request] makes of the response it ends up with:
    [raise_for_status] followed by [json()]. *)
Definition response_verdict (o : result (Response J)) : result J :=
  match o with
  | Raise e => Raise e
  | Ok resp =>
      if error_status (status_code resp) then Raise (HTTPError (status_code resp))
      else match json_body resp with
           | Some j => Ok j
           | None => Raise JSONDecodeError
           end
  end.

End WithJson.
End Epias.

(* ===================================================================== *)
(** * Python values and the pandas operations the normalisers use        *)
(* ===================================================================== *)

Module Pd.

(** [pd.Timestamp]: the wall-clock fields and, for an aware timestamp, the
    offset from UTC in minutes. *)
Record Timestamp : Type := mkTimestamp {
  year : Z;
  month : Z;
  day : Z;
  hour : Z;
  minute : Z;
  second : Z;
  nanosecond : Z;
  tz : option Z
}.

(** What [pd.to_datetime] returns for a scalar: a timestamp or [pd.NaT]. *)
Definition datetime64 : Type := option Timestamp.
Definition NaT : datetime64 := None.

(** [pd.notna]. *)
Definition notna (dt : datetime64) : bool :=
  match dt with Some _ => true | None => false end.

(** [dt.replace(hour=h)]: [NaT.replace] is [NaT] whatever the argument; on
    a timestamp the hour must be in 0..23. *)
Definition with_hour (t : Timestamp) (h : Z) : Timestamp :=
  mkTimestamp (year t) (month t) (day t) h (minute t) (second t) (nanosecond t) (tz t).

Definition replace_hour (dt : datetime64) (h : Z) : result datetime64 :=
  match dt with
  | None => Ok None
  | Some t =>
      if (0 <=? h) && (h <=? 23)
      then Ok (Some (with_hour t h))
      else Raise (ValueError "hour must be in 0..23")
  end.

(** Days since 1970-01-01 of a civil date. *)
Definition days_from_civil (y m d : Z) : Z :=
  let y' := if m <=? 2 then y - 1 else y in
  let era := y' / 400 in
  let yoe := y' - era * 400 in
  let mp := (m + 9) mod 12 in
  let doy := (153 * mp + 2) / 5 + d - 1 in
  let doe := yoe * 365 + yoe / 4 - yoe / 100 + doy in
  era * 146097 + doe - 719468.

(** The instant of a timestamp in nanoseconds; timestamps that can be
    compared are ordered by it. *)
Definition instant (t : Timestamp) : Z :=
  let minutes :=
    (days_from_civil (year t) (month t) (day t) * 24 + hour t) * 60 + minute t
    - match tz t with Some off => off | None => 0 end in
  (minutes * 60 + second t) * 1000000000 + nanosecond t.

(** Ascending order with [NaT] last, as [sort_values] places it. *)
Definition dt_leb (a b : datetime64) : bool :=
  match a, b with
  | Some x, Some y => instant x <=? instant y
  | Some _, None => true
  | None, Some _ => false
  | None, None => true
  end.

Definition is_aware (dt : datetime64) : bool :=
  match dt with Some t => match tz t with Some _ => true | None => false end | None => false end.

Definition is_naive (dt : datetime64) : bool :=
  match dt with Some t => match tz t with Some _ => false | None => true end | None => false end.

(** A column that holds both aware and naive timestamps cannot be sorted:
    comparing the two raises [TypeError]. *)
Definition tz_mixed (col : list datetime64) : bool :=
  existsb is_aware col && existsb is_naive col.

End Pd.

(** The parts of the Python runtime and of pandas that the model takes as
    given: the float type with the conversions of [float()] and [int()],
    and the two ways [parse_datetime] calls [pd.to_datetime] on a string. *)
Class Runtime : Type := {
  pyfloat : Type;
  (** [float(n)] for an int [n]: [OverflowError] beyond the double range *)
  float_of_int : Z -> result pyfloat;
  (** [float(s)] for a str [s]: [ValueError] when it is no float literal *)
  float_of_str : string -> result pyfloat;
  (** [x == 0.0], the floats that are false in a condition *)
  float_is_zero : pyfloat -> bool;
  (** [int(x)] for a float [x]: truncation; raises on nan and infinities *)
  int_of_float : pyfloat -> result Z;
  (** [int(s)] for a str [s]: [ValueError] when it is no integer literal *)
  int_of_str : string -> result Z;
  (** [pd.to_datetime(s)] *)
  to_datetime : string -> result Pd.datetime64;
  (** [pd.to_datetime(s, format="%Y-%m-%d")] *)
  to_datetime_ymd : string -> result Pd.datetime64
}.

Module Py.
Section WithRuntime.
Context `{RT : Runtime}.

#[local] Set Warnings "-register-all".

(** A deserialised JSON value, as [resp.json()] builds it.  A dict keeps
    its keys in insertion order. *)
Inductive json : Type :=
| JNull
| JBool (b : bool)
| JInt (z : Z)
| JFloat (f : pyfloat)
| JStr (s : string)
| JList (l : list json)
| JDict (d : list (string * json)).

Fixpoint assoc {A} (k : string) (d : list (string * A)) : option A :=
  match d with
  | [] => None
  | (k', v) :: d' => if String.eqb k k' then Some v else assoc k d'
  end.

Definition has_key {A} (k : string) (d : list (string * A)) : bool :=
  match assoc k d with Some _ => true | None => false end.

(** Truth value of a JSON value in a condition. *)
Definition truthy (x : json) : bool :=
  match x with
  | JNull => false
  | JBool b => b
  | JInt z => negb (z =? 0)
  | JFloat f => negb (float_is_zero f)
  | JStr s => negb (String.eqb s "")
  | JList l => match l with [] => false | _ => true end
  | JDict d => match d with [] => false | _ => true end
  end.

(** [a or b]. *)
Definition py_or (a b : json) : json := if truthy a then a else b.

Definition is_list (x : json) : bool :=
  match x with JList _ => true | _ => false end.

Definition is_dict (x : json) : bool :=
  match x with JDict _ => true | _ => false end.

(** [pat in s] for two strings. *)
Fixpoint is_substring (pat s : string) : bool :=
  String.prefix pat s ||
  match s with
  | EmptyString => false
  | String _ s' => is_substring pat s'
  end.

(** [key in x] for a string [key]. *)
Definition py_in (key : string) (x : json) : result bool :=
  match x with
  | JDict d => Ok (has_key key d)
  | JList l =>
      Ok (existsb (fun e => match e with JStr s => String.eqb s key | _ => false end) l)
  | JStr s => Ok (is_substring key s)
  | _ => Raise TypeError
  end.

(** [x[key]] for a string [key]. *)
Definition py_getitem (x : json) (key : string) : result json :=
  match x with
  | JDict d =>
      match assoc key d with
      | Some v => Ok v
      | None => Raise (KeyError key)
      end
  | _ => Raise TypeError
  end.

(** [x.get(key, default)]: only a dict has the method. *)
Definition py_get (x : json) (key : string) (default : json) : result json :=
  match x with
  | JDict d =>
      match assoc key d with
      | Some v => Ok v
      | None => Ok default
      end
  | _ => Raise AttributeError
  end.

(** [float(x)]. *)
Definition py_float (x : json) : result pyfloat :=
  match x with
  | JInt z => float_of_int z
  | JFloat f => Ok f
  | JStr s => float_of_str s
  | JBool b => float_of_int (if b then 1 else 0)
  | _ => Raise TypeError
  end.

(** [int(x)]. *)
Definition py_int (x : json) : result Z :=
  match x with
  | JInt z => Ok z
  | JFloat f => int_of_float f
  | JStr s => int_of_str s
  | JBool b => Ok (if b then 1 else 0)
  | _ => Raise TypeError
  end.

Fixpoint chars (s : string) : list json :=
  match s with
  | EmptyString => []
  | String a s' => JStr (String a EmptyString) :: chars s'
  end.

(** The items a [for] loop over [x] visits: a dict yields its keys, a
    string its characters. *)
Definition py_iter (x : json) : result (list json) :=
  match x with
  | JList l => Ok l
  | JDict d => Ok (map (fun kv => JStr (fst kv)) d)
  | JStr s => Ok (chars s)
  | _ => Raise TypeError
  end.

(** ** Data frames *)

Inductive cell : Type :=
| CTime (d : Pd.datetime64)
| CFloat (f : pyfloat)
| CInt (z : Z)
| CObj (j : json).

(** One record appended to [records]: a dict from column name to value. *)
Definition record : Type := list (string * cell).

Record DataFrame : Type := mkDataFrame {
  columns : list string;
  index : option string;
  rows : list record
}.

Fixpoint add_new (ks : list string) (acc : list string) : list string :=
  match ks with
  | [] => acc
  | k :: ks' =>
      add_new ks' (if existsb (String.eqb k) acc then acc else acc ++ [k])
  end.

(** [pd.DataFrame(records)]: the columns are the keys of the records in
    order of first appearance; no record, no column. *)
Definition DataFrame_of_records (records : list record) : DataFrame :=
  mkDataFrame (fold_left (fun acc r => add_new (map fst r) acc) records []) None records.

(** [pd.DataFrame(columns=cols)] and [pd.DataFrame()]. *)
Definition DataFrame_of_columns (cols : list string) : DataFrame :=
  mkDataFrame cols None [].

Definition DataFrame_empty : DataFrame := mkDataFrame [] None [].

(** [df.empty]: an axis of length zero. *)
Definition empty (df : DataFrame) : bool :=
  match rows df, columns df with
  | [], _ => true
  | _, [] => true
  | _, _ => false
  end.

(** [len(df)]. *)
Definition len (df : DataFrame) : nat := length (rows df).

(** The value a record has in the datetime column being sorted on. *)
Definition time_key (col : string) (r : record) : Pd.datetime64 :=
  match assoc col r with
  | Some (CTime d) => d
  | _ => None
  end.

Fixpoint insert_by (col : string) (r : record) (sorted : list record) : list record :=
  match sorted with
  | [] => [r]
  | r' :: rest =>
      if Pd.dt_leb (time_key col r) (time_key col r')
      then r :: sorted
      else r' :: insert_by col r rest
  end.

Fixpoint sort_by (col : string) (rs : list record) : list record :=
  match rs with
  | [] => []
  | r :: rest => insert_by col r (sort_by col rest)
  end.

(** [df.sort_values(col)] on a datetime column: [KeyError] when the frame
    has no such column, [TypeError] when the column mixes aware and naive
    timestamps; otherwise the rows in ascending order, [NaT] last.  pandas
    does not fix the order of rows with equal keys; the properties below
    use the sorted rows as a permutation only. *)
Definition sort_values (col : string) (df : DataFrame) : result DataFrame :=
  if negb (existsb (String.eqb col) (columns df)) then Raise (KeyError col)
  else if Pd.tz_mixed (map (time_key col) (rows df)) then Raise TypeError
  else Ok (mkDataFrame (columns df) (index df) (sort_by col (rows df))).

(** [df.set_index(col)]: the column becomes the index. *)
Definition set_index (col : string) (df : DataFrame) : result DataFrame :=
  if negb (existsb (String.eqb col) (columns df)) then Raise (KeyError col)
  else Ok (mkDataFrame (List.filter (fun c => negb (String.eqb col c)) (columns df))
             (Some col) (rows df)).

End WithRuntime.
End Py.

(* ===================================================================== *)
(** * src/data/processors.py                                             *)
(* ===================================================================== *)

Module Processors.
Import Py.
Section WithRuntime.
Context `{RT : Runtime}.
Local Open Scope result_scope.

(** [return [response] if response else []]. *)
Definition wrap_response (response : json) : json :=
  if truthy response then JList [response] else JList [].

(** [DataProcessor.extract_content]. *)
Definition extract_content (response : json) : result json :=
  match response with
  | JList _ => Ok response
  | JDict _ =>
      let* has_body := py_in "body" response in
      let* nested :=
        (if has_body
         then (let* body := py_getitem response "body" in py_in "content" body)
         else Ok false) in
      if nested
      then (let* body := py_getitem response "body" in py_getitem body "content")
      else
        let* has_content := py_in "content" response in
        if has_content then py_getitem response "content"
        else
          let* has_items := py_in "items" response in
          if has_items then py_getitem response "items"
          else Ok (wrap_response response)
  | _ => Ok (wrap_response response)
  end.

(** [DataProcessor.parse_datetime] on a string: whatever the parser raises
    is caught by the bare [except]. *)
Definition parse_datetime (dt_str : string) : result Pd.datetime64 :=
  try_except
    (if is_substring "T" dt_str
     then to_datetime dt_str
     else to_datetime_ymd dt_str)
    (fun _ => Ok Pd.NaT).

(** The call [self.parse_datetime(item.get("date", ""))], whose argument is
    whatever the payload holds under the key.  For null, a boolean or a
    number, ["T" in dt_str] raises [TypeError] inside the [try], hence
    [NaT].  For a list or a dict the membership test succeeds and pandas
    takes over with a non-scalar argument. *)
Definition parse_datetime_of (v : json) : result Pd.datetime64 :=
  match v with
  | JStr s => parse_datetime s
  | JList _ | JDict _ => Raise Unmodelled
  | _ => Ok Pd.NaT
  end.

(** [dt.hour if pd.notna(dt) else 0]. *)
Definition hour_or_zero (dt : Pd.datetime64) : Z :=
  match dt with Some t => Pd.hour t | None => 0 end.

(** The dict appended by the loop of [process_ptf_data]; its values are
    evaluated in the order they are written. *)
Definition ptf_record (item : json) : result record :=
  let* d := py_get item "date" (JStr "") in
  let* dt := parse_datetime_of d in
  let* p := py_get item "price" (JInt 0) in
  let* v := py_get item "value" (JInt 0) in
  let* price := py_float (py_or p v) in
  let* h := py_get item "hour" (JInt (hour_or_zero dt)) in
  let* hour := py_int h in
  Ok [("datetime", CTime dt); ("price", CFloat price); ("hour", CInt hour)].

(** [DataProcessor.process_ptf_data]. *)
Definition process_ptf_data (data : json) : result DataFrame :=
  let* content := extract_content data in
  if negb (truthy content)
  then Ok (DataFrame_of_columns ["datetime"; "price"; "hour"])
  else
    let* items := py_iter content in
    let* records := mapM ptf_record (List.filter is_dict items) in
    let* df := sort_values "datetime" (DataFrame_of_records records) in
    set_index "datetime" df.

Definition smf_record (item : json) : result record :=
  let* d := py_get item "date" (JStr "") in
  let* dt := parse_datetime_of d in
  let* u := py_get item "upRegulationPrice" (JInt 0) in
  let* u' := py_get item "yalPrice" (JInt 0) in
  let* up_price := py_float (py_or u u') in
  let* w := py_get item "downRegulationPrice" (JInt 0) in
  let* w' := py_get item "yatPrice" (JInt 0) in
  let* down_price := py_float (py_or w w') in
  let* direction := py_get item "systemDirection" (JStr "") in
  Ok [("datetime", CTime dt); ("up_price", CFloat up_price);
      ("down_price", CFloat down_price); ("direction", CObj direction)].

(** [DataProcessor.process_smf_data]. *)
Definition process_smf_data (data : json) : result DataFrame :=
  let* content := extract_content data in
  if negb (truthy content)
  then Ok (DataFrame_of_columns ["datetime"; "up_price"; "down_price"; "direction"])
  else
    let* items := py_iter content in
    let* records := mapM smf_record (List.filter is_dict items) in
    let* df := sort_values "datetime" (DataFrame_of_records records) in
    set_index "datetime" df.

(** The tail shared by the normalisers that guard on [df.empty]:
    [df = pd.DataFrame(records)], then sort and index unless empty. *)
Definition frame_sorted_unless_empty (records : list record) : result DataFrame :=
  let df := DataFrame_of_records records in
  if negb (empty df)
  then (let* df := sort_values "datetime" df in set_index "datetime" df)
  else Ok df.

(** One row of the hourly branch of [process_generation_data]. *)
Definition generation_hour_record (item : json) (dt : Pd.datetime64)
    (hour_data : json) : result record :=
  let* h := py_get hour_data "hour" (JInt 0) in
  let* hour := py_int h in
  let* dt' := Pd.replace_hour dt hour in
  let* name := py_get item "powerPlantName" (JStr "") in
  let* id := py_get item "powerPlantId" JNull in
  let* ty := py_get hour_data "generationType" (JStr "") in
  let* g := py_get hour_data "generation" (JInt 0) in
  let* value := py_float g in
  Ok [("datetime", CTime dt'); ("power_plant", CObj name);
      ("power_plant_id", CObj id); ("type", CObj ty); ("value", CFloat value)].

(** The row of the simple branch. *)
Definition generation_simple_record (item : json) (dt : Pd.datetime64)
    : result record :=
  let* name := py_get item "powerPlantName" (JStr "") in
  let* id := py_get item "powerPlantId" JNull in
  let* ty := py_get item "generationType" (JStr "") in
  let* g := py_get item "generation" (JInt 0) in
  let* v := py_get item "value" (JInt 0) in
  let* value := py_float (py_or g v) in
  Ok [("datetime", CTime dt); ("power_plant", CObj name);
      ("power_plant_id", CObj id); ("type", CObj ty); ("value", CFloat value)].

(** The rows one item contributes in [process_generation_data]. *)
Definition generation_records (item : json) : result (list record) :=
  let* d := py_get item "date" (JStr "") in
  let* dt := parse_datetime_of d in
  let* hourly := py_in "hourlyGenerations" item in
  if hourly
  then
    let* breakdown := py_getitem item "hourlyGenerations" in
    let* hours := py_iter breakdown in
    mapM (generation_hour_record item dt) hours
  else
    let* r := generation_simple_record item dt in Ok [r].

(** [DataProcessor.process_generation_data]. *)
Definition process_generation_data (data : json) : result DataFrame :=
  let* content := extract_content data in
  if negb (truthy content)
  then Ok (DataFrame_of_columns ["datetime"; "power_plant"; "type"; "value"])
  else
    let* items := py_iter content in
    let* per_item := mapM generation_records (List.filter is_dict items) in
    frame_sorted_unless_empty (concat per_item).

Definition kgup_hour_record (item : json) (dt : Pd.datetime64)
    (hour_data : json) : result record :=
  let* h := py_get hour_data "hour" (JInt 0) in
  let* hour := py_int h in
  let* dt' := Pd.replace_hour dt hour in
  let* name := py_get item "uevcbName" (JStr "") in
  let* id := py_get item "uevcbId" JNull in
  let* g := py_get hour_data "plannedGeneration" (JInt 0) in
  let* value := py_float g in
  Ok [("datetime", CTime dt'); ("uevcb", CObj name); ("uevcb_id", CObj id);
      ("planned_generation", CFloat value)].

Definition kgup_simple_record (item : json) (dt : Pd.datetime64) : result record :=
  let* name := py_get item "uevcbName" (JStr "") in
  let* id := py_get item "uevcbId" JNull in
  let* g := py_get item "plannedGeneration" (JInt 0) in
  let* v := py_get item "value" (JInt 0) in
  let* value := py_float (py_or g v) in
  Ok [("datetime", CTime dt); ("uevcb", CObj name); ("uevcb_id", CObj id);
      ("planned_generation", CFloat value)].

Definition kgup_records (item : json) : result (list record) :=
  let* d := py_get item "date" (JStr "") in
  let* dt := parse_datetime_of d in
  let* hourly := py_in "hourlyPlans" item in
  if hourly
  then
    let* breakdown := py_getitem item "hourlyPlans" in
    let* hours := py_iter breakdown in
    mapM (kgup_hour_record item dt) hours
  else
    let* r := kgup_simple_record item dt in Ok [r].

(** [DataProcessor.process_kgup_data]. *)
Definition process_kgup_data (data : json) : result DataFrame :=
  let* content := extract_content data in
  if negb (truthy content)
  then Ok (DataFrame_of_columns ["datetime"; "uevcb"; "planned_generation"])
  else
    let* items := py_iter content in
    let* per_item := mapM kgup_records (List.filter is_dict items) in
    frame_sorted_unless_empty (concat per_item).

(** [body["summary"].items()]: only a dict has the method. *)
Definition py_items (x : json) : result (list (string * json)) :=
  match x with
  | JDict d => Ok d
  | _ => Raise AttributeError
  end.

Definition dashboard_summary_record (now : Pd.Timestamp) (kv : string * json)
    : record :=
  [("metric", CObj (JStr (fst kv))); ("value", CObj (snd kv));
   ("timestamp", CTime (Some now))].

Definition dashboard_data_record (item : json) : result record :=
  let* name := py_get item "name" (JStr "") in
  let* value := py_get item "value" (JInt 0) in
  let* change := py_get item "change" (JInt 0) in
  let* d := py_get item "date" (JStr "") in
  let* ts := parse_datetime_of d in
  Ok [("metric", CObj name); ("value", CObj value); ("change", CObj change);
      ("timestamp", CTime ts)].

(** [DataProcessor.process_dashboard_data]; [now] is what [datetime.now()]
    reads. *)
Definition process_dashboard_data (now : Pd.Timestamp) (data : json)
    : result DataFrame :=
  let* no_body :=
    (if negb (truthy data) then Ok true
     else (let* b := py_in "body" data in Ok (negb b))) in
  if no_body then Ok DataFrame_empty
  else
    let* body := py_getitem data "body" in
    let* has_summary := py_in "summary" body in
    let* records :=
      (if has_summary
       then
         let* summary := py_getitem body "summary" in
         let* items := py_items summary in
         Ok (map (dashboard_summary_record now) items)
       else
         let* has_data := py_in "data" body in
         if has_data
         then
           let* listed := py_getitem body "data" in
           let* items := py_iter listed in
           mapM dashboard_data_record (List.filter is_dict items)
         else Ok []) in
    Ok (DataFrame_of_records records).

(** The shapes [extract_content] looks for in a dict: a ["body"] that is
    absent, or is a dict without ["content"], lets the top-level keys
    decide. *)
Definition body_without_content (d : list (string * json)) : Prop :=
  assoc "body" d = None \/
  exists b, assoc "body" d = Some (JDict b) /\ assoc "content" b = None.

(** The call [pd.to_datetime] that [parse_datetime] makes for a string. *)
Definition pandas_parse (dt_str : string) : result Pd.datetime64 :=
  if is_substring "T" dt_str then to_datetime dt_str else to_datetime_ymd dt_str.

(** The hour offset and the per-hour source value of an entry of an hourly
    breakdown, as the normalisers read them. *)
Definition entry_hour (hour_data : json) : result Z :=
  let* h := py_get hour_data "hour" (JInt 0) in py_int h.

Definition entry_value (key : string) (hour_data : json) : result pyfloat :=
  let* g := py_get hour_data key (JInt 0) in py_float g.

End WithRuntime.
End Processors.

(* ===================================================================== *)
(** * src/data/models.py and src/data/fetchers.py                        *)
(* ===================================================================== *)

Module Fetchers.
Import Py Processors.
Section WithRuntime.
Context `{RT : Runtime}.
Local Open Scope result_scope.

(** A [datetime]: the day and the microsecond within it. *)
Definition datetime : Type := (Z * Z)%type.

Definition datetime_ltb (a b : datetime) : bool :=
  (fst a <? fst b) || ((fst a =? fst b) && (snd a <? snd b)).

(** [datetime.combine(d, datetime.min.time())] and
    [datetime.combine(d, datetime.max.time())]. *)
Definition combine_min (d : Z) : datetime := (d, 0).
Definition combine_max (d : Z) : datetime := (d, 86399999999).

(** [request.dict()] for the request models the fetchers build. *)
Record Request : Type := mkRequest {
  startDate : option datetime;
  endDate : option datetime;
  organizationId : option Z;
  powerPlantId : option Z
}.

(** [DateRangeRequest]: the validator of [endDate] rejects a range that
    ends before it starts. *)
Definition DateRangeRequest (start_dt end_dt : datetime) (org plant : option Z)
    : result Request :=
  if datetime_ltb end_dt start_dt
  then Raise (ValueError "endDate must be after startDate")
  else Ok (mkRequest (Some start_dt) (Some end_dt) org plant).

(** [UEVCBListRequest]. *)
Definition UEVCBListRequest (org : Z) : Request :=
  mkRequest None None (Some org) None.

(** [UEVCB] of models.py. *)
Record UEVCB : Type := mkUEVCB {
  id : Z;
  name : string;
  eic : string;
  uevcb_organizationId : Z;
  organizationName : option string
}.

(** The client the fetcher awaits.  Its module is not among the sources;
    what awaiting each of its coroutines ends in is taken as given. *)
Record EPIASClient : Type := mkClient {
  get : string -> result json;
  post : string -> Request -> result json;
  get_paginated : string -> Request -> result json
}.

(** [DataFetcher]: its client, together with what the fetchers take from
    their environment: pydantic's construction of a [UEVCB] from the
    keywords of a dict, and the clock read by [datetime.now()]. *)
Record DataFetcher : Type := mkDataFetcher {
  client : EPIASClient;
  UEVCB_of : json -> result UEVCB;
  now : Pd.Timestamp
}.

Definition GENERATION_UEVCB_LIST : string := "/generation/data/uevcb-list".
Definition GENERATION_REALTIME : string := "/generation/data/realtime-generation".
Definition GENERATION_DPP : string := "/generation/data/dpp".
Definition DAM_MCP : string := "/markets/dam/data/mcp".
Definition BPM_SYSTEM_MARGINAL_PRICE : string := "/markets/bpm/data/system-marginal-price".
Definition DASHBOARD_BPM : string := "/dashboard/balancing-power-market".
Definition DASHBOARD_DAM : string := "/dashboard/day-ahead-market".
Definition DASHBOARD_IDM : string := "/dashboard/intra-day-market".
Definition DASHBOARD_CONSUMPTION : string := "/dashboard/realtime-consumption".
Definition DASHBOARD_GENERATION : string := "/dashboard/realtime-generation".
Definition DASHBOARD_WEIGHTED_PRICE : string := "/dashboard/weighted-average-price".

Section WithFetcher.
Variable self : DataFetcher.

(** [DataFetcher.fetch_uevcb_list].  The handler [except APIError] logs
    and raises again, here and in the fetchers below. *)
Definition fetch_uevcb_list (organization_id : Z) : result (list UEVCB) :=
  let request := UEVCBListRequest organization_id in
  let* response := post (client self) GENERATION_UEVCB_LIST request in
  let* has_body := py_in "body" response in
  let* listed :=
    (if has_body
     then (let* body := py_getitem response "body" in py_in "uevcbList" body)
     else Ok false) in
  if listed
  then
    let* body := py_getitem response "body" in
    let* l := py_getitem body "uevcbList" in
    let* items := py_iter l in
    mapM (UEVCB_of self) items
  else Ok [].

(** [DataFetcher.fetch_ptf_data]. *)
Definition fetch_ptf_data (start_date end_date : Z) : result DataFrame :=
  let* request :=
    DateRangeRequest (combine_min start_date) (combine_max end_date) None None in
  let* data := get_paginated (client self) DAM_MCP request in
  process_ptf_data data.

(** [DataFetcher.fetch_smf_data]. *)
Definition fetch_smf_data (start_date end_date : Z) : result DataFrame :=
  let* request :=
    DateRangeRequest (combine_min start_date) (combine_max end_date) None None in
  let* data := get_paginated (client self) BPM_SYSTEM_MARGINAL_PRICE request in
  process_smf_data data.

(** [DataFetcher.fetch_generation_data]. *)
Definition fetch_generation_data (organization_id start_date end_date : Z)
    (power_plant_id : option Z) : result DataFrame :=
  let* request :=
    DateRangeRequest (combine_min start_date) (combine_max end_date)
      (Some organization_id) power_plant_id in
  let* data := get_paginated (client self) GENERATION_REALTIME request in
  process_generation_data data.

(** [DataFetcher.fetch_kgup_data]. *)
Definition fetch_kgup_data (organization_id start_date end_date : Z)
    : result DataFrame :=
  let* request :=
    DateRangeRequest (combine_min start_date) (combine_max end_date)
      (Some organization_id) None in
  let* data := get_paginated (client self) GENERATION_DPP request in
  process_kgup_data data.

(** The [endpoints] list of [fetch_dashboard_data]. *)
Definition dashboard_endpoints : list (string * string) :=
  [("bpm", DASHBOARD_BPM); ("dam", DASHBOARD_DAM); ("idm", DASHBOARD_IDM);
   ("consumption", DASHBOARD_CONSUMPTION); ("generation", DASHBOARD_GENERATION);
   ("weighted_price", DASHBOARD_WEIGHTED_PRICE)].

(** The loop of [fetch_dashboard_data] over the gathered results: an
    exception that [gather] returned becomes an empty frame, a payload is
    normalised, and an exception of the normaliser leaves the loop. *)
Definition dashboard_entry (endpoint : string) : result DataFrame :=
  match get (client self) endpoint with
  | Ok result => process_dashboard_data (now self) result
  | Raise Unmodelled => Raise Unmodelled
  | Raise _ => Ok DataFrame_empty
  end.

Fixpoint dashboard_loop (endpoints : list (string * string))
    (dashboard_data : gmap string DataFrame) : result (gmap string DataFrame) :=
  match endpoints with
  | [] => Ok dashboard_data
  | (name, endpoint) :: rest =>
      let* df := dashboard_entry endpoint in
      dashboard_loop rest (<[name := df]> dashboard_data)
  end.

(** [DataFetcher.fetch_dashboard_data]; the outer handler logs and raises
    again. *)
Definition fetch_dashboard_data : result (gmap string DataFrame) :=
  dashboard_loop dashboard_endpoints ∅.

(** An entry of the overview: a table, or the list of UEVCBs. *)
Inductive overview_value : Type :=
| OvTable (df : DataFrame)
| OvList (l : list UEVCB).

Definition as_table (r : result DataFrame) : result overview_value :=
  let* df := r in Ok (OvTable df).

(** The [tasks] dict of [fetch_organization_overview]. *)
Definition overview_tasks (organization_id start_date end_date : Z)
    : list (string * result overview_value) :=
  [("uevcb_list",
    (let* l := fetch_uevcb_list organization_id in Ok (OvList l)));
   ("generation",
    as_table (fetch_generation_data organization_id start_date end_date None));
   ("kgup", as_table (fetch_kgup_data organization_id start_date end_date));
   ("ptf", as_table (fetch_ptf_data start_date end_date));
   ("smf", as_table (fetch_smf_data start_date end_date))].

(** [pd.DataFrame() if name != "uevcb_list" else []]. *)
Definition overview_default (name : string) : overview_value :=
  if negb (String.eqb name "uevcb_list") then OvTable DataFrame_empty else OvList [].

(** The loop of [fetch_organization_overview]. *)
Fixpoint overview_loop (tasks : list (string * result overview_value))
    (results : gmap string overview_value) : result (gmap string overview_value) :=
  match tasks with
  | [] => Ok results
  | (name, task) :: rest =>
      let* v := try_except_Exception task (fun _ => Ok (overview_default name)) in
      overview_loop rest (<[name := v]> results)
  end.

(** [DataFetcher.fetch_organization_overview]. *)
Definition fetch_organization_overview (organization_id start_date end_date : Z)
    : result (gmap string overview_value) :=
  overview_loop (overview_tasks organization_id start_date end_date) ∅.


End WithFetcher.

(** An outcome inside the model: anything but [Unmodelled]. *)
Definition modelled {A} (r : result A) : Prop :=
  match r with
  | Raise Unmodelled => False
  | _ => True
  end.

End WithRuntime.
End Fetchers.

(* ===================================================================== *)
(** * The pagination driver                                              *)
(* ===================================================================== *)

Module Pagination.
Section Driver.
Local Open Scope result_scope.
Local Open Scope nat_scope.

(** The records of a page are kept abstract. *)
Context {R : Type}.

(** A raw page: its content and, when the envelope carries page metadata,
    the total number of pages. *)
Record RawPage : Type := mkRawPage {
  content : list R;
  total_pages : option nat
}.

(** A request descriptor: the date range and the page cursor. *)
Record Descriptor : Type := mkDescriptor {
  start_date : Z;
  end_date : Z;
  page_number : nat;
  page_size : nat
}.

Definition at_page (d : Descriptor) (number : nat) : Descriptor :=
  mkDescriptor (start_date d) (end_date d) number (page_size d).

(** One request through the HTTP client. *)
Variable request : Descriptor -> result RawPage.

(** Modelled from the spec: the pages after the first, requested one after
    the other by the Pagination Driver until the last page is retrieved or
    a page comes back without content; the driver ([get_paginated] of the
    client) is not among the sources.  The second component lists the page
    numbers requested.  A failure on a page is the result of the whole
    fetch: no partial content is returned. *)
Fixpoint fetch_pages (d : Descriptor) (number remaining : nat)
    : result (list R) * list nat :=
  match remaining with
  | O => (Ok [], [])
  | S k =>
      match request (at_page d number) with
      | Raise e => (Raise e, [number])
      | Ok page =>
          match content page with
          | [] => (Ok [], [number])
          | c =>
              let '(rest, log) := fetch_pages d (S number) k in
              ((let* r := rest in Ok (c ++ r)%list), number :: log)
          end
      end
  end.

(** Modelled from the spec: the Pagination Driver, [fetch_all(descriptor)]
    of the design document and [get_paginated] at the fetchers' call
    sites, whose code is not among the sources.  A range that ends before
    it starts is rejected before any request; the first page is requested,
    the total page count read from its envelope, and the remaining pages
    requested in order; a first page without metadata ends the fetch. *)
Definition get_paginated (d : Descriptor) : result (list R) * list nat :=
  if (end_date d <? start_date d)%Z
  then (Raise (ValueError "endDate must be after startDate"), [])
  else
    match request (at_page d 1) with
    | Raise e => (Raise e, [1])
    | Ok first =>
        match total_pages first with
        | None => (Ok (content first), [1])
        | Some total =>
            let '(rest, log) := fetch_pages d 2 (total - 1) in
            ((let* r := rest in Ok (content first ++ r)%list), 1 :: log)
        end
    end.

End Driver.

Section MockServer.
Local Open Scope nat_scope.
Context {R : Type}.
Variable date_of : R -> Z.
Variable dataset : list R.

Definition in_range (d : @Descriptor) (r : R) : bool :=
  ((start_date d <=? date_of r) && (date_of r <=? end_date d))%Z.

(** The records of the data set inside the requested range. *)
Definition selected (d : @Descriptor) : list R := List.filter (in_range d) dataset.

(** Number of pages of [size] records needed for [n] records. *)
Definition page_count (n size : nat) : nat := (n + size - 1) / size.

(** A server that holds [dataset] and answers each request with the page
    asked for, cut from the records in range. *)
Definition mock_server (d : @Descriptor) : result (@RawPage R) :=
  let recs := selected d in
  Ok (mkRawPage
        (firstn (page_size d) (skipn ((page_number d - 1) * page_size d) recs))
        (Some (page_count (length recs) (page_size d)))).

End MockServer.
End Pagination.

(* ===================================================================== *)
(** * The ticket slot over a run                                         *)
(* ===================================================================== *)

Module Slot.
Import Auth.
Section WithJson.
Context {J : Type}.

(** Whether a call to [current] goes to the authentication endpoint. *)
Definition refreshes (force_refresh : bool) (s : Sys J) : bool :=
  force_refresh || (_expires_at (tgt_mgr s) <=? clock (net s)).

(** The slot is either empty with an expiry that has passed, or holds a
    ticket of the expected format. *)
Definition validated (s : Sys J) : Prop :=
  match _token (tgt_mgr s) with
  | None => _expires_at (tgt_mgr s) <= clock (net s)
  | Some tok => startswith tok "TGT-" = true
  end.

(** A request as it should leave the process: a request to a data
    endpoint has a ticket of the expected format in its TGT header. *)
Definition carries_ticket (e : Event J) : Prop :=
  match e with
  | EvData _ _ ticket _ _ _ =>
      exists tok, ticket = Some tok /\ startswith tok "TGT-" = true
  | EvAuthPost _ _ _ => True
  end.

(** The request [_request_new_token] sends for a manager. *)
Definition credentials (m : TGTManager) : string :=
  "username=" ++ username m ++ "&password=" ++ password m.

End WithJson.
End Slot.

(* ===================================================================== *)
(** * src/data/processors.py: the consumption and bilateral normalisers  *)
(* ===================================================================== *)

Module MoreProcessors.
Import Py Processors.
Section WithRuntime.
Context `{RT : Runtime}.
Local Open Scope result_scope.

(** The dict appended by the loop of [process_consumption_data]. *)
Definition consumption_record (item : json) : result record :=
  let* d := py_get item "date" (JStr "") in
  let* dt := parse_datetime_of d in
  let* province := py_get item "province" (JStr "") in
  let* district := py_get item "district" (JStr "") in
  let* profile_group := py_get item "profileGroup" (JStr "") in
  let* subscriber_type := py_get item "subscriberType" (JStr "") in
  let* c := py_get item "consumption" (JInt 0) in
  let* v := py_get item "value" (JInt 0) in
  let* value := py_float (py_or c v) in
  Ok [("datetime", CTime dt); ("province", CObj province);
      ("district", CObj district); ("profile_group", CObj profile_group);
      ("subscriber_type", CObj subscriber_type); ("value", CFloat value)].

(** [DataProcessor.process_consumption_data]. *)
Definition process_consumption_data (data : json) : result DataFrame :=
  let* content := extract_content data in
  if negb (truthy content)
  then Ok (DataFrame_of_columns
             ["datetime"; "province"; "district"; "profile_group"; "value"])
  else
    let* items := py_iter content in
    let* records := mapM consumption_record (List.filter is_dict items) in
    frame_sorted_unless_empty records.

(** The dict appended by either loop of [process_bilateral_contracts];
    [side] is the literal the loop writes under the key type. *)
Definition bilateral_record (side : string) (item : json) : result record :=
  let* d := py_get item "date" (JStr "") in
  let* dt := parse_datetime_of d in
  let* contract_type := py_get item "contractType" (JStr "") in
  let* q := py_get item "quantity" (JInt 0) in
  let* v := py_get item "value" (JInt 0) in
  let* quantity := py_float (py_or q v) in
  Ok [("datetime", CTime dt); ("type", CObj (JStr side));
      ("contract_type", CObj contract_type); ("quantity", CFloat quantity)].

(** The [records] list of [process_bilateral_contracts]: both contents are
    extracted first, then the buy loop runs, then the sell loop. *)
Definition bilateral_records (buy_data sell_data : json) : result (list record) :=
  let* buy_content := extract_content buy_data in
  let* sell_content := extract_content sell_data in
  let* buy_items := py_iter buy_content in
  let* buys := mapM (bilateral_record "buy") (List.filter is_dict buy_items) in
  let* sell_items := py_iter sell_content in
  let* sells := mapM (bilateral_record "sell") (List.filter is_dict sell_items) in
  Ok (buys ++ sells)%list.

(** [DataProcessor.process_bilateral_contracts].  [pivot_table] stands for
    [df.pivot_table(index="datetime", columns=["type", "contract_type"],
    values="quantity", fill_value=0)], whose averaging of floats is taken
    as given. *)
Definition process_bilateral_contracts (pivot_table : DataFrame -> result DataFrame)
    (buy_data sell_data : json) : result DataFrame :=
  let* records := bilateral_records buy_data sell_data in
  let df := DataFrame_of_records records in
  if negb (empty df)
  then (let* df := sort_values "datetime" df in pivot_table df)
  else Ok df.

(** The value a normaliser converts with [float()] when it reads a field
    under a name of its own and falls back on a generic name. *)
Definition aliased (item : json) (key fallback : string) : result json :=
  let* a := py_get item key (JInt 0) in
  let* b := py_get item fallback (JInt 0) in
  Ok (py_or a b).

(** The datetime column of a frame's rows, in row order. *)
Definition datetimes (df : DataFrame) : list Pd.datetime64 :=
  map (time_key "datetime") (rows df).

End WithRuntime.
End MoreProcessors.

(* ===================================================================== *)
(** * src/data/market.py                                                 *)
(* ===================================================================== *)

Module Market.
Import Auth Epias Py.
Section WithRuntime.
Context `{RT : Runtime}.
Local Open Scope result_scope.

(** [os.environ[key]]. *)
Definition os_environ (environ : gmap string string) (key : string) : result string :=
  match environ !! key with
  | Some v => Ok v
  | None => Raise (KeyError key)
  end.

(** [_client]: a new [EpiasClient], hence a new [TGTManager], on every
    call. *)
Definition _client (environ : gmap string string) : result TGTManager :=
  let* user := os_environ environ "EPIAS_USER" in
  let* pass := os_environ environ "EPIAS_PASS" in
  Ok (init user pass).

Definition clearing_quantity_path : string := "/markets/dam/data/clearing-quantity".

(** The [payload] dict of [clearing_quantity]. *)
Definition clearing_quantity_payload (start end_ : string) (power_plant_id : Z) : json :=
  JDict [("startDate", JStr start); ("endDate", JStr end_);
         ("powerPlantId", JInt power_plant_id)].

(** [clearing_quantity] up to [data["items"]]: the request through a new
    client and the selection of the items.  The tabulation of the items
    that follows is column arithmetic of pandas and is left out. *)
Definition clearing_quantity_items (environ : gmap string string)
    (start end_ : string) (power_plant_id : Z) (w : World json)
    : result json * World json :=
  match _client environ with
  | Raise e => (Raise e, w)
  | Ok mgr =>
      let '(r, s) :=
        post clearing_quantity_path
          (clearing_quantity_payload start end_ power_plant_id) (mkSys mgr w) in
      ((let* data := r in py_getitem data "items"), net s)
  end.

End WithRuntime.
End Market.

(* ===================================================================== *)
(** * Sample inputs                                                      *)
(* ===================================================================== *)

Module Samples.
Import Auth Py.

(** ** A small runtime to run the normalisers on

    Floats are the integral ones, numeric strings are unsigned decimal
    numerals, and dates are read in the two layouts YYYY-MM-DD and
    YYYY-MM-DDTHH:MM:SS. *)

Definition digit (a : ascii) : option Z :=
  let n := Z.of_nat (nat_of_ascii a) in
  if (48 <=? n) && (n <=? 57) then Some (n - 48) else None.

Fixpoint numeral_from (acc : Z) (l : list ascii) : option Z :=
  match l with
  | [] => Some acc
  | a :: l' =>
      match digit a with
      | Some d => numeral_from (acc * 10 + d) l'
      | None => None
      end
  end.

Definition numeral (s : string) : result Z :=
  match list_ascii_of_string s with
  | [] => Raise (ValueError "empty numeral")
  | l => match numeral_from 0 l with
         | Some z => Ok z
         | None => Raise (ValueError "not a numeral")
         end
  end.

Definition field (s : string) (start len : nat) : option Z :=
  numeral_from 0 (list_ascii_of_string (substring start len s)).

Definition read_date (s : string) (h mi se : Z) : result Pd.datetime64 :=
  match field s 0 4, field s 5 2, field s 8 2 with
  | Some y, Some m, Some d =>
      if String.eqb (substring 4 1 s) "-" && String.eqb (substring 7 1 s) "-"
         && (1 <=? m) && (m <=? 12) && (1 <=? d) && (d <=? 31)
      then Ok (Some (Pd.mkTimestamp y m d h mi se 0 None))
      else Raise (ValueError "unconverted data")
  | _, _, _ => Raise (ValueError "unconverted data")
  end.

Definition sample_to_datetime_ymd (s : string) : result Pd.datetime64 :=
  if String.eqb s "" then Ok Pd.NaT
  else if (String.length s =? 10)%nat then read_date s 0 0 0
  else Raise (ValueError "unconverted data").

Definition sample_to_datetime (s : string) : result Pd.datetime64 :=
  if (String.length s =? 19)%nat && String.eqb (substring 10 1 s) "T"
  then match field s 11 2, field s 14 2, field s 17 2 with
       | Some h, Some mi, Some se => read_date (substring 0 10 s) h mi se
       | _, _, _ => Raise (ValueError "unconverted data")
       end
  else Raise (ValueError "unconverted data").

Definition sample_runtime : Runtime := {|
  pyfloat := Z;
  float_of_int := fun z => Ok z;
  float_of_str := numeral;
  float_is_zero := fun z => z =? 0;
  int_of_float := fun z => Ok z;
  int_of_str := numeral;
  to_datetime := sample_to_datetime;
  to_datetime_ymd := sample_to_datetime_ymd
|}.

Definition sjson : Type := @json sample_runtime.

(** An envelope of none of the known shapes, a nested envelope, and a bare
    list of strings. *)
Definition odd_envelope : sjson := JDict [("foo", JInt 1)].
Definition nested_envelope : sjson :=
  JDict [("resultCode", JStr "200");
         ("body", JDict [("content", JList [JInt 1; JInt 2])])].
Definition bare_strings : sjson := JList [JStr "a"; JStr "b"].

(** Two price records, the first with a date that does not parse. *)
Definition bad_date_item : sjson :=
  JDict [("date", JStr "yesterday"); ("price", JInt 100)].
Definition good_date_item : sjson :=
  JDict [("date", JStr "2024-01-01"); ("price", JInt 5); ("hour", JInt 3)].
Definition ptf_payload : sjson := JList [bad_date_item; good_date_item].

(** A generation record and a plan record with a breakdown of two hours. *)
Definition two_hours (key : string) : list sjson :=
  [JDict [("hour", JInt 0); (key, JInt 10)];
   JDict [("hour", JInt 13); (key, JInt 25)]].

Definition generation_item : sjson :=
  JDict [("date", JStr "2024-01-01"); ("powerPlantName", JStr "A");
         ("hourlyGenerations", JList (two_hours "generation"))].

Definition kgup_item : sjson :=
  JDict [("date", JStr "2024-01-01"); ("uevcbName", JStr "U");
         ("hourlyPlans", JList (two_hours "plannedGeneration"))].

Definition midnight : Pd.Timestamp := Pd.mkTimestamp 2024 1 1 0 0 0 0 None.

(** Breakdowns a payload can carry on which the normalisers stop: an hour
    numbered 24, and a null value. *)
Definition hour_24_payload (breakdown key : string) : sjson :=
  JList [JDict [("date", JStr "2024-01-01");
                (breakdown, JList [JDict [("hour", JInt 24); (key, JInt 10)]])]].

Definition null_value_payload (breakdown key : string) : sjson :=
  JList [JDict [("date", JStr "2024-01-01");
                (breakdown, JList [JDict [("hour", JInt 5); (key, JNull)]])]].

(** An authentication server that answers once, with the given status and
    body, after two seconds; a manager that has never fetched a ticket. *)
Definition auth_once (status : Z) (body : string) : Sys unit :=
  mkSys (init "user" "secret")
        (mkWorld 1000 [mkExchange 2%N (Ok (mkResponse status body None))] [] []).

(** A manager holding a ticket acquired at second 1000, read at second
    1500. *)
Definition cached_sys : Sys unit :=
  mkSys (mkTGTManager "user" "secret" (Some "TGT-1") (1000 + TTL_SECONDS - 60))
        (mkWorld 1500 [] [] []).

(** A client with a cached ticket, facing a data server that answers with
    the given responses and an authentication server that answers once. *)
Definition client_sys (auth : Response Z) (data : list (Response Z)) : Sys Z :=
  mkSys (mkTGTManager "user" "secret" (Some "TGT-1") (1000 + TTL_SECONDS - 60))
        (mkWorld 1500 [mkExchange 1%N (Ok auth)]
           (map (fun r => mkExchange 1%N (Ok r)) data) []).

(** ** Pagination: a data set of seven daily records, identified with
    their dates. *)
Definition week : list Z := [1; 2; 3; 4; 5; 6; 7]%Z.

(** ** Fetchers *)

Import Fetchers.

Definition sample_UEVCB_of (x : sjson) : result UEVCB :=
  match x with
  | JDict d =>
      match assoc "id" d, assoc "name" d, assoc "eic" d, assoc "organizationId" d with
      | Some (JInt i), Some (JStr n), Some (JStr e), Some (JInt o) =>
          Ok (mkUEVCB i n e o None)
      | _, _, _, _ => Raise (ValueError "validation error for UEVCB")
      end
  | _ => Raise TypeError
  end.

(** A client for which the UEVCB list and every paginated endpoint but
    the price one are unavailable, and the first dashboard fails. *)
Definition flaky_client (dam_dashboard : sjson) : @EPIASClient sample_runtime :=
  mkClient
    (fun endpoint =>
       if String.eqb endpoint DASHBOARD_BPM then Raise (HTTPError 500)
       else if String.eqb endpoint DASHBOARD_DAM then Ok dam_dashboard
       else Ok (JDict []))
    (fun endpoint request => Raise ConnectionError)
    (fun endpoint request =>
       if String.eqb endpoint DAM_MCP then Ok ptf_payload
       else Raise (HTTPError 503)).

Definition summary_dashboard : sjson :=
  JDict [("body", JDict [("summary", JDict [("price", JInt 10)])])].

(** An error envelope: a result code and a null body. *)
Definition null_body_dashboard : sjson :=
  JDict [("resultCode", JStr "500"); ("body", JNull)].

Definition sample_fetcher (dam_dashboard : sjson) : @DataFetcher sample_runtime :=
  mkDataFetcher (flaky_client dam_dashboard) sample_UEVCB_of midnight.

End Samples.

Module MoreSamples.
Import Auth Py Processors MoreProcessors Fetchers Market Samples.
#[local] Existing Instance sample_runtime.

(** A price record whose own field holds 0 and whose generic field holds
    the value. *)
Definition fallback_item : sjson :=
  JDict [("date", JStr "2024-01-01"); ("price", JInt 0); ("value", JInt 7)].

(** Records whose date does not parse, with a breakdown of one entry
    numbered 24. *)
Definition hour_24_entry (key : string) : sjson :=
  JDict [("hour", JInt 24); (key, JInt 10)].

Definition masked_item (breakdown key : string) : sjson :=
  JDict [("date", JStr "yesterday"); (breakdown, JList [hour_24_entry key])].




(** The two sides of the bilateral contracts of a day: the buy side has an
    item that is not a dict, the sell side reads its quantity under the
    generic name. *)
Definition buy_payload : sjson :=
  JList [JDict [("date", JStr "2024-01-02"); ("contractType", JStr "base");
                ("quantity", JInt 5)];
         JStr "n/a"].

Definition sell_payload : sjson :=
  JList [JDict [("date", JStr "2024-01-01"); ("contractType", JStr "peak");
                ("quantity", JInt 0); ("value", JInt 7)]].

(** The records the two sides yield. *)
Definition contract_records : list (@record sample_runtime) :=
  [[("datetime", CTime (Some (Pd.mkTimestamp 2024 1 2 0 0 0 0 None)));
    ("type", CObj (JStr "buy")); ("contract_type", CObj (JStr "base"));
    ("quantity", CFloat 5)];
   [("datetime", CTime (Some midnight));
    ("type", CObj (JStr "sell")); ("contract_type", CObj (JStr "peak"));
    ("quantity", CFloat 7)]].

(** A client that answers every POST with the given payload. *)
Definition listing_client (answer : sjson) : @EPIASClient sample_runtime :=
  mkClient (fun endpoint => Raise ConnectionError)
           (fun endpoint request => Ok answer)
           (fun endpoint request => Raise ConnectionError).

Definition listing_fetcher (answer : sjson) : @DataFetcher sample_runtime :=
  mkDataFetcher (listing_client answer) sample_UEVCB_of midnight.

Definition uevcb_ok : sjson :=
  JDict [("id", JInt 1); ("name", JStr "U1"); ("eic", JStr "40W0001");
         ("organizationId", JInt 9)].

Definition uevcb_incomplete : sjson := JDict [("id", JInt 2)].

Definition uevcb_listing (items : list sjson) : list (string * sjson) :=
  [("body", JDict [("uevcbList", JList items)])].

(** The environment of the market query, with and without the password. *)
Definition user_only : gmap string string := <["EPIAS_USER" := "user"]> ∅.

Definition both_credentials : gmap string string :=
  <["EPIAS_USER" := "user"]> (<["EPIAS_PASS" := "secret"]> ∅).

(** A world in which the authentication server hands out a ticket and the
    data server answers with an empty list of items. *)
Definition market_world : World sjson :=
  mkWorld 1000
    [mkExchange 2%N (Ok (mkResponse 200 "TGT-9" None))]
    [mkExchange 1%N (Ok (mkResponse 200 "" (Some (JDict [("items", JList [])]))))]
    [].

(** The same with an authentication server that is down. *)
Definition market_world_down : World sjson :=
  mkWorld 1000
    [mkExchange 2%N (Ok (mkResponse 503 "" None))]
    [mkExchange 1%N (Ok (mkResponse 200 "" (Some (JDict [("items", JList [])]))))]
    [].

End MoreSamples.

(* ===================================================================== *)
(** * Properties                                                         *)
(* ===================================================================== *)

Section AuthProperties.
Import Auth.
Context {J : Type}.
Implicit Types (s : Sys J) (resp : Response J).

Lemma raise_for_status_error resp s :
  error_status (status_code resp) = true ->
  raise_for_status resp s = (Raise (HTTPError (status_code resp)), s).
Proof.
  unfold raise_for_status, error_status. intros ->. reflexivity.
Qed.

Lemma raise_for_status_pass resp s :
  error_status (status_code resp) = false ->
  raise_for_status resp s = (Ok tt, s).
Proof.
  unfold raise_for_status, error_status. intros ->. reflexivity.
Qed.

Lemma request_new_token_eq s :
  _request_new_token s = (token_of_outcome (next_auth_outcome s), after_auth s).
Proof.
  unfold _request_new_token, after_auth, next_auth_outcome, bind, requests_post_auth.
  destruct s as [m w]; simpl.
  destruct (auth_server w) as [|x rest]; simpl; [reflexivity|].
  destruct (outcome x) as [resp|e]; simpl; [|reflexivity].
  unfold raise_for_status, error_status.
  destruct ((400 <=? status_code resp) && (status_code resp <? 600)); simpl;
    [reflexivity|].
  destruct (startswith (strip (text resp)) "TGT-"); reflexivity.
Qed.

Lemma after_auth_mgr s : tgt_mgr (after_auth s) = tgt_mgr s.
Proof.
  unfold after_auth, requests_post_auth.
  destruct (auth_server (net s)); reflexivity.
Qed.

Lemma after_auth_trace s :
  exists ev, trace (net (after_auth s)) = (trace (net s) ++ [ev])%list /\
             is_auth_event ev = true /\
             delivered ev =
               match token_of_outcome (next_auth_outcome s) with
               | Ok tok => Some (tok, clock (net (after_auth s)))
               | Raise _ => None
               end.
Proof.
  unfold after_auth, requests_post_auth, next_auth_outcome.
  destruct (auth_server (net s)) as [|x rest]; simpl.
  - eexists; split; [reflexivity|]. split; reflexivity.
  - eexists; split; [reflexivity|]. split; [reflexivity|].
    simpl. destruct (outcome x) as [resp|e]; simpl; [|reflexivity].
    destruct (error_status (status_code resp)); [reflexivity|].
    destruct (startswith (strip (text resp)) "TGT-"); reflexivity.
Qed.

Lemma after_auth_data s : data_server (net (after_auth s)) = data_server (net s).
Proof.
  unfold after_auth, requests_post_auth.
  destruct (auth_server (net s)); reflexivity.
Qed.

(** [current] when it answers from the cache. *)
Lemma current_cached s :
  clock (net s) < _expires_at (tgt_mgr s) ->
  current false s = (Ok (_token (tgt_mgr s)), s).
Proof.
  intros H. unfold current, bind, time_time, ret; simpl.
  destruct (Z.leb_spec (_expires_at (tgt_mgr s)) (clock (net s))); [lia|reflexivity].
Qed.

(** [current] when it goes to the authentication endpoint. *)
Lemma current_refresh force s :
  force || (_expires_at (tgt_mgr s) <=? clock (net s)) = true ->
  current force s =
    match token_of_outcome (next_auth_outcome s) with
    | Ok tok => (Ok (Some tok), refreshed tok (after_auth s))
    | Raise e => (Raise e, after_auth s)
    end.
Proof.
  intros H. unfold current, bind at 1 2, time_time; simpl. rewrite H.
  unfold bind at 1. rewrite request_new_token_eq.
  destruct (token_of_outcome (next_auth_outcome s)) as [tok|e]; [|reflexivity].
  reflexivity.
Qed.

Lemma last_acquisition_app (tr : list (Event J)) ev :
  last_acquisition (tr ++ [ev])%list =
    match delivered ev with
    | Some a => Some a
    | None => last_acquisition tr
    end.
Proof.
  induction tr as [|e tr IH]; simpl.
  - destruct (delivered ev); reflexivity.
  - rewrite IH. destruct (delivered ev); [reflexivity|].
    reflexivity.
Qed.

Lemma ticket_inv_wait d s : ticket_inv s -> ticket_inv (wait d s).
Proof. intros H tok Htok. exact (H tok Htok). Qed.

Lemma ticket_inv_after_failure s e :
  token_of_outcome (next_auth_outcome s) = Raise e ->
  ticket_inv s -> ticket_inv (after_auth s).
Proof.
  intros Hf H tok Htok. rewrite after_auth_mgr in *.
  destruct (H tok Htok) as [acq [Hacq Hexp]]. exists acq. split; [|assumption].
  destruct (after_auth_trace s) as [ev [-> [_ Hd]]].
  rewrite last_acquisition_app, Hd, Hf. assumption.
Qed.

Lemma current_keeps_inv force s :
  ticket_inv s ->
  ticket_inv (snd (current force s)) /\
  forall tok, fst (current force s) = Ok (Some tok) ->
    exists acq,
      last_acquisition (trace (net (snd (current force s)))) = Some (tok, acq) /\
      _expires_at (tgt_mgr (snd (current force s))) = acq + TTL_SECONDS - 60 /\
      clock (net (snd (current force s))) + 60 <= acq + TTL_SECONDS.
Proof.
  intros Hinv.
  destruct (force || (_expires_at (tgt_mgr s) <=? clock (net s))) eqn:Hc.
  - rewrite (current_refresh force s Hc).
    destruct (token_of_outcome (next_auth_outcome s)) as [tok|e] eqn:Ht; simpl.
    + assert (Hnew : last_acquisition (trace (net (after_auth s)))
                     = Some (tok, clock (net (after_auth s)))).
      { destruct (after_auth_trace s) as [ev [-> [_ Hd]]].
        rewrite last_acquisition_app, Hd, Ht. reflexivity. }
      split.
      * intros tok' Htok'. simpl in Htok'. injection Htok' as <-.
        exists (clock (net (after_auth s))). split; [exact Hnew|reflexivity].
      * intros tok' Htok'. injection Htok' as <-.
        exists (clock (net (after_auth s))). split; [exact Hnew|].
        split; [reflexivity|]. unfold TTL_SECONDS. lia.
    + split; [|discriminate].
      apply (ticket_inv_after_failure s e Ht), Hinv.
  - apply orb_false_iff in Hc as [-> Hlt].
    apply Z.leb_gt in Hlt. rewrite (current_cached s Hlt). simpl.
    split; [assumption|].
    intros tok Htok. injection Htok as Htok.
    destruct (Hinv tok Htok) as [acq [Hacq Hexp]].
    exists acq. split; [assumption|]. split; [assumption|]. lia.
Qed.

Lemma run_keeps_tickets_fresh acts : forall s,
  ticket_inv s ->
  Forall (fun o : result (option string) * Sys J =>
            forall tok, fst o = Ok (Some tok) ->
              exists acq,
                last_acquisition (trace (net (snd o))) = Some (tok, acq) /\
                _expires_at (tgt_mgr (snd o)) = acq + TTL_SECONDS - 60 /\
                clock (net (snd o)) + 60 <= acq + TTL_SECONDS)
         (run acts s).
Proof.
  induction acts as [|[f|d] acts IH]; intros s Hinv; simpl.
  - constructor.
  - destruct (current_keeps_inv f s Hinv) as [Hinv' Hret].
    destruct (current f s) as [r s'] eqn:Hcur. simpl in *.
    constructor; [exact Hret|]. apply IH, Hinv'.
  - apply IH, ticket_inv_wait, Hinv.
Qed.

(** C6, as amended.  When the authentication endpoint answers,
    [_request_new_token] raises requests' [HTTPError] on a 4xx or 5xx
    status, raises [ValueError] when the status is any other and the
    stripped body does not start with the literal TGT- prefix, and returns
    a ticket only for a body with that prefix on a status outside 4xx/5xx;
    the cached slot is not touched. *)
Theorem request_new_token_failure s resp :
  next_auth_outcome s = Ok resp ->
  (error_status (status_code resp) = true ->
     fst (_request_new_token s) = Raise (HTTPError (status_code resp))) /\
  (error_status (status_code resp) = false ->
   startswith (strip (text resp)) "TGT-" = false ->
     fst (_request_new_token s)
       = Raise (ValueError "Unexpected token format returned by CAS")) /\
  (forall tok, fst (_request_new_token s) = Ok tok ->
     error_status (status_code resp) = false /\
     startswith (strip (text resp)) "TGT-" = true /\
     tok = strip (text resp)) /\
  tgt_mgr (snd (_request_new_token s)) = tgt_mgr s.
Proof.
  intros Hresp. rewrite request_new_token_eq, Hresp. simpl.
  repeat split.
  - intros ->. reflexivity.
  - intros -> ->. reflexivity.
  - destruct (error_status (status_code resp)); [discriminate|reflexivity].
  - destruct (error_status (status_code resp)); [discriminate|].
    destruct (startswith (strip (text resp)) "TGT-"); [reflexivity|discriminate].
  - destruct (error_status (status_code resp)); [discriminate|].
    destruct (startswith (strip (text resp)) "TGT-"); [|discriminate].
    congruence.
  - apply after_auth_mgr.
Qed.

(** C7.  With an unexpired ticket in the cache (the clock is before the
    cached expiry), [current()] returns that ticket and changes nothing;
    called again later, while the ticket is still unexpired, it returns
    the same ticket, sends no request (the trace is the one before the
    calls) and leaves ticket and expiry as they were. *)
Theorem current_idempotent s tok d :
  _token (tgt_mgr s) = Some tok ->
  clock (net s) < _expires_at (tgt_mgr s) ->
  clock (net s) + Z.of_N d < _expires_at (tgt_mgr s) ->
  current false s = (Ok (Some tok), s) /\
  current false (wait d s) = (Ok (Some tok), wait d s) /\
  trace (net (snd (current false (wait d (snd (current false s)))))) = trace (net s) /\
  tgt_mgr (snd (current false (wait d (snd (current false s))))) = tgt_mgr s.
Proof.
  intros Htok H1 H2.
  assert (E1 : current false s = (Ok (Some tok), s)).
  { rewrite (current_cached s H1), Htok. reflexivity. }
  assert (E2 : current false (wait d s) = (Ok (Some tok), wait d s)).
  { rewrite (current_cached (wait d s)); [simpl; rewrite Htok; reflexivity|].
    simpl. exact H2. }
  rewrite E1. simpl. rewrite E2. simpl. repeat split.
Qed.

(** C8.  Along every sequence of [current()] calls, with any pauses in
    between and whatever the authentication server answers, a ticket that
    a call returns is the one of the latest acquisition, its cached expiry
    is the acquisition instant plus the validity window minus 60 seconds,
    and at the moment it is returned its real expiry (acquisition instant
    plus the validity window) is at least 60 seconds away. *)
Theorem ticket_never_near_expiry (user pass : string) (w : World J) acts :
  Forall (fun o : result (option string) * Sys J =>
            forall tok, fst o = Ok (Some tok) ->
              exists acq,
                last_acquisition (trace (net (snd o))) = Some (tok, acq) /\
                _expires_at (tgt_mgr (snd o)) = acq + TTL_SECONDS - 60 /\
                clock (net (snd o)) + 60 <= acq + TTL_SECONDS)
         (run acts (mkSys (init user pass) w)).
Proof.
  apply run_keeps_tickets_fresh. intros tok Htok. discriminate.
Qed.

End AuthProperties.


Section ClientProperties.
Import Auth Epias.
Context {J : Type}.
Implicit Types (s : Sys J) (resp : Response J).

Lemma session_request_eq method url ticket (payload : J) s :
  session_request method url ticket payload s
  = (next_data_outcome s, after_data method url ticket payload s).
Proof.
  unfold after_data, next_data_outcome, session_request.
  destruct (data_server (net s)); reflexivity.
Qed.

Lemma after_data_trace method url ticket (payload : J) s :
  trace (net (after_data method url ticket payload s))
  = (trace (net s)
       ++ [EvData method url ticket payload
             (clock (net (after_data method url ticket payload s)))
             (next_data_outcome s)])%list.
Proof.
  unfold after_data, next_data_outcome, session_request.
  destruct (data_server (net s)); reflexivity.
Qed.

Lemma after_data_mgr method url ticket (payload : J) s :
  tgt_mgr (after_data method url ticket payload s) = tgt_mgr s.
Proof.
  unfold after_data, session_request.
  destruct (data_server (net s)); reflexivity.
Qed.

Lemma verdict_eq resp s :
  bind (raise_for_status resp) (fun _ => resp_json resp) s
  = (response_verdict (Ok resp), s).
Proof.
  unfold bind, raise_for_status, resp_json, response_verdict, error_status.
  destruct ((400 <=? status_code resp) && (status_code resp <? 600)); simpl;
    [reflexivity|].
  destruct (json_body resp); reflexivity.
Qed.

Lemma data_requests_app (tr1 tr2 : list (Event J)) :
  data_requests (tr1 ++ tr2) = (data_requests tr1 + data_requests tr2)%nat.
Proof. unfold data_requests. rewrite List.filter_app, List.length_app. reflexivity. Qed.

Lemma auth_requests_app (tr1 tr2 : list (Event J)) :
  auth_requests (tr1 ++ tr2) = (auth_requests tr1 + auth_requests tr2)%nat.
Proof. unfold auth_requests. rewrite List.filter_app, List.length_app. reflexivity. Qed.

Lemma success_not_error status :
  success_status status = true -> error_status status = false.
Proof.
  unfold success_status, error_status. intros H.
  apply andb_true_iff in H as [_ H]. apply Z.ltb_lt in H.
  apply andb_false_iff. left. apply Z.leb_gt. lia.
Qed.

(** C1, as amended.  When the first response to a request has status 401
    or 406, the client asks once for a new ticket.  If that refresh
    succeeds, the client sends the same request exactly once more, with the
    new ticket, and this second response is final: a 4xx or 5xx status
    (a second 401 or 406 among them) raises requests' [HTTPError] carrying
    that status, any other status returns the parsed body (a 2xx status
    with a JSON body in particular); two requests went to the data endpoint
    and one to the authentication endpoint.  If the refresh fails, its
    exception is raised and the request is not sent again. *)
Theorem request_retries_once method path (payload : J) s tok0 s0 resp1 :
  current false s = (Ok tok0, s0) ->
  next_data_outcome s0 = Ok resp1 ->
  auth_failure resp1 = true ->
  let url := BASE ++ path in
  let s1 := after_data method url tok0 payload s0 in
  match token_of_outcome (next_auth_outcome s1) with
  | Ok tok1 =>
      let s2 := refreshed tok1 (after_auth s1) in
      let s3 := after_data method url (Some tok1) payload s2 in
      _request method path payload s = (response_verdict (next_data_outcome s2), s3) /\
      (exists t1 ev t3,
          is_auth_event ev = true /\
          trace (net s3)
          = (trace (net s0)
               ++ [EvData method url tok0 payload t1 (Ok resp1); ev;
                   EvData method url (Some tok1) payload t3 (next_data_outcome s2)])%list) /\
      data_requests (trace (net s3)) = (data_requests (trace (net s0)) + 2)%nat /\
      auth_requests (trace (net s3)) = (auth_requests (trace (net s0)) + 1)%nat /\
      (forall resp2 j,
          next_data_outcome s2 = Ok resp2 ->
          success_status (status_code resp2) = true ->
          json_body resp2 = Some j ->
          fst (_request method path payload s) = Ok j) /\
      (forall resp2,
          next_data_outcome s2 = Ok resp2 ->
          error_status (status_code resp2) = true ->
          fst (_request method path payload s) = Raise (HTTPError (status_code resp2)))
  | Raise e =>
      _request method path payload s = (Raise e, after_auth s1) /\
      data_requests (trace (net (after_auth s1)))
      = (data_requests (trace (net s0)) + 1)%nat
  end.
Proof.
  intros Hcur Hout Hfail url s1.
  assert (Hforce : current true s1 =
                   match token_of_outcome (next_auth_outcome s1) with
                   | Ok tok => (Ok (Some tok), refreshed tok (after_auth s1))
                   | Raise e => (Raise e, after_auth s1)
                   end) by (apply current_refresh; reflexivity).
  assert (Hreq : _request method path payload s =
                 match current true s1 with
                 | (Ok ticket', s2) =>
                     (response_verdict (next_data_outcome s2),
                      after_data method url ticket' payload s2)
                 | (Raise e, s2) => (Raise e, s2)
                 end).
  { unfold _request. fold url. unfold bind at 1. rewrite Hcur.
    unfold bind at 1. rewrite session_request_eq, Hout. fold s1.
    unfold bind at 1. rewrite Hfail. unfold bind at 1.
    destruct (current true s1) as [[ticket'|e] s2]; [|reflexivity].
    rewrite session_request_eq.
    destruct (next_data_outcome s2) as [resp2|e2]; [|reflexivity].
    apply verdict_eq. }
  rewrite Hforce in Hreq.
  destruct (after_auth_trace s1) as [ev [Htr [Hev _]]].
  assert (Htr1 : trace (net s1)
                 = (trace (net s0)
                      ++ [EvData method url tok0 payload (clock (net s1)) (Ok resp1)])%list).
  { unfold s1. rewrite after_data_trace, Hout. reflexivity. }
  destruct (token_of_outcome (next_auth_outcome s1)) as [tok1|e]; simpl.
  - set (s2 := refreshed tok1 (after_auth s1)) in *.
    set (s3 := after_data method url (Some tok1) payload s2) in *.
    assert (Htr3 : trace (net s3)
                   = (trace (net s0)
                        ++ [EvData method url tok0 payload (clock (net s1)) (Ok resp1); ev;
                            EvData method url (Some tok1) payload (clock (net s3))
                              (next_data_outcome s2)])%list).
    { unfold s3. rewrite after_data_trace. fold s3.
      change (trace (net s2)) with (trace (net (after_auth s1))).
      rewrite Htr, Htr1, <- !app_assoc. reflexivity. }
    split; [exact Hreq|]. split; [eauto 6|].
    split; [|split; [|split]].
    + rewrite Htr3, data_requests_app. unfold data_requests at 2. simpl.
      destruct ev; [reflexivity|discriminate].
    + rewrite Htr3, auth_requests_app. unfold auth_requests at 2. simpl.
      destruct ev; [reflexivity|discriminate].
    + intros resp2 j H2 Hs Hj. rewrite Hreq, H2. simpl.
      rewrite (success_not_error _ Hs), Hj. reflexivity.
    + intros resp2 H2 He. rewrite Hreq, H2. simpl. rewrite He. reflexivity.
  - split; [exact Hreq|].
    rewrite Htr, Htr1, !data_requests_app. unfold data_requests at 2 3. simpl.
    destruct ev; [simpl; lia|discriminate].
Qed.

(** Whatever the servers answer, a request goes to the data endpoint at
    most twice. *)
Lemma request_at_most_two_attempts method path (payload : J) s :
  (data_requests (trace (net (snd (_request method path payload s))))
   <= data_requests (trace (net (snd (current false s)))) + 2)%nat.
Proof.
  unfold _request. set (url := BASE ++ path).
  unfold bind at 1. destruct (current false s) as [[tok0|e0] s0]; simpl; [|lia].
  unfold bind at 1. rewrite session_request_eq.
  pose proof (after_data_trace method url tok0 payload s0) as Htr1.
  set (s1 := after_data method url tok0 payload s0) in *.
  destruct (next_data_outcome s0) as [resp1|e1]; simpl;
    [|rewrite Htr1, data_requests_app; unfold data_requests at 2; simpl; lia].
  unfold bind at 1.
  assert (H1 : data_requests (trace (net s1))
               = (data_requests (trace (net s0)) + 1)%nat).
  { rewrite Htr1, data_requests_app. reflexivity. }
  destruct (auth_failure resp1).
  - unfold bind at 1. rewrite (current_refresh true s1 eq_refl).
    destruct (after_auth_trace s1) as [ev [Htr [Hev _]]].
    assert (H2 : data_requests (trace (net (after_auth s1)))
                 = (data_requests (trace (net s0)) + 1)%nat).
    { rewrite Htr, data_requests_app, H1. unfold data_requests at 2. simpl.
      destruct ev; [simpl; lia|discriminate]. }
    destruct (token_of_outcome (next_auth_outcome s1)) as [tok1|e]; simpl; [|lia].
    rewrite session_request_eq.
    set (s2 := refreshed tok1 (after_auth s1)).
    pose proof (after_data_trace method url (Some tok1) payload s2) as Htr3.
    assert (H3 : data_requests (trace (net (after_data method url (Some tok1) payload s2)))
                 = (data_requests (trace (net s0)) + 2)%nat).
    { rewrite Htr3, data_requests_app.
      change (trace (net s2)) with (trace (net (after_auth s1))). rewrite H2.
      unfold data_requests at 2. simpl. lia. }
    destruct (next_data_outcome s2) as [resp2|e2]; simpl; [|lia].
    rewrite verdict_eq. simpl. lia.
  - simpl. rewrite verdict_eq. simpl. lia.
Qed.

End ClientProperties.

Section ProcessorProperties.
Import Py Processors.
Context `{RT : Runtime}.
Local Open Scope result_scope.

(** C4, as amended.  [extract_content] returns a bare list as it is; for a
    dict it returns the value under body/content, else the value under a
    top-level content key, else the value under a top-level items key (the
    body, when present, being a dict); and when none of these shapes
    matches it does not fail: it returns the one-element list holding the
    response when the response is truthy, and the empty list otherwise. *)
Theorem extract_content_shapes (response : json) :
  (forall l, response = JList l -> extract_content response = Ok (JList l)) /\
  (forall d, response = JDict d ->
     (forall b c, assoc "body" d = Some (JDict b) -> assoc "content" b = Some c ->
        extract_content response = Ok c) /\
     (body_without_content d ->
        (forall c, assoc "content" d = Some c -> extract_content response = Ok c) /\
        (assoc "content" d = None ->
           (forall c, assoc "items" d = Some c -> extract_content response = Ok c) /\
           (assoc "items" d = None ->
              extract_content response = Ok (wrap_response response))))) /\
  (is_list response = false -> is_dict response = false ->
     extract_content response = Ok (wrap_response response)).
Proof.
  split; [|split].
  - intros l ->. reflexivity.
  - intros d ->. split.
    + intros b c Hb Hc. unfold extract_content, py_in, py_getitem, has_key; simpl.
      rewrite Hb; simpl. unfold has_key. rewrite Hc. reflexivity.
    + intros Hbody.
      assert (Hn : extract_content (JDict d) =
                   (let* has_content := py_in "content" (JDict d) in
                    if has_content then py_getitem (JDict d) "content"
                    else
                      let* has_items := py_in "items" (JDict d) in
                      if has_items then py_getitem (JDict d) "items"
                      else Ok (wrap_response (JDict d)))).
      { unfold extract_content at 1. unfold py_in at 1, has_key at 1; simpl.
        destruct Hbody as [Hb|[b [Hb Hc]]]; rewrite Hb; simpl; [reflexivity|].
        unfold has_key. rewrite Hc. reflexivity. }
      rewrite Hn. unfold py_in, py_getitem, has_key; simpl. split.
      * intros c Hc. rewrite Hc. reflexivity.
      * intros Hc. rewrite Hc; simpl. split.
        -- intros c Hi. rewrite Hi. reflexivity.
        -- intros Hi. rewrite Hi. reflexivity.
  - intros Hl Hd. destruct response; try reflexivity; discriminate.
Qed.

Lemma filter_no_dict (l : list json) :
  Forall (fun x => is_dict x = false) l -> List.filter is_dict l = [].
Proof.
  induction 1 as [|x l Hx _ IH]; simpl; [reflexivity|].
  rewrite Hx. exact IH.
Qed.

Lemma set_index_index col (df df' : DataFrame) :
  set_index col df = Ok df' -> index df' = Some col.
Proof.
  unfold set_index. destruct (negb _); [discriminate|].
  intros H. injection H as <-. reflexivity.
Qed.

Lemma set_index_rows col (df df' : DataFrame) :
  set_index col df = Ok df' -> rows df' = rows df.
Proof.
  unfold set_index. destruct (negb _); [discriminate|].
  intros H. injection H as <-. reflexivity.
Qed.

Lemma sorted_indexed_not_plain (records : list record) cols :
  (let* df := sort_values "datetime" (DataFrame_of_records records) in
   set_index "datetime" df) <> Ok (DataFrame_of_columns cols).
Proof.
  destruct (sort_values "datetime" (DataFrame_of_records records)) as [df|e];
    simpl; [|discriminate].
  intros H. apply set_index_index in H. discriminate.
Qed.

Lemma process_ptf_data_nonempty data x l :
  extract_content data = Ok (JList (x :: l)) ->
  process_ptf_data data =
    (let* records := mapM ptf_record (List.filter is_dict (x :: l)) in
     let* df := sort_values "datetime" (DataFrame_of_records records) in
     set_index "datetime" df).
Proof. intros H. unfold process_ptf_data. rewrite H. reflexivity. Qed.

Lemma process_smf_data_nonempty data x l :
  extract_content data = Ok (JList (x :: l)) ->
  process_smf_data data =
    (let* records := mapM smf_record (List.filter is_dict (x :: l)) in
     let* df := sort_values "datetime" (DataFrame_of_records records) in
     set_index "datetime" df).
Proof. intros H. unfold process_smf_data. rewrite H. reflexivity. Qed.

(** C10.  When the extracted content is a list, [process_ptf_data] and
    [process_smf_data] take the early return with the documented columns
    exactly when that list is empty; on a non-empty list without any dict
    item they raise [KeyError] for the column datetime, raised by sorting a
    frame that has no column. *)
Theorem non_dict_items_raise_KeyError (data : json) (l : list json) :
  extract_content data = Ok (JList l) ->
  (l = [] ->
     process_ptf_data data = Ok (DataFrame_of_columns ["datetime"; "price"; "hour"]) /\
     process_smf_data data
       = Ok (DataFrame_of_columns ["datetime"; "up_price"; "down_price"; "direction"])) /\
  (l <> [] -> Forall (fun x => is_dict x = false) l ->
     process_ptf_data data = Raise (KeyError "datetime") /\
     process_smf_data data = Raise (KeyError "datetime")) /\
  (l <> [] ->
     process_ptf_data data <> Ok (DataFrame_of_columns ["datetime"; "price"; "hour"]) /\
     process_smf_data data
       <> Ok (DataFrame_of_columns ["datetime"; "up_price"; "down_price"; "direction"])).
Proof.
  intros Hx. split; [|split].
  - intros ->. unfold process_ptf_data, process_smf_data. rewrite Hx. split; reflexivity.
  - intros Hne Hnd. destruct l as [|x l]; [congruence|].
    rewrite (process_ptf_data_nonempty data x l Hx),
            (process_smf_data_nonempty data x l Hx).
    rewrite (filter_no_dict _ Hnd). split; reflexivity.
  - intros Hne. destruct l as [|x l]; [congruence|].
    rewrite (process_ptf_data_nonempty data x l Hx),
            (process_smf_data_nonempty data x l Hx).
    split.
    + destruct (mapM ptf_record (List.filter is_dict (x :: l))) as [records|e];
        [|discriminate].
      apply sorted_indexed_not_plain.
    + destruct (mapM smf_record (List.filter is_dict (x :: l))) as [records|e];
        [|discriminate].
      apply sorted_indexed_not_plain.
Qed.

Lemma mapM_Forall2 {A B} (f : A -> result B) (l : list A) (rs : list B) :
  mapM f l = Ok rs <-> Forall2 (fun x r => f x = Ok r) l rs.
Proof.
  revert rs. induction l as [|x l IH]; intros rs; simpl.
  - split.
    + intros H. injection H as <-. constructor.
    + intros H. inversion H. reflexivity.
  - split.
    + destruct (f x) as [y|e] eqn:Hx; simpl; [|discriminate].
      destruct (mapM f l) as [ys|e] eqn:Hl; simpl; [|discriminate].
      intros H. injection H as <-. constructor; [exact Hx|].
      apply IH. reflexivity.
    + intros H. inversion H as [|x' y l' ys Hx Hl]; subst.
      rewrite Hx; simpl. apply IH in Hl. rewrite Hl. reflexivity.
Qed.

Lemma Forall2_In_l {A B} (P : A -> B -> Prop) (l : list A) (rs : list B) x :
  Forall2 P l rs -> In x l -> exists r, In r rs /\ P x r.
Proof.
  induction 1 as [|y r l rs Hy _ IH]; intros Hin; [destruct Hin|].
  destruct Hin as [->|Hin].
  - exists r. split; [left; reflexivity|exact Hy].
  - destruct (IH Hin) as [r' [Hr' Hx]]. exists r'. split; [right; exact Hr'|exact Hx].
Qed.

Lemma insert_by_perm col (r : record) (rs : list record) :
  Permutation (insert_by col r rs) (r :: rs).
Proof.
  induction rs as [|r' rs IH]; simpl; [reflexivity|].
  destruct (Pd.dt_leb _ _); [reflexivity|].
  rewrite IH. apply perm_swap.
Qed.

Lemma sort_by_perm col (rs : list record) : Permutation (sort_by col rs) rs.
Proof.
  induction rs as [|r rs IH]; simpl; [reflexivity|].
  rewrite insert_by_perm. constructor. exact IH.
Qed.

Lemma sort_values_rows col (df df' : DataFrame) :
  sort_values col df = Ok df' -> Permutation (rows df) (rows df').
Proof.
  unfold sort_values. destruct (negb _); [discriminate|].
  destruct (Pd.tz_mixed _); [discriminate|].
  intros H. injection H as <-. simpl. symmetry. apply sort_by_perm.
Qed.

Lemma sorted_indexed_rows (records : list record) (df : DataFrame) :
  (let* df := sort_values "datetime" (DataFrame_of_records records) in
   set_index "datetime" df) = Ok df ->
  Permutation records (rows df).
Proof.
  destruct (sort_values "datetime" (DataFrame_of_records records)) as [df1|e] eqn:Hs;
    simpl; [|discriminate].
  intros H. apply set_index_rows in H. rewrite H.
  apply sort_values_rows in Hs. exact Hs.
Qed.

Lemma falsy_iter_nil (content : json) (items : list json) :
  truthy content = false -> py_iter content = Ok items -> items = [].
Proof.
  destruct content as [| | | |s|l|d]; simpl; try discriminate.
  - destruct s; simpl; [|discriminate]. intros _ H. injection H as <-. reflexivity.
  - destruct l; [|discriminate]. intros _ H. injection H as <-. reflexivity.
  - destruct d; [|discriminate]. intros _ H. injection H as <-. reflexivity.
Qed.

Lemma process_ptf_data_rows data content items df :
  extract_content data = Ok content ->
  py_iter content = Ok items ->
  process_ptf_data data = Ok df ->
  exists records,
    mapM ptf_record (List.filter is_dict items) = Ok records /\
    Permutation records (rows df).
Proof.
  intros Hx Hi. unfold process_ptf_data. rewrite Hx. simpl.
  destruct (truthy content) eqn:Ht; simpl.
  - rewrite Hi. simpl.
    destruct (mapM ptf_record (List.filter is_dict items)) as [records|e];
      simpl; [|discriminate].
    intros H. exists records. split; [reflexivity|].
    apply sorted_indexed_rows, H.
  - intros H. injection H as <-.
    rewrite (falsy_iter_nil content items Ht Hi). exists []. split; reflexivity.
Qed.

(** Peel the steps of a chain of fallible calls that is known to return. *)
Ltac peel H :=
  repeat match type of H with
         | rbind ?x _ = Ok _ =>
             let E := fresh "E" in
             destruct x eqn:E; simpl in H; [|discriminate H]
         | (if ?b then _ else _) = Ok _ =>
             let E := fresh "E" in destruct b eqn:E; simpl in H
         end.

Lemma existsb_add_new_keep k ks acc :
  existsb (String.eqb k) acc = true -> existsb (String.eqb k) (add_new ks acc) = true.
Proof.
  revert acc. induction ks as [|k' ks IH]; intros acc H; simpl; [exact H|].
  apply IH. destruct (existsb (String.eqb k') acc); [exact H|].
  rewrite existsb_app, H. reflexivity.
Qed.

Lemma existsb_add_new_in k ks acc :
  In k ks -> existsb (String.eqb k) (add_new ks acc) = true.
Proof.
  revert acc. induction ks as [|k' ks IH]; intros acc Hin; [destruct Hin|].
  simpl. destruct Hin as [->|Hin]; [|apply IH, Hin].
  apply existsb_add_new_keep.
  destruct (existsb (String.eqb k) acc) eqn:E; [exact E|].
  rewrite existsb_app. simpl. rewrite String.eqb_refl, orb_true_r. reflexivity.
Qed.

Lemma has_key_in {A} k (r : list (string * A)) :
  has_key k r = true -> In k (map fst r).
Proof.
  unfold has_key. induction r as [|[k' v] r IH]; simpl; [discriminate|].
  destruct (String.eqb_spec k k') as [->|_]; [left; reflexivity|].
  intros H. right. apply IH, H.
Qed.

Lemma columns_fold_keep k (rs : list record) acc :
  existsb (String.eqb k) acc = true ->
  existsb (String.eqb k) (fold_left (fun acc r => add_new (map fst r) acc) rs acc) = true.
Proof.
  revert acc. induction rs as [|r rs IH]; intros acc H; simpl; [exact H|].
  apply IH, existsb_add_new_keep, H.
Qed.

Lemma columns_has_key k (r : record) (rs : list record) :
  has_key k r = true ->
  existsb (String.eqb k) (columns (DataFrame_of_records (r :: rs))) = true.
Proof.
  intros H. simpl. apply columns_fold_keep, existsb_add_new_in, has_key_in, H.
Qed.

Lemma ptf_record_keys (item : json) r :
  ptf_record item = Ok r -> has_key "datetime" r = true.
Proof.
  unfold ptf_record. intros H. peel H. injection H as <-. reflexivity.
Qed.

Lemma sorted_indexed_ok (records : list record) :
  records <> [] ->
  Forall (fun r => has_key "datetime" r = true) records ->
  Pd.tz_mixed (map (time_key "datetime") records) = false ->
  exists df,
    (let* df := sort_values "datetime" (DataFrame_of_records records) in
     set_index "datetime" df) = Ok df /\
    Permutation records (rows df).
Proof.
  intros Hne Hk Hmix. destruct records as [|r rs]; [congruence|].
  inversion Hk as [|? ? Hr _]; subst.
  pose proof (columns_has_key "datetime" r rs Hr) as Hc.
  unfold sort_values. rewrite Hc. simpl negb. cbv iota.
  change (rows (DataFrame_of_records (r :: rs))) with (r :: rs).
  rewrite Hmix. simpl rbind. unfold set_index. simpl columns.
  change (fold_left _ rs _) with (columns (DataFrame_of_records (r :: rs))).
  rewrite Hc. simpl negb. cbv iota.
  eexists. split; [reflexivity|]. simpl rows. symmetry.
  apply (sort_by_perm "datetime" (r :: rs)).
Qed.

(** C9.  [parse_datetime] returns for every string: the instant pandas
    parses, and [NaT] when pandas raises.  A record whose date does not
    parse gets its row like any other, with [NaT] in the datetime column
    and the hour defaulting to 0; whenever [process_ptf_data] returns a
    table, its rows are, up to order, exactly the rows built from the dict
    items of the content, so the row of such a record is among them; and
    it does return a table when every dict item yields its row, there is
    at least one, and the timestamps do not mix aware and naive ones. *)
Theorem unparseable_timestamp_kept :
  (forall s : string,
      parse_datetime s
      = Ok (match pandas_parse s with Ok dt => dt | Raise _ => Pd.NaT end)) /\
  (forall (item : json) s price hour,
      py_get item "date" (JStr "") = Ok (JStr s) ->
      parse_datetime s = Ok Pd.NaT ->
      (let* p := py_get item "price" (JInt 0) in
       let* v := py_get item "value" (JInt 0) in
       py_float (py_or p v)) = Ok price ->
      (let* h := py_get item "hour" (JInt 0) in py_int h) = Ok hour ->
      ptf_record item
      = Ok [("datetime", CTime Pd.NaT); ("price", CFloat price); ("hour", CInt hour)]) /\
  (forall (data content : json) items df,
      extract_content data = Ok content ->
      py_iter content = Ok items ->
      process_ptf_data data = Ok df ->
      exists records,
        Forall2 (fun item r => ptf_record item = Ok r) (List.filter is_dict items) records /\
        Permutation records (rows df) /\
        length (rows df) = length (List.filter is_dict items) /\
        forall item s,
          In item items ->
          py_get item "date" (JStr "") = Ok (JStr s) ->
          parse_datetime s = Ok Pd.NaT ->
          exists r, In r (rows df) /\ ptf_record item = Ok r /\
                    assoc "datetime" r = Some (CTime Pd.NaT)) /\
  (forall (data content : json) items records,
      extract_content data = Ok content ->
      py_iter content = Ok items ->
      Forall2 (fun item r => ptf_record item = Ok r) (List.filter is_dict items) records ->
      records <> [] ->
      Pd.tz_mixed (map (time_key "datetime") records) = false ->
      exists df, process_ptf_data data = Ok df /\ Permutation records (rows df)).
Proof.
  split; [|split; [|split]].
  - intros s. unfold parse_datetime, pandas_parse.
    destruct (is_substring "T" s).
    + destruct (to_datetime s); reflexivity.
    + destruct (to_datetime_ymd s); reflexivity.
  - intros item s price hour Hd Hp Hprice Hhour.
    unfold ptf_record. rewrite Hd. simpl. rewrite Hp. simpl.
    destruct (py_get item "price" (JInt 0)) as [p|e]; simpl in *; [|discriminate].
    destruct (py_get item "value" (JInt 0)) as [v|e]; simpl in *; [|discriminate].
    rewrite Hprice. simpl.
    destruct (py_get item "hour" (JInt 0)) as [h|e]; simpl in *; [|discriminate].
    rewrite Hhour. reflexivity.
  - intros data content items df Hx Hi Hdf.
    destruct (process_ptf_data_rows data content items df Hx Hi Hdf)
      as [records [Hm Hperm]].
    apply mapM_Forall2 in Hm.
    exists records. split; [exact Hm|]. split; [exact Hperm|]. split.
    + rewrite <- (Permutation_length Hperm). symmetry.
      clear -Hm. induction Hm; simpl; congruence.
    + intros item s Hin Hd Hp.
      assert (Hdict : is_dict item = true).
      { destruct item; simpl in Hd; try discriminate. reflexivity. }
      assert (Hin' : In item (List.filter is_dict items)).
      { apply List.filter_In. split; assumption. }
      destruct (Forall2_In_l _ _ _ _ Hm Hin') as [r [Hr Hxr]].
      exists r. split; [apply (Permutation_in _ Hperm), Hr|].
      split; [exact Hxr|].
      unfold ptf_record in Hxr. rewrite Hd in Hxr. simpl in Hxr.
      rewrite Hp in Hxr. simpl in Hxr.
      destruct (py_get item "price" (JInt 0)); simpl in Hxr; [|discriminate].
      destruct (py_get item "value" (JInt 0)); simpl in Hxr; [|discriminate].
      destruct (py_float _); simpl in Hxr; [|discriminate].
      destruct (py_get item "hour" _); simpl in Hxr; [|discriminate].
      destruct (py_int _); simpl in Hxr; [|discriminate].
      injection Hxr as <-. reflexivity.
  - intros data content items records Hx Hi Hall Hne Hmix.
    unfold process_ptf_data. rewrite Hx. cbn [rbind].
    destruct (truthy content) eqn:Ht; cbn [negb].
    + rewrite Hi. cbn [rbind]. pose proof Hall as Hm. apply mapM_Forall2 in Hm.
      rewrite Hm. cbn [rbind].
      apply sorted_indexed_ok; [exact Hne| |exact Hmix].
      clear -Hall. induction Hall as [|x r xs rs Hx _ IH]; constructor; [|exact IH].
      apply (ptf_record_keys x r Hx).
    + rewrite (falsy_iter_nil content items Ht Hi) in Hall. inversion Hall; subst.
      congruence.
Qed.

Lemma py_getitem_in (item : json) key v :
  py_getitem item key = Ok v -> py_in key item = Ok true.
Proof.
  destruct item; simpl; try discriminate.
  unfold has_key. destruct (assoc key d); [reflexivity|discriminate].
Qed.

Lemma py_getitem_dict (item : json) key v :
  py_getitem item key = Ok v -> exists d, item = JDict d.
Proof. destruct item; simpl; try discriminate. eauto. Qed.

Lemma py_get_dict_ok d key (default : json) :
  exists v, py_get (JDict d) key default = Ok v.
Proof. simpl. destruct (assoc key d); eauto. Qed.

Lemma generation_hour_record_ok d t (e : json) h v :
  entry_hour e = Ok h -> 0 <= h <= 23 -> entry_value "generation" e = Ok v ->
  exists r, generation_hour_record (JDict d) (Some t) e = Ok r /\
            assoc "datetime" r = Some (CTime (Some (Pd.with_hour t h))) /\
            assoc "value" r = Some (CFloat v).
Proof.
  unfold entry_hour, entry_value, generation_hour_record. intros Hh Hr Hv.
  destruct (py_get e "hour" (JInt 0)) as [x|]; simpl in *; [|discriminate].
  rewrite Hh. simpl.
  destruct (Z.leb_spec 0 h); [|lia]. destruct (Z.leb_spec h 23); [|lia]. simpl.
  destruct (assoc "powerPlantName" d); destruct (assoc "powerPlantId" d); simpl;
    (destruct e; simpl in *; try discriminate;
     destruct (assoc "generationType" _); simpl;
     destruct (assoc "generation" _); simpl in *; rewrite Hv; simpl;
     (eexists; split; [reflexivity|split; reflexivity])).
Qed.

Lemma kgup_hour_record_ok d t (e : json) h v :
  entry_hour e = Ok h -> 0 <= h <= 23 -> entry_value "plannedGeneration" e = Ok v ->
  exists r, kgup_hour_record (JDict d) (Some t) e = Ok r /\
            assoc "datetime" r = Some (CTime (Some (Pd.with_hour t h))) /\
            assoc "planned_generation" r = Some (CFloat v).
Proof.
  unfold entry_hour, entry_value, kgup_hour_record. intros Hh Hr Hv.
  destruct (py_get e "hour" (JInt 0)) as [x|]; simpl in *; [|discriminate].
  rewrite Hh. simpl.
  destruct (Z.leb_spec 0 h); [|lia]. destruct (Z.leb_spec h 23); [|lia]. simpl.
  destruct (assoc "uevcbName" d); destruct (assoc "uevcbId" d); simpl;
    (destruct e; simpl in *; try discriminate;
     destruct (assoc "plannedGeneration" _); simpl in *; rewrite Hv; simpl;
     (eexists; split; [reflexivity|split; reflexivity])).
Qed.

Lemma frame_sorted_unless_empty_ok (recs : list record) :
  Forall (fun r => has_key "datetime" r = true) recs ->
  Pd.tz_mixed (map (time_key "datetime") recs) = false ->
  exists df, frame_sorted_unless_empty recs = Ok df /\ Permutation recs (rows df).
Proof.
  intros Hk Hmix. unfold frame_sorted_unless_empty.
  destruct recs as [|r rs].
  - eexists. split; reflexivity.
  - inversion Hk as [|? ? Hr _]; subst.
    pose proof (columns_has_key "datetime" r rs Hr) as Hc.
    destruct (empty (DataFrame_of_records (r :: rs))) eqn:He; simpl.
    + eexists. split; reflexivity.
    + unfold sort_values. rewrite Hc. simpl negb. cbv iota.
      change (rows (DataFrame_of_records (r :: rs))) with (r :: rs).
      rewrite Hmix. simpl rbind. unfold set_index. simpl columns. 
      change (fold_left _ rs _) with (columns (DataFrame_of_records (r :: rs))).
      rewrite Hc. simpl negb. cbv iota.
      eexists. split; [reflexivity|]. simpl rows. symmetry.
      apply (sort_by_perm "datetime" (r :: rs)).
Qed.

Lemma generation_records_keys (item : json) rs :
  generation_records item = Ok rs ->
  Forall (fun r => has_key "datetime" r = true) rs.
Proof.
  unfold generation_records. intros H. peel H.
  - apply mapM_Forall2 in H. clear -H.
    induction H as [|e r es rs He _ IH]; constructor; [|exact IH].
    unfold generation_hour_record in He. peel He. injection He as <-. reflexivity.
  - unfold generation_simple_record in E3. peel E3. injection E3 as <-.
    injection H as <-. constructor; [reflexivity|constructor].
Qed.

Lemma kgup_records_keys (item : json) rs :
  kgup_records item = Ok rs ->
  Forall (fun r => has_key "datetime" r = true) rs.
Proof.
  unfold kgup_records. intros H. peel H.
  - apply mapM_Forall2 in H. clear -H.
    induction H as [|e r es rs He _ IH]; constructor; [|exact IH].
    unfold kgup_hour_record in He. peel He. injection He as <-. reflexivity.
  - unfold kgup_simple_record in E3. peel E3. injection E3 as <-.
    injection H as <-. constructor; [reflexivity|constructor].
Qed.

Lemma Forall_concat {A} (P : A -> Prop) (ls : list (list A)) :
  Forall (Forall P) ls -> Forall P (concat ls).
Proof.
  induction 1; simpl; [constructor|]. apply Forall_app. split; assumption.
Qed.

Lemma normalised_table (f : json -> result (list record)) cols
    (data content : json) items per_item :
  (forall item rs, f item = Ok rs -> Forall (fun r => has_key "datetime" r = true) rs) ->
  extract_content data = Ok content ->
  py_iter content = Ok items ->
  Forall2 (fun item rs => f item = Ok rs) (List.filter is_dict items) per_item ->
  Pd.tz_mixed (map (time_key "datetime") (concat per_item)) = false ->
  exists df,
    (let* content := extract_content data in
     if negb (truthy content) then Ok (DataFrame_of_columns cols)
     else
       let* items := py_iter content in
       let* per_item := mapM f (List.filter is_dict items) in
       frame_sorted_unless_empty (concat per_item)) = Ok df /\
    Permutation (concat per_item) (rows df).
Proof.
  intros Hkeys Hx Hi Hall Hmix. rewrite Hx. simpl.
  destruct (truthy content) eqn:Ht; simpl.
  - rewrite Hi. simpl. pose proof Hall as Hm. apply mapM_Forall2 in Hm.
    rewrite Hm. simpl.
    apply frame_sorted_unless_empty_ok; [|exact Hmix].
    apply Forall_concat. clear -Hall Hkeys.
    induction Hall as [|x rs xs rss Hx _ IH]; constructor; [|exact IH].
    apply (Hkeys x rs Hx).
  - rewrite (falsy_iter_nil content items Ht Hi) in Hall. inversion Hall; subst.
    eexists. split; reflexivity.
Qed.

(** C5, as amended.  For a record that is a dict with a parseable parent
    date and a list of N hour entries, each of them a dict whose hour
    converts to an integer in 0..23 and whose value converts to a float,
    the generation and plan normalisers build exactly N rows, the row of
    an entry carrying the parent timestamp with its hour set to the
    entry's hour and the entry's value as a float; a record without a
    breakdown whose value converts to a float yields exactly one row, at
    the parent timestamp.  When every dict item of the content yields its
    rows in this way and the timestamps do not mix aware and naive ones,
    the normaliser returns a table whose rows are, up to order, the rows of
    all the records. *)
Theorem hourly_breakdown_rows :
  (forall (item : json) s t entries,
      py_get item "date" (JStr "") = Ok (JStr s) ->
      parse_datetime s = Ok (Some t) ->
      py_getitem item "hourlyGenerations" = Ok (JList entries) ->
      Forall (fun e => exists h v,
                  entry_hour e = Ok h /\ 0 <= h <= 23 /\
                  entry_value "generation" e = Ok v) entries ->
      exists rs,
        generation_records item = Ok rs /\
        length rs = length entries /\
        Forall2 (fun e r => exists h v,
                     entry_hour e = Ok h /\ entry_value "generation" e = Ok v /\
                     assoc "datetime" r = Some (CTime (Some (Pd.with_hour t h))) /\
                     assoc "value" r = Some (CFloat v)) entries rs) /\
  (forall (item : json) s t entries,
      py_get item "date" (JStr "") = Ok (JStr s) ->
      parse_datetime s = Ok (Some t) ->
      py_getitem item "hourlyPlans" = Ok (JList entries) ->
      Forall (fun e => exists h v,
                  entry_hour e = Ok h /\ 0 <= h <= 23 /\
                  entry_value "plannedGeneration" e = Ok v) entries ->
      exists rs,
        kgup_records item = Ok rs /\
        length rs = length entries /\
        Forall2 (fun e r => exists h v,
                     entry_hour e = Ok h /\ entry_value "plannedGeneration" e = Ok v /\
                     assoc "datetime" r = Some (CTime (Some (Pd.with_hour t h))) /\
                     assoc "planned_generation" r = Some (CFloat v)) entries rs) /\
  (forall (item : json) dt value,
      (let* d := py_get item "date" (JStr "") in parse_datetime_of d) = Ok dt ->
      py_in "hourlyGenerations" item = Ok false ->
      (let* g := py_get item "generation" (JInt 0) in
       let* v := py_get item "value" (JInt 0) in
       py_float (py_or g v)) = Ok value ->
      exists r, generation_records item = Ok [r] /\
                assoc "datetime" r = Some (CTime dt) /\
                assoc "value" r = Some (CFloat value)) /\
  (forall (item : json) dt value,
      (let* d := py_get item "date" (JStr "") in parse_datetime_of d) = Ok dt ->
      py_in "hourlyPlans" item = Ok false ->
      (let* g := py_get item "plannedGeneration" (JInt 0) in
       let* v := py_get item "value" (JInt 0) in
       py_float (py_or g v)) = Ok value ->
      exists r, kgup_records item = Ok [r] /\
                assoc "datetime" r = Some (CTime dt) /\
                assoc "planned_generation" r = Some (CFloat value)) /\
  (forall (data content : json) items per_item,
      extract_content data = Ok content ->
      py_iter content = Ok items ->
      Forall2 (fun item rs => generation_records item = Ok rs)
        (List.filter is_dict items) per_item ->
      Pd.tz_mixed (map (time_key "datetime") (concat per_item)) = false ->
      exists df, process_generation_data data = Ok df /\
                 Permutation (concat per_item) (rows df)) /\
  (forall (data content : json) items per_item,
      extract_content data = Ok content ->
      py_iter content = Ok items ->
      Forall2 (fun item rs => kgup_records item = Ok rs)
        (List.filter is_dict items) per_item ->
      Pd.tz_mixed (map (time_key "datetime") (concat per_item)) = false ->
      exists df, process_kgup_data data = Ok df /\
                 Permutation (concat per_item) (rows df)).
Proof.
  split; [|split; [|split; [|split; [|split]]]].
  - intros item s t entries Hd Hp Hg Hall.
    destruct (py_getitem_dict _ _ _ Hg) as [d ->].
    unfold generation_records. rewrite Hd. cbn [rbind parse_datetime_of]. rewrite Hp.
    cbn [rbind]. rewrite (py_getitem_in _ _ _ Hg). cbn [rbind]. rewrite Hg.
    cbn [rbind py_iter].
    clear Hd Hg. induction Hall as [|e es [h [v [Hh [Hr Hv]]]] _ IH].
    + exists []. repeat split. constructor.
    + destruct IH as [rs [Hrs [Hlen Hf]]].
      destruct (generation_hour_record_ok d t e h v Hh Hr Hv) as [r [Hrec [Ht Hval]]].
      exists (r :: rs). simpl. rewrite Hrec. simpl. rewrite Hrs. simpl.
      split; [reflexivity|]. split; [congruence|].
      constructor; [|exact Hf]. exists h, v. repeat split; assumption.
  - intros item s t entries Hd Hp Hg Hall.
    destruct (py_getitem_dict _ _ _ Hg) as [d ->].
    unfold kgup_records. rewrite Hd. cbn [rbind parse_datetime_of]. rewrite Hp.
    cbn [rbind]. rewrite (py_getitem_in _ _ _ Hg). cbn [rbind]. rewrite Hg.
    cbn [rbind py_iter].
    clear Hd Hg. induction Hall as [|e es [h [v [Hh [Hr Hv]]]] _ IH].
    + exists []. repeat split. constructor.
    + destruct IH as [rs [Hrs [Hlen Hf]]].
      destruct (kgup_hour_record_ok d t e h v Hh Hr Hv) as [r [Hrec [Ht Hval]]].
      exists (r :: rs). simpl. rewrite Hrec. simpl. rewrite Hrs. simpl.
      split; [reflexivity|]. split; [congruence|].
      constructor; [|exact Hf]. exists h, v. repeat split; assumption.
  - intros item dt value Hd Hin Hv.
    assert (exists d, item = JDict d) as [d ->].
    { destruct item; simpl in Hin; try discriminate. eauto. }
    unfold generation_records, generation_simple_record.
    destruct (py_get (JDict d) "date" (JStr "")) as [x|];
      cbn [rbind] in *; [|discriminate].
    rewrite Hd. cbn [rbind]. rewrite Hin. cbn [rbind].
    destruct (py_get_dict_ok d "powerPlantName" (JStr "")) as [a ->].
    destruct (py_get_dict_ok d "powerPlantId" JNull) as [b ->].
    destruct (py_get_dict_ok d "generationType" (JStr "")) as [c ->]. cbn [rbind].
    destruct (py_get (JDict d) "generation" (JInt 0));
      cbn [rbind] in *; [|discriminate].
    destruct (py_get (JDict d) "value" (JInt 0));
      cbn [rbind] in *; [|discriminate].
    rewrite Hv. cbn [rbind]. eexists. repeat split.
  - intros item dt value Hd Hin Hv.
    assert (exists d, item = JDict d) as [d ->].
    { destruct item; simpl in Hin; try discriminate. eauto. }
    unfold kgup_records, kgup_simple_record.
    destruct (py_get (JDict d) "date" (JStr "")) as [x|];
      cbn [rbind] in *; [|discriminate].
    rewrite Hd. cbn [rbind]. rewrite Hin. cbn [rbind].
    destruct (py_get_dict_ok d "uevcbName" (JStr "")) as [a ->].
    destruct (py_get_dict_ok d "uevcbId" JNull) as [b ->]. cbn [rbind].
    destruct (py_get (JDict d) "plannedGeneration" (JInt 0));
      cbn [rbind] in *; [|discriminate].
    destruct (py_get (JDict d) "value" (JInt 0));
      cbn [rbind] in *; [|discriminate].
    rewrite Hv. cbn [rbind]. eexists. repeat split.
  - intros data content items per_item Hx Hi Hall Hmix.
    apply (normalised_table generation_records _ data content items per_item
             generation_records_keys Hx Hi Hall Hmix).
  - intros data content items per_item Hx Hi Hall Hmix.
    apply (normalised_table kgup_records _ data content items per_item
             kgup_records_keys Hx Hi Hall Hmix).
Qed.

End ProcessorProperties.

Section FetcherProperties.
Import Py Processors Fetchers.
Context `{RT : Runtime}.
Local Open Scope result_scope.
Variable self : DataFetcher.




End FetcherProperties.

Section PaginationProperties.
Import Pagination.
Local Open Scope nat_scope.
Context {R : Type}.
Variable date_of : R -> Z.
Variable dataset : list R.

Lemma page_count_covers n size : 0 < size -> n <= page_count n size * size.
Proof.
  intros Hs. unfold page_count.
  pose proof (Nat.div_mod_eq (n + size - 1) size) as Hd.
  pose proof (Nat.mod_upper_bound (n + size - 1) size ltac:(lia)) as Hm.
  nia.
Qed.

Lemma page_count_tight n size :
  0 < size -> 0 < n -> (page_count n size - 1) * size < n.
Proof.
  intros Hs Hn. unfold page_count.
  pose proof (Nat.div_mod_eq (n + size - 1) size) as Hd.
  pose proof (Nat.mod_upper_bound (n + size - 1) size ltac:(lia)) as Hm.
  nia.
Qed.

Lemma firstn_nonempty {A} (l : list A) n :
  0 < n -> l <> [] -> firstn n l <> [].
Proof. destruct n; [lia|]. destruct l; [congruence|]. discriminate. Qed.

(** The pages from page [S i] on, when [k] pages remain and the last of
    them still holds records. *)
Lemma fetch_pages_mock (d : Descriptor) (k : nat) : forall i,
  0 < page_size d ->
  length (selected date_of dataset d) <= (i + k) * page_size d ->
  (k = 0 \/ (i + k - 1) * page_size d < length (selected date_of dataset d)) ->
  fetch_pages (mock_server date_of dataset) d (S i) k
  = (Ok (skipn (i * page_size d) (selected date_of dataset d)), seq (S i) k).
Proof.
  set (recs := selected date_of dataset d).
  induction k as [|k IH]; intros i Hs Hcover Hlast; simpl.
  - rewrite skipn_all2; [reflexivity|]. fold recs in Hcover. lia.
  - change (selected date_of dataset (at_page d (S i))) with recs.
    rewrite Nat.sub_0_r.
    destruct Hlast as [Hk|Hlast]; [discriminate|].
    assert (Hne : skipn (i * page_size d) recs <> []).
    { intros Hnil. apply (f_equal (@length R)) in Hnil.
      rewrite length_skipn in Hnil. simpl in Hnil. fold recs in Hlast. nia. }
    pose proof (firstn_nonempty _ _ Hs Hne) as Hpage.
    destruct (firstn (page_size d) (skipn (i * page_size d) recs)) as [|r c] eqn:Hc;
      [congruence|].
    rewrite (IH (S i) Hs); [| fold recs; lia |].
    + cbn [rbind].
      change (r :: c ++ skipn (S i * page_size d) recs)%list
        with ((r :: c) ++ skipn (S i * page_size d) recs)%list.
      rewrite <- Hc. f_equal. f_equal.
      change (S i * page_size d) with (page_size d + i * page_size d).
      rewrite <- (skipn_skipn (page_size d) (i * page_size d) recs).
      apply firstn_skipn.
    + destruct k; [left; reflexivity|right]. fold recs.
      replace (S i + S k - 1) with (i + S (S k) - 1) by lia. exact Hlast.
Qed.

(** C2.  Against a server that pages a data set, for every range with
    start <= end and every positive page size, the driver returns exactly
    the records of the data set in the range, each once and in order: what
    the server returns as a single page when the page size is at least
    their number.  It requests page 1, then pages 2 up to the total read
    from the metadata of page 1, each once. *)
Theorem paginated_fetch_complete (start_date end_date : Z) (size : nat) :
  (start_date <= end_date)%Z ->
  0 < size ->
  let d := mkDescriptor start_date end_date 1 size in
  let recs := selected date_of dataset d in
  get_paginated (mock_server date_of dataset) d
  = (Ok recs, seq 1 (Nat.max 1 (page_count (length recs) size))) /\
  (forall big, length recs <= big ->
     mock_server date_of dataset (mkDescriptor start_date end_date 1 big)
     = Ok (mkRawPage recs (Some (page_count (length recs) big)))) /\
  (forall r, In r recs <->
             In r dataset /\ (start_date <= date_of r <= end_date)%Z) /\
  (List.NoDup dataset -> List.NoDup recs).
Proof.
  intros Hrange Hs d recs.
  split; [|split; [|split]].
  - unfold get_paginated. simpl.
    destruct (Z.ltb_spec end_date start_date) as [Hlt|_]; [lia|].
    change (selected date_of dataset (at_page d 1)) with recs.
    change (skipn 0 recs) with recs.
    pose proof (fetch_pages_mock d (page_count (length recs) size - 1) 1 Hs) as Hrest.
    change (page_size d) with size in Hrest.
    change (selected date_of dataset d) with recs in Hrest.
    pose proof (page_count_covers (length recs) size Hs) as Hcov.
    clearbody recs.
    destruct recs as [|r recs].
    + assert (Hpc : page_count (length (@nil R)) size = 0).
      { unfold page_count. apply Nat.div_small. simpl. lia. }
      rewrite Hpc. simpl. rewrite firstn_nil. reflexivity.
    + pose proof (page_count_tight (length (r :: recs)) size Hs ltac:(simpl; lia))
        as Htight.
      set (pc := page_count (length (r :: recs)) size) in *.
      assert (Hpos : 0 < pc) by (simpl in Hcov; nia).
      rewrite Hrest.
      * cbn [rbind]. rewrite Nat.mul_1_l, firstn_skipn.
        replace (Nat.max 1 pc) with (S (pc - 1)) by lia.
        reflexivity.
      * replace (1 + (pc - 1)) with pc by lia. exact Hcov.
      * destruct (pc - 1) as [|n] eqn:E; [left; reflexivity|right].
        replace (1 + S n - 1) with (S n) by lia. exact Htight.
  - intros big Hbig. unfold mock_server. simpl.
    change (selected date_of dataset _) with recs.
    rewrite firstn_all2; [reflexivity|exact Hbig].
  - intros r. unfold recs, selected. rewrite List.filter_In. unfold in_range. simpl.
    rewrite andb_true_iff, !Z.leb_le. tauto.
  - intros Hnd. unfold recs, selected. apply List.NoDup_filter. exact Hnd.
Qed.

End PaginationProperties.

Section AuthExamples.
Import Auth Samples.

Lemma request_new_token_failure_witness :
  next_auth_outcome (auth_once 401 "denied") = Ok (mkResponse 401 "denied" None) /\
  fst (_request_new_token (auth_once 401 "denied")) = Raise (HTTPError 401).
Proof.
  split; [reflexivity|].
  apply (request_new_token_failure (auth_once 401 "denied")
           (mkResponse 401 "denied" None)); reflexivity.
Defined.

(** C6 as stated does not hold.  Bad credentials (status 401) end in
    requests' [HTTPError] and a malformed ticket in [ValueError], neither
    of which is the [AuthenticationError] of the taxonomy; and a status
    that is not a success but outside 4xx/5xx, with a well-formed body, is
    accepted as a ticket. *)
Lemma request_new_token_no_authentication_error :
  fst (_request_new_token (auth_once 401 "denied")) = Raise (HTTPError 401) /\
  HTTPError 401 <> AuthenticationError /\
  fst (_request_new_token (auth_once 200 "ST-77"))
    = Raise (ValueError "Unexpected token format returned by CAS") /\
  ValueError "Unexpected token format returned by CAS" <> AuthenticationError /\
  success_status 304 = false /\
  fst (_request_new_token (auth_once 304 " TGT-abc ")) = Ok "TGT-abc".
Proof.
  repeat split; try reflexivity; discriminate.
Qed.

Lemma current_idempotent_witness :
  current false cached_sys = (Ok (Some "TGT-1"), cached_sys) /\
  current false (wait 600 cached_sys) = (Ok (Some "TGT-1"), wait 600 cached_sys).
Proof.
  destruct (current_idempotent cached_sys "TGT-1" 600%N) as [H1 [H2 _]];
    [reflexivity|reflexivity|reflexivity|].
  split; [exact H1|exact H2].
Defined.

End AuthExamples.

Section ClientExamples.
Import Auth Epias Samples.

Lemma request_retries_once_witness :
  let sys := client_sys (mkResponse 200 "TGT-2" None)
               [mkResponse 401 "" None; mkResponse 200 "" (Some 42)] in
  current false sys = (Ok (Some "TGT-1"), sys) /\
  next_data_outcome sys = Ok (mkResponse 401 "" None) /\
  auth_failure (mkResponse 401 "" (@None Z)) = true /\
  fst (_request "POST" "/markets/dam/data/mcp" 7 sys) = Ok 42 /\
  data_requests (trace (net (snd (_request "POST" "/markets/dam/data/mcp" 7 sys)))) = 2%nat.
Proof.
  intros sys.
  pose proof (request_retries_once "POST" "/markets/dam/data/mcp" 7 sys
                (Some "TGT-1") sys (mkResponse 401 "" None)
                eq_refl eq_refl eq_refl) as H.
  cbv zeta in H.
  change (token_of_outcome _) with (Ok (A:=string) "TGT-2") in H.
  cbv iota beta zeta in H.
  destruct H as [_ [_ [Hdata [_ [Hok _]]]]].
  split; [reflexivity|]. split; [reflexivity|]. split; [reflexivity|].
  split.
  - apply (Hok (mkResponse 200 "" (Some 42)) 42); reflexivity.
  - exact Hdata.
Defined.

(** C1 as stated does not hold.  A first response 401 followed by a failing
    refresh (the authentication endpoint answers 500) ends the call with
    that failure after a single request: there is no retry.  And a second
    401 after a successful refresh ends in requests' [HTTPError], which is
    not the [APIError] of the taxonomy. *)
Lemma request_refresh_failure_not_retried :
  let sys := client_sys (mkResponse 500 "down" None)
               [mkResponse 401 "" None; mkResponse 200 "" (Some 42)] in
  let sys' := client_sys (mkResponse 200 "TGT-2" None)
                [mkResponse 401 "" None; mkResponse 401 "" None] in
  fst (_request "POST" "/markets/dam/data/mcp" 7 sys) = Raise (HTTPError 500) /\
  data_requests (trace (net (snd (_request "POST" "/markets/dam/data/mcp" 7 sys)))) = 1%nat /\
  fst (_request "POST" "/markets/dam/data/mcp" 7 sys') = Raise (HTTPError 401) /\
  HTTPError 401 <> APIError 401.
Proof.
  repeat split; try reflexivity; discriminate.
Qed.

End ClientExamples.

Section ProcessorExamples.
Import Py Processors Samples.
#[local] Existing Instance sample_runtime.

Lemma extract_content_shapes_witness :
  assoc "body" [("resultCode", JStr "200");
                ("body", JDict [("content", JList [JInt 1; JInt 2])])]
  = Some (JDict [("content", JList [JInt 1; JInt 2])]) /\
  extract_content nested_envelope = Ok (JList [JInt 1; JInt 2]).
Proof.
  split; [reflexivity|].
  destruct (extract_content_shapes nested_envelope) as [_ [H _]].
  destruct (H _ eq_refl) as [Hnested _].
  apply (Hnested [("content", JList [JInt 1; JInt 2])]); reflexivity.
Defined.

(** C4 as stated does not hold: on a response of none of the known shapes
    [extract_content] does not fail, it wraps the response in a list, and
    it turns a falsy one into the empty list. *)
Lemma extract_content_unknown_shape_wrapped :
  extract_content odd_envelope = Ok (JList [odd_envelope]) /\
  extract_content (JInt 5) = Ok (JList [JInt 5]) /\
  extract_content (JStr "oops") = Ok (JList [JStr "oops"]) /\
  extract_content JNull = Ok (JList []).
Proof. repeat split. Qed.

Lemma non_dict_items_raise_KeyError_witness :
  extract_content bare_strings = Ok (JList [JStr "a"; JStr "b"]) /\
  process_ptf_data bare_strings = Raise (KeyError "datetime") /\
  process_smf_data bare_strings = Raise (KeyError "datetime").
Proof.
  split; [reflexivity|].
  destruct (non_dict_items_raise_KeyError bare_strings [JStr "a"; JStr "b"] eq_refl)
    as [_ [H _]].
  apply H; [discriminate|]. repeat constructor.
Defined.

Lemma unparseable_timestamp_kept_witness :
  parse_datetime "yesterday" = Ok Pd.NaT /\
  (exists df, process_ptf_data ptf_payload = Ok df /\ length (rows df) = 2%nat /\
              exists r, In r (rows df) /\ ptf_record bad_date_item = Ok r /\
                        assoc "datetime" r = Some (CTime Pd.NaT)).
Proof.
  destruct unparseable_timestamp_kept as [Hparse [_ [Htable _]]].
  split; [rewrite Hparse; reflexivity|].
  destruct (process_ptf_data ptf_payload) as [df|e] eqn:Hdf; [|discriminate Hdf].
  exists df. split; [reflexivity|].
  destruct (Htable ptf_payload ptf_payload [bad_date_item; good_date_item] df
              eq_refl eq_refl Hdf) as [records [_ [_ [Hlen Hkept]]]].
  split; [exact Hlen|].
  apply (Hkept bad_date_item "yesterday"); [left; reflexivity|reflexivity|].
  rewrite Hparse. reflexivity.
Defined.

Lemma hourly_breakdown_rows_witness :
  parse_datetime "2024-01-01" = Ok (Some midnight) /\
  exists rs, generation_records generation_item = Ok rs /\
             length rs = length (two_hours "generation") /\
             Forall2 (fun e r => exists h v,
                          entry_hour e = Ok h /\ entry_value "generation" e = Ok v /\
                          assoc "datetime" r = Some (CTime (Some (Pd.with_hour midnight h))) /\
                          assoc "value" r = Some (CFloat v))
               (two_hours "generation") rs.
Proof.
  split; [reflexivity|].
  destruct hourly_breakdown_rows as [Hgen _].
  apply (Hgen generation_item "2024-01-01" midnight (two_hours "generation")
           eq_refl eq_refl eq_refl).
  repeat constructor.
  - exists 0, 10. repeat split; lia.
  - exists 13, 25. repeat split; lia.
Defined.

(** C5 as stated does not hold: a record with a parseable date and a
    breakdown of one hour entry yields no row when the entry's hour is 24
    ([dt.replace] raises [ValueError]) or when its value is null
    ([float(None)] raises [TypeError]); the normaliser raises instead. *)
Lemma hourly_breakdown_can_raise :
  process_generation_data (hour_24_payload "hourlyGenerations" "generation")
  = Raise (ValueError "hour must be in 0..23") /\
  process_kgup_data (hour_24_payload "hourlyPlans" "plannedGeneration")
  = Raise (ValueError "hour must be in 0..23") /\
  process_generation_data (null_value_payload "hourlyGenerations" "generation")
  = Raise TypeError /\
  process_kgup_data (null_value_payload "hourlyPlans" "plannedGeneration")
  = Raise TypeError.
Proof. repeat split. Qed.

End ProcessorExamples.

Section FetcherExamples.
Import Py Processors Fetchers Samples.
#[local] Existing Instance sample_runtime.



End FetcherExamples.

Section PaginationExamples.
Import Pagination Samples.

Lemma paginated_fetch_complete_witness :
  (2 <= 6)%Z /\ (0 < 2)%nat /\
  get_paginated (mock_server (fun r => r) week) (mkDescriptor 2 6 1 2)
  = (Ok [2; 3; 4; 5; 6]%Z, [1; 2; 3]%nat).
Proof.
  split; [lia|]. split; [lia|].
  destruct (paginated_fetch_complete (fun r => r) week 2 6 2) as [H _];
    [lia|lia|].
  exact H.
Defined.

End PaginationExamples.

(* ===================================================================== *)
(** * Further properties of the ticket manager and the client            *)
(* ===================================================================== *)

Section MoreAuthProperties.
Import Auth Slot.
Context {J : Type}.
Implicit Types (s : Sys J).

Lemma after_auth_clock s : clock (net s) <= clock (net (after_auth s)).
Proof.
  unfold after_auth, requests_post_auth.
  destruct (auth_server (net s)); simpl; lia.
Qed.

Lemma after_auth_requests s :
  auth_requests (trace (net (after_auth s))) = S (auth_requests (trace (net s))) /\
  data_requests (trace (net (after_auth s))) = data_requests (trace (net s)).
Proof.
  destruct (after_auth_trace s) as [ev [-> [Hev _]]].
  rewrite auth_requests_app, data_requests_app.
  unfold auth_requests at 2, data_requests at 2. simpl. rewrite Hev.
  destruct ev; [simpl; lia|discriminate].
Qed.

(** What a call to [current] leaves behind, in both of its branches. *)
Lemma current_effect force s :
  (refreshes force s = false /\ current force s = (Ok (_token (tgt_mgr s)), s)) \/
  (refreshes force s = true /\
   net (snd (current force s)) = net (after_auth s) /\
   ((exists e, fst (current force s) = Raise e /\
               token_of_outcome (next_auth_outcome s) = Raise e /\
               tgt_mgr (snd (current force s)) = tgt_mgr s) \/
    (exists tok, fst (current force s) = Ok (Some tok) /\
                 token_of_outcome (next_auth_outcome s) = Ok tok /\
                 snd (current force s) = refreshed tok (after_auth s)))).
Proof.
  unfold refreshes.
  destruct (force || (_expires_at (tgt_mgr s) <=? clock (net s))) eqn:Hc.
  - right. split; [reflexivity|]. rewrite (current_refresh force s Hc).
    destruct (token_of_outcome (next_auth_outcome s)) as [tok|e]; simpl.
    + split; [reflexivity|]. right. exists tok. repeat split.
    + split; [reflexivity|]. left. exists e. repeat split. apply after_auth_mgr.
  - left. split; [reflexivity|].
    apply orb_false_iff in Hc as [-> Hlt]. apply Z.leb_gt in Hlt.
    apply current_cached, Hlt.
Qed.

(** X1.  When [current] raises, the cached ticket and its expiry are
    what they were before the call; and it raises only when it went to the
    authentication endpoint, with the exception of that exchange. *)
Theorem current_failure_keeps_cache force s e :
  fst (current force s) = Raise e ->
  tgt_mgr (snd (current force s)) = tgt_mgr s /\
  refreshes force s = true /\
  token_of_outcome (next_auth_outcome s) = Raise e.
Proof.
  intros Hr.
  destruct (current_effect force s) as [[_ Hc]|[Href [_ [[e' [He [Ht Hm]]]|[tok [Hok _]]]]]].
  - rewrite Hc in Hr. discriminate.
  - rewrite He in Hr. injection Hr as <-. repeat split; assumption.
  - rewrite Hok in Hr. discriminate.
Qed.

Lemma current_request_counts force s :
  auth_requests (trace (net (snd (current force s))))
  = (auth_requests (trace (net s)) + (if refreshes force s then 1 else 0))%nat /\
  data_requests (trace (net (snd (current force s)))) = data_requests (trace (net s)).
Proof.
  destruct (current_effect force s) as [[Href Hc]|[Href [Hnet _]]]; rewrite Href.
  - rewrite Hc. simpl. split; [lia|reflexivity].
  - rewrite Hnet. destruct (after_auth_requests s) as [Ha Hd].
    rewrite Ha, Hd. split; [lia|reflexivity].
Qed.

(** X2.  A call to [current] sends exactly one request to the
    authentication endpoint when a refresh is forced or the cached expiry
    has passed, and none otherwise; it never sends a request to a data
    endpoint. *)
Theorem current_contacts_auth_iff_needed force s :
  auth_requests (trace (net (snd (current force s))))
  = (auth_requests (trace (net s)) + (if refreshes force s then 1 else 0))%nat /\
  data_requests (trace (net (snd (current force s)))) = data_requests (trace (net s)) /\
  data_server (net (snd (current force s))) = data_server (net s).
Proof.
  destruct (current_request_counts force s) as [Ha Hd].
  split; [exact Ha|]. split; [exact Hd|].
  destruct (current_effect force s) as [[_ Hc]|[_ [Hnet _]]].
  - rewrite Hc. reflexivity.
  - rewrite Hnet. apply after_auth_data.
Qed.

Lemma current_keeps_validated force s :
  validated s ->
  validated (snd (current force s)) /\
  forall v, fst (current force s) = Ok v ->
    exists tok, v = Some tok /\ startswith tok "TGT-" = true.
Proof.
  intros Hv.
  destruct (current_effect force s) as [[Href Hc]|[Href [Hnet [[e [He [Ht Hm]]]|[tok [Hok [Ht Hs]]]]]]].
  - rewrite Hc. simpl. split; [exact Hv|].
    intros v Hret. injection Hret as <-.
    unfold refreshes in Href. apply orb_false_iff in Href as [_ Hlt].
    apply Z.leb_gt in Hlt. unfold validated in Hv.
    destruct (_token (tgt_mgr s)) as [tok|]; [eauto|lia].
  - split; [|rewrite He; discriminate].
    unfold validated in *. rewrite Hm, Hnet.
    destruct (_token (tgt_mgr s)); [exact Hv|].
    pose proof (after_auth_clock s). lia.
  - assert (Hpre : startswith tok "TGT-" = true).
    { unfold token_of_outcome in Ht.
      destruct (next_auth_outcome s) as [resp|]; [|discriminate].
      destruct (error_status (status_code resp)); [discriminate|].
      destruct (startswith (strip (text resp)) "TGT-") eqn:Hp; [|discriminate].
      injection Ht as <-. exact Hp. }
    split.
    + rewrite Hs. unfold validated. simpl. exact Hpre.
    + rewrite Hok. intros v Hret. injection Hret as <-. eauto.
Qed.

Lemma run_keeps_validated acts : forall s,
  validated s ->
  Forall (fun o : result (option string) * Sys J =>
            forall v, fst o = Ok v ->
              exists tok, v = Some tok /\ startswith tok "TGT-" = true)
         (run acts s).
Proof.
  induction acts as [|[f|d] acts IH]; intros s Hv; simpl.
  - constructor.
  - destruct (current_keeps_validated f s Hv) as [Hv' Hret].
    destruct (current f s) as [r s'] eqn:Hcur. simpl in *.
    constructor; [exact Hret|]. apply IH, Hv'.
  - apply IH. unfold validated in *. simpl.
    destruct (_token (tgt_mgr s)); [exact Hv|]. lia.
Qed.

(** X3.  Starting from a new manager, with a clock that is not before
    the epoch, every value that a call to [current] returns, along any
    sequence of calls and pauses, is a ticket that starts with the TGT-
    prefix: the empty slot is never handed out. *)
Theorem returned_tickets_validated (user pass : string) (w : World J) acts :
  0 <= clock w ->
  Forall (fun o : result (option string) * Sys J =>
            forall v, fst o = Ok v ->
              exists tok, v = Some tok /\ startswith tok "TGT-" = true)
         (run acts (mkSys (init user pass) w)).
Proof.
  intros Hclock. apply run_keeps_validated. exact Hclock.
Qed.

End MoreAuthProperties.

Section MoreClientProperties.
Import Auth Epias Slot.
Context {J : Type}.
Implicit Types (s : Sys J) (resp : Response J).

Lemma after_data_requests method url ticket (payload : J) s :
  data_requests (trace (net (after_data method url ticket payload s)))
  = S (data_requests (trace (net s))) /\
  auth_requests (trace (net (after_data method url ticket payload s)))
  = auth_requests (trace (net s)).
Proof.
  rewrite after_data_trace, data_requests_app, auth_requests_app.
  unfold data_requests at 2, auth_requests at 2. simpl. lia.
Qed.

(** The shape of [_request] once the first ticket is there. *)
Lemma request_after_ticket method path (payload : J) s :
  _request method path payload s =
    match current false s with
    | (Raise e, s0) => (Raise e, s0)
    | (Ok tok0, s0) =>
        let s1 := after_data method (BASE ++ path) tok0 payload s0 in
        match next_data_outcome s0 with
        | Raise e => (Raise e, s1)
        | Ok resp1 =>
            if auth_failure resp1
            then
              match current true s1 with
              | (Raise e, s2) => (Raise e, s2)
              | (Ok tok1, s2) =>
                  (response_verdict (next_data_outcome s2),
                   after_data method (BASE ++ path) tok1 payload s2)
              end
            else (response_verdict (Ok resp1), s1)
        end
    end.
Proof.
  unfold _request. unfold bind at 1.
  destruct (current false s) as [[tok0|e0] s0]; [|reflexivity].
  cbv zeta. unfold bind at 1. rewrite session_request_eq.
  set (s1 := after_data method (BASE ++ path) tok0 payload s0).
  destruct (next_data_outcome s0) as [resp1|e1]; [|reflexivity].
  unfold bind at 1. destruct (auth_failure resp1).
  - unfold bind at 1. destruct (current true s1) as [[tok1|e] s2]; [|reflexivity].
    rewrite session_request_eq.
    destruct (next_data_outcome s2) as [resp2|e2]; [|reflexivity].
    apply verdict_eq.
  - unfold ret. apply verdict_eq.
Qed.

(** X4.  Whatever the two servers answer, one call of [_request] sends
    at most two requests to the data endpoint and at most two to the
    authentication endpoint. *)
Theorem request_attempt_bounds method path (payload : J) s :
  (data_requests (trace (net (snd (_request method path payload s))))
   <= data_requests (trace (net s)) + 2)%nat /\
  (auth_requests (trace (net (snd (_request method path payload s))))
   <= auth_requests (trace (net s)) + 2)%nat.
Proof.
  rewrite request_after_ticket.
  destruct (current_request_counts false s) as [Ha0 Hd0].
  assert (Hle : forall b : bool, ((if b then 1 else 0) <= 1)%nat)
    by (intros []; lia).
  pose proof (Hle (refreshes false s)) as Hb0.
  destruct (current false s) as [[tok0|e0] s0]; cbn [snd] in Ha0, Hd0;
    [|cbn [snd]; lia].
  cbv zeta.
  destruct (after_data_requests method (BASE ++ path) tok0 payload s0) as [Hd1 Ha1].
  set (s1 := after_data method (BASE ++ path) tok0 payload s0) in *.
  destruct (next_data_outcome s0) as [resp1|e1]; [|cbn [snd]; lia].
  destruct (auth_failure resp1); [|cbn [snd]; lia].
  destruct (current_request_counts true s1) as [Ha2 Hd2].
  change (refreshes true s1) with true in Ha2.
  destruct (current true s1) as [[tok1|e] s2]; cbn [snd] in Ha2, Hd2;
    [|cbn [snd]; lia].
  destruct (after_data_requests method (BASE ++ path) tok1 payload s2) as [Hd3 Ha3].
  cbn [snd]. rewrite Hd3, Ha3. lia.
Qed.

(** X5.  A first exchange that does not end in a response with status
    401 or 406 is final: a transport failure is raised as it is, any
    other response goes through [raise_for_status] and [json()]; the
    request is sent once and no ticket is requested after it. *)
Theorem first_response_final method path (payload : J) s tok0 s0 :
  current false s = (Ok tok0, s0) ->
  (forall resp, next_data_outcome s0 = Ok resp -> auth_failure resp = false) ->
  let s1 := after_data method (BASE ++ path) tok0 payload s0 in
  _request method path payload s = (response_verdict (next_data_outcome s0), s1) /\
  data_requests (trace (net s1)) = S (data_requests (trace (net s0))) /\
  auth_requests (trace (net s1)) = auth_requests (trace (net s0)).
Proof.
  intros Hcur Hfinal s1. split; [|apply after_data_requests].
  rewrite request_after_ticket, Hcur. cbv zeta. fold s1.
  destruct (next_data_outcome s0) as [resp1|e1]; [|reflexivity].
  rewrite (Hfinal resp1 eq_refl). reflexivity.
Qed.

(** X6.  When the ticket for the first attempt cannot be obtained, the
    exception of [current] is the result and no request reaches a data
    endpoint. *)
Theorem no_ticket_no_request method path (payload : J) s e :
  fst (current false s) = Raise e ->
  fst (_request method path payload s) = Raise e /\
  data_requests (trace (net (snd (_request method path payload s))))
  = data_requests (trace (net s)) /\
  data_server (net (snd (_request method path payload s))) = data_server (net s).
Proof.
  intros Hcur. rewrite request_after_ticket.
  destruct (current_request_counts false s) as [_ Hd].
  destruct (current_effect false s) as [[_ Hc]|[_ [Hnet _]]].
  - rewrite Hc in Hcur. discriminate.
  - destruct (current false s) as [[tok0|e0] s0]; simpl in *; [discriminate|].
    injection Hcur as ->. split; [reflexivity|]. split; [exact Hd|].
    rewrite Hnet. apply after_auth_data.
Qed.

End MoreClientProperties.

(* ===================================================================== *)
(** * Further properties of the normalisers                              *)
(* ===================================================================== *)

(** Split a chain of fallible calls that is known to return into its
    steps. *)
Ltac unchain H :=
  repeat match type of H with
         | rbind ?x _ = Ok _ =>
             let E := fresh "E" in
             destruct x eqn:E; cbn [rbind] in H; [|discriminate H]
         | (if ?b then _ else _) = Ok _ =>
             let E := fresh "E" in destruct b eqn:E
         end.

Section MoreProcessorProperties.
Import Py Processors MoreProcessors.
Context `{RT : Runtime}.
Local Open Scope result_scope.

(** X7.  [extract_content] never raises [KeyError]: it either returns, or
    raises [TypeError], which happens only under a body key whose value
    is not a dict (null, a number or a boolean, or a string or list that
    contains the word content).  With a body that is absent or a dict it
    always returns. *)
Theorem extract_content_raises_only_TypeError (response : json) :
  ((exists c, extract_content response = Ok c) \/
   extract_content response = Raise TypeError) /\
  (forall d, response = JDict d ->
     (assoc "body" d = None \/ exists b, assoc "body" d = Some (JDict b)) ->
     exists c, extract_content response = Ok c) /\
  (forall d, response = JDict d -> assoc "body" d = Some JNull ->
     extract_content response = Raise TypeError).
Proof.
  assert (Htop : forall d,
             exists c,
               (let* has_content := py_in "content" (JDict d) in
                if has_content then py_getitem (JDict d) "content"
                else
                  let* has_items := py_in "items" (JDict d) in
                  if has_items then py_getitem (JDict d) "items"
                  else Ok (wrap_response (JDict d))) = Ok c).
  { intros d. unfold py_in, py_getitem, has_key. cbn [rbind].
    destruct (assoc "content" d); [eauto|]. cbn [rbind].
    destruct (assoc "items" d); eauto. }
  assert (Hdict : forall d b, assoc "body" d = Some (JDict b) ->
             exists c, extract_content (JDict d) = Ok c).
  { intros d b Hb. unfold extract_content.
    unfold py_in at 1, has_key at 1. rewrite Hb. cbn [rbind].
    unfold py_getitem at 1. rewrite Hb. cbn [rbind py_in]. unfold has_key at 1.
    destruct (assoc "content" b) as [c|] eqn:Hc; cbn [rbind].
    - unfold py_getitem. rewrite Hb. cbn [rbind]. rewrite Hc. eauto.
    - apply Htop. }
  assert (Hnone : forall d, assoc "body" d = None ->
             exists c, extract_content (JDict d) = Ok c).
  { intros d Hb. unfold extract_content.
    unfold py_in at 1, has_key at 1. rewrite Hb. cbn [rbind]. apply Htop. }
  split; [|split].
  - destruct response as [| | | | |l|d]; try (left; eexists; reflexivity).
    destruct (assoc "body" d) as [b|] eqn:Hb; [|left; apply Hnone, Hb].
    assert (Hbody : extract_content (JDict d) =
                    (let* nested := py_in "content" b in
                     if nested then py_getitem b "content"
                     else
                       let* has_content := py_in "content" (JDict d) in
                       if has_content then py_getitem (JDict d) "content"
                       else
                         let* has_items := py_in "items" (JDict d) in
                         if has_items then py_getitem (JDict d) "items"
                         else Ok (wrap_response (JDict d)))).
    { assert (Hg : py_getitem (JDict d) "body" = Ok b)
        by (unfold py_getitem; rewrite Hb; reflexivity).
      unfold extract_content. unfold py_in at 1, has_key at 1. rewrite Hb.
      cbn [rbind]. rewrite Hg. reflexivity. }
    rewrite Hbody.
    destruct b as [|b0|z|f|s|l|b]; try (right; reflexivity).
    + cbn [py_in rbind]. destruct (is_substring "content" s).
      * right. reflexivity.
      * left. apply Htop.
    + cbn [py_in rbind]. destruct (existsb _ l).
      * right. reflexivity.
      * left. apply Htop.
    + left. rewrite <- Hbody. apply (Hdict d b Hb).
  - intros d -> [Hb|[b Hb]]; [apply Hnone, Hb|apply (Hdict d b Hb)].
  - intros d -> Hb. unfold extract_content.
    unfold py_in at 1, has_key at 1. rewrite Hb. cbn [rbind].
    unfold py_getitem at 1. rewrite Hb. reflexivity.
Qed.

(** X8.  A numeric field that a normaliser reads under a name of its own
    with a generic fallback takes the value under its own name when that
    value is truthy; when the own name is missing or holds a falsy value
    (0, null, an empty string, false) it takes the value under the fallback
    name, and 0 when that is missing too.  The price of a price row, both
    prices of a balancing row, the value of a consumption row and the
    quantity of a contract row are the float of the value so chosen. *)
Theorem alias_fallback :
  (forall d key fallback,
      aliased (JDict d) key fallback
      = Ok (match assoc key d with
            | Some a =>
                if truthy a then a
                else match assoc fallback d with Some b => b | None => JInt 0 end
            | None => match assoc fallback d with Some b => b | None => JInt 0 end
            end)) /\
  (forall item r, ptf_record item = Ok r ->
     exists src x, aliased item "price" "value" = Ok src /\ py_float src = Ok x /\
                   assoc "price" r = Some (CFloat x)) /\
  (forall item r, smf_record item = Ok r ->
     exists up x down y,
       aliased item "upRegulationPrice" "yalPrice" = Ok up /\ py_float up = Ok x /\
       assoc "up_price" r = Some (CFloat x) /\
       aliased item "downRegulationPrice" "yatPrice" = Ok down /\
       py_float down = Ok y /\
       assoc "down_price" r = Some (CFloat y)) /\
  (forall item r, consumption_record item = Ok r ->
     exists src x, aliased item "consumption" "value" = Ok src /\ py_float src = Ok x /\
                   assoc "value" r = Some (CFloat x)) /\
  (forall side item r, bilateral_record side item = Ok r ->
     exists src x, aliased item "quantity" "value" = Ok src /\ py_float src = Ok x /\
                   assoc "quantity" r = Some (CFloat x)).
Proof.
  split; [|split; [|split; [|split]]].
  - intros d key fallback. unfold aliased, py_or. simpl.
    destruct (assoc key d) as [a|]; destruct (assoc fallback d) as [b|]; simpl;
      try reflexivity.
  - intros item r H. unfold ptf_record in H. unchain H. injection H as <-.
    unfold aliased.
    repeat match goal with E : py_get _ _ _ = Ok _ |- _ => rewrite E; clear E end.
    cbn [rbind]. eauto.
  - intros item r H. unfold smf_record in H. unchain H. injection H as <-.
    unfold aliased.
    repeat match goal with E : py_get _ _ _ = Ok _ |- _ => rewrite E; clear E end.
    cbn [rbind]. do 4 eexists. repeat split; eassumption.
  - intros item r H. unfold consumption_record in H. unchain H. injection H as <-.
    unfold aliased.
    repeat match goal with E : py_get _ _ _ = Ok _ |- _ => rewrite E; clear E end.
    cbn [rbind]. eauto.
  - intros side item r H. unfold bilateral_record in H. unchain H. injection H as <-.
    unfold aliased.
    repeat match goal with E : py_get _ _ _ = Ok _ |- _ => rewrite E; clear E end.
    cbn [rbind]. eauto.
Qed.

Lemma consumption_record_keys (item : json) r :
  consumption_record item = Ok r -> has_key "datetime" r = true.
Proof.
  unfold consumption_record. intros H. unchain H. injection H as <-. reflexivity.
Qed.

(** X9.  On a non-empty content list that holds no dict item, the
    normalisers that test [df.empty] before sorting (generation, plan,
    consumption) return the frame without rows and without columns
    instead of raising; the contract normaliser does the same when neither
    side holds a dict item, and then never calls [pivot_table]. *)
Theorem guarded_normalisers_accept_non_dict_items :
  (forall (data : json) l,
      extract_content data = Ok (JList l) ->
      l <> [] ->
      Forall (fun x => is_dict x = false) l ->
      process_generation_data data = Ok DataFrame_empty /\
      process_kgup_data data = Ok DataFrame_empty /\
      process_consumption_data data = Ok DataFrame_empty) /\
  (forall pivot_table (buy_data sell_data : json) buys sells,
      extract_content buy_data = Ok (JList buys) ->
      extract_content sell_data = Ok (JList sells) ->
      Forall (fun x => is_dict x = false) buys ->
      Forall (fun x => is_dict x = false) sells ->
      process_bilateral_contracts pivot_table buy_data sell_data = Ok DataFrame_empty).
Proof.
  split.
  - intros data l Hx Hne Hnd. destruct l as [|x l]; [congruence|].
    unfold process_generation_data, process_kgup_data, process_consumption_data.
    rewrite Hx. cbn [rbind truthy negb py_iter].
    rewrite (filter_no_dict _ Hnd). repeat split.
  - intros pivot_table buy_data sell_data buys sells Hb Hs Hnb Hns.
    unfold process_bilateral_contracts, bilateral_records.
    rewrite Hb, Hs. cbn [rbind py_iter].
    rewrite (filter_no_dict _ Hnb), (filter_no_dict _ Hns). reflexivity.
Qed.

Lemma hour_record_on_NaT (item : json) (e : json) h :
  entry_hour e = Ok h ->
  (forall v, entry_value "generation" e = Ok v -> is_dict item = true ->
     exists r, generation_hour_record item Pd.NaT e = Ok r /\
               assoc "datetime" r = Some (CTime Pd.NaT) /\
               assoc "value" r = Some (CFloat v)) /\
  (forall v, entry_value "plannedGeneration" e = Ok v -> is_dict item = true ->
     exists r, kgup_hour_record item Pd.NaT e = Ok r /\
               assoc "datetime" r = Some (CTime Pd.NaT) /\
               assoc "planned_generation" r = Some (CFloat v)).
Proof.
  unfold entry_hour, entry_value. intros Hh.
  destruct (py_get e "hour" (JInt 0)) as [x|] eqn:Hget; cbn [rbind] in Hh;
    [|discriminate].
  split; intros v Hv Hd; destruct item as [| | | | | |d]; try discriminate.
  - unfold generation_hour_record. rewrite Hget. cbn [rbind]. rewrite Hh.
    cbn [rbind Pd.replace_hour Pd.NaT].
    destruct (py_get_dict_ok d "powerPlantName" (JStr "")) as [a ->].
    destruct (py_get_dict_ok d "powerPlantId" JNull) as [b ->]. cbn [rbind].
    destruct e; try discriminate. cbn [py_get] in *.
    destruct (assoc "generationType" _); cbn [rbind];
      destruct (assoc "generation" _); cbn [rbind] in *; rewrite Hv; cbn [rbind];
      (eexists; split; [reflexivity|split; reflexivity]).
  - unfold kgup_hour_record. rewrite Hget. cbn [rbind]. rewrite Hh.
    cbn [rbind Pd.replace_hour Pd.NaT].
    destruct (py_get_dict_ok d "uevcbName" (JStr "")) as [a ->].
    destruct (py_get_dict_ok d "uevcbId" JNull) as [b ->]. cbn [rbind].
    destruct e; try discriminate. cbn [py_get] in *.
    destruct (assoc "plannedGeneration" _); cbn [rbind] in *; rewrite Hv;
      cbn [rbind]; (eexists; split; [reflexivity|split; reflexivity]).
Qed.

(** X10.  When the parent date of a record does not parse, the hours of
    its breakdown are not range-checked: every entry whose hour converts
    to an integer, 24 or a negative one included, and whose value converts
    to a float yields a row, and all these rows carry [NaT]. *)
Theorem unparseable_parent_masks_hours :
  (forall (item : json) entries,
      (let* d := py_get item "date" (JStr "") in parse_datetime_of d) = Ok Pd.NaT ->
      py_getitem item "hourlyGenerations" = Ok (JList entries) ->
      Forall (fun e => exists h v,
                  entry_hour e = Ok h /\ entry_value "generation" e = Ok v) entries ->
      exists rs,
        generation_records item = Ok rs /\
        length rs = length entries /\
        Forall (fun r => assoc "datetime" r = Some (CTime Pd.NaT)) rs) /\
  (forall (item : json) entries,
      (let* d := py_get item "date" (JStr "") in parse_datetime_of d) = Ok Pd.NaT ->
      py_getitem item "hourlyPlans" = Ok (JList entries) ->
      Forall (fun e => exists h v,
                  entry_hour e = Ok h /\ entry_value "plannedGeneration" e = Ok v)
        entries ->
      exists rs,
        kgup_records item = Ok rs /\
        length rs = length entries /\
        Forall (fun r => assoc "datetime" r = Some (CTime Pd.NaT)) rs).
Proof.
  split; intros item entries Hd Hg Hall.
  - destruct (py_getitem_dict _ _ _ Hg) as [d ->].
    unfold generation_records.
    destruct (py_get (JDict d) "date" (JStr "")) as [x|]; cbn [rbind] in *;
      [|discriminate].
    rewrite Hd. cbn [rbind]. rewrite (py_getitem_in _ _ _ Hg). cbn [rbind].
    rewrite Hg. cbn [rbind py_iter].
    clear Hd Hg. induction Hall as [|e es [h [v [Hh Hv]]] _ IH].
    + exists []. repeat split. constructor.
    + destruct IH as [rs [Hrs [Hlen Hf]]].
      destruct (hour_record_on_NaT (JDict d) e h Hh) as [Hgen _].
      destruct (Hgen v Hv eq_refl) as [r [Hrec [Ht _]]].
      exists (r :: rs). cbn [mapM]. rewrite Hrec. cbn [rbind]. rewrite Hrs.
      cbn [rbind]. split; [reflexivity|]. split; [simpl; congruence|].
      constructor; assumption.
  - destruct (py_getitem_dict _ _ _ Hg) as [d ->].
    unfold kgup_records.
    destruct (py_get (JDict d) "date" (JStr "")) as [x|]; cbn [rbind] in *;
      [|discriminate].
    rewrite Hd. cbn [rbind]. rewrite (py_getitem_in _ _ _ Hg). cbn [rbind].
    rewrite Hg. cbn [rbind py_iter].
    clear Hd Hg. induction Hall as [|e es [h [v [Hh Hv]]] _ IH].
    + exists []. repeat split. constructor.
    + destruct IH as [rs [Hrs [Hlen Hf]]].
      destruct (hour_record_on_NaT (JDict d) e h Hh) as [_ Hplan].
      destruct (Hplan v Hv eq_refl) as [r [Hrec [Ht _]]].
      exists (r :: rs). cbn [mapM]. rewrite Hrec. cbn [rbind]. rewrite Hrs.
      cbn [rbind]. split; [reflexivity|]. split; [simpl; congruence|].
      constructor; assumption.
Qed.

Lemma dt_leb_total a b : Pd.dt_leb a b = false -> Pd.dt_leb b a = true.
Proof.
  destruct a as [x|], b as [y|]; simpl; try discriminate; try reflexivity.
  intros H. apply Z.leb_gt in H. apply Z.leb_le. lia.
Qed.

Lemma insert_by_head col (r : record) (rs : list record) a :
  Pd.dt_leb a (time_key col r) = true ->
  HdRel (fun x y => Pd.dt_leb x y = true) a (map (time_key col) rs) ->
  HdRel (fun x y => Pd.dt_leb x y = true) a (map (time_key col) (insert_by col r rs)).
Proof.
  intros Hr Hrs. destruct rs as [|r' rs]; simpl.
  - constructor. exact Hr.
  - destruct (Pd.dt_leb (time_key col r) (time_key col r')); simpl.
    + constructor. exact Hr.
    + constructor. inversion Hrs. assumption.
Qed.

Lemma insert_by_sorted col (r : record) (rs : list record) :
  Sorted (fun x y => Pd.dt_leb x y = true) (map (time_key col) rs) ->
  Sorted (fun x y => Pd.dt_leb x y = true) (map (time_key col) (insert_by col r rs)).
Proof.
  induction rs as [|r' rs IH]; intros Hs; simpl.
  - repeat constructor.
  - destruct (Pd.dt_leb (time_key col r) (time_key col r')) eqn:E; simpl.
    + constructor; [exact Hs|]. constructor. exact E.
    + simpl in Hs. inversion Hs as [|? ? Hs' Hhd]; subst.
      constructor; [apply IH, Hs'|].
      apply insert_by_head; [apply dt_leb_total, E|exact Hhd].
Qed.

Lemma sort_by_sorted col (rs : list record) :
  Sorted (fun x y => Pd.dt_leb x y = true) (map (time_key col) (sort_by col rs)).
Proof.
  induction rs as [|r rs IH]; simpl; [constructor|].
  apply insert_by_sorted, IH.
Qed.

Lemma sorted_then_indexed (df0 df1 df : DataFrame) :
  sort_values "datetime" df0 = Ok df1 ->
  set_index "datetime" df1 = Ok df ->
  Sorted (fun x y => Pd.dt_leb x y = true) (datetimes df).
Proof.
  unfold sort_values. destruct (negb _); [discriminate|].
  destruct (Pd.tz_mixed _); [discriminate|].
  intros H1 H. injection H1 as <-.
  apply set_index_rows in H. unfold datetimes. rewrite H. simpl.
  apply sort_by_sorted.
Qed.

Lemma sorted_indexed_sorted (records : list record) (df : DataFrame) :
  (let* df := sort_values "datetime" (DataFrame_of_records records) in
   set_index "datetime" df) = Ok df ->
  Sorted (fun x y => Pd.dt_leb x y = true) (datetimes df).
Proof.
  destruct (sort_values "datetime" (DataFrame_of_records records)) as [df1|] eqn:E;
    cbn [rbind]; [|discriminate].
  apply (sorted_then_indexed _ _ _ E).
Qed.

Lemma frame_sorted (records : list record) (df : DataFrame) :
  Forall (fun r => has_key "datetime" r = true) records ->
  frame_sorted_unless_empty records = Ok df ->
  Sorted (fun x y => Pd.dt_leb x y = true) (datetimes df).
Proof.
  intros Hk. unfold frame_sorted_unless_empty.
  destruct records as [|r rs].
  - simpl. intros H. injection H as <-. constructor.
  - inversion Hk as [|? ? Hr _]; subst.
    pose proof (columns_has_key "datetime" r rs Hr) as Hc.
    assert (He : empty (DataFrame_of_records (r :: rs)) = false).
    { unfold empty. change (rows (DataFrame_of_records (r :: rs))) with (r :: rs).
      destruct (columns (DataFrame_of_records (r :: rs))); [discriminate|reflexivity]. }
    rewrite He. cbn [negb]. apply sorted_indexed_sorted.
Qed.

Lemma mapM_keys (f : json -> result record) (l : list json) rs :
  (forall x r, f x = Ok r -> has_key "datetime" r = true) ->
  mapM f l = Ok rs -> Forall (fun r => has_key "datetime" r = true) rs.
Proof.
  intros Hf H. apply mapM_Forall2 in H.
  induction H as [|x r xs rs' Hx _ IH]; constructor; [apply (Hf x r Hx)|exact IH].
Qed.

Lemma mapM_concat_keys (f : json -> result (list record)) (l : list json) rss :
  (forall x rs, f x = Ok rs -> Forall (fun r => has_key "datetime" r = true) rs) ->
  mapM f l = Ok rss -> Forall (fun r => has_key "datetime" r = true) (concat rss).
Proof.
  intros Hf H. apply mapM_Forall2 in H. apply Forall_concat.
  induction H as [|x r xs rs' Hx _ IH]; constructor; [apply (Hf x r Hx)|exact IH].
Qed.

(** X11.  A table returned by the price, balancing, generation, plan or
    consumption normaliser has its rows in ascending order of timestamp,
    with the rows whose timestamp is [NaT] after all the others. *)
Theorem normalised_tables_sorted (data : json) (df : DataFrame) :
  process_ptf_data data = Ok df \/ process_smf_data data = Ok df \/
  process_generation_data data = Ok df \/ process_kgup_data data = Ok df \/
  process_consumption_data data = Ok df ->
  Sorted (fun x y => Pd.dt_leb x y = true) (datetimes df) /\
  forall i j, (i < j)%nat -> nth_error (datetimes df) i = Some Pd.NaT ->
              (j < length (datetimes df))%nat ->
              nth_error (datetimes df) j = Some Pd.NaT.
Proof.
  intros H.
  assert (Hs : Sorted (fun x y => Pd.dt_leb x y = true) (datetimes df)).
  { destruct H as [H|[H|[H|[H|H]]]].
    - unfold process_ptf_data in H. unchain H.
      + injection H as <-. constructor.
      + eapply sorted_then_indexed; eassumption.
    - unfold process_smf_data in H. unchain H.
      + injection H as <-. constructor.
      + eapply sorted_then_indexed; eassumption.
    - unfold process_generation_data in H. unchain H.
      + injection H as <-. constructor.
      + apply (frame_sorted _ _ (mapM_concat_keys _ _ _ generation_records_keys E2) H).
    - unfold process_kgup_data in H. unchain H.
      + injection H as <-. constructor.
      + apply (frame_sorted _ _ (mapM_concat_keys _ _ _ kgup_records_keys E2) H).
    - unfold process_consumption_data in H. unchain H.
      + injection H as <-. constructor.
      + apply (frame_sorted _ _ (mapM_keys _ _ _ consumption_record_keys E2) H). }
  split; [exact Hs|].
  clear H. induction Hs as [|a l Hs IH Hhd]; intros i j Hij Hi Hj.
  - destruct i; discriminate.
  - destruct j as [|j]; [lia|]. simpl in Hj. simpl.
    destruct i as [|i].
    + simpl in Hi. injection Hi as ->.
      destruct l as [|b l]; [simpl in Hj; lia|].
      inversion Hhd as [|? ? Hab]; subst.
      assert (Hb : b = Pd.NaT) by (destruct b; [discriminate|reflexivity]).
      subst b. destruct j as [|j]; [reflexivity|].
      apply (IH 0%nat (S j)); [lia|reflexivity|simpl in Hj |- *; lia].
    + apply (IH i j); [lia|exact Hi|lia].
Qed.

End MoreProcessorProperties.

Section RequestTraceProperties.
Import Auth Epias Slot.
Context {J : Type}.
Implicit Types (s : Sys J) (resp : Response J).

Lemma after_auth_event s :
  trace (net (after_auth s))
  = (trace (net s)
       ++ [EvAuthPost (credentials (tgt_mgr s)) (clock (net (after_auth s)))
             (next_auth_outcome s)])%list.
Proof.
  unfold after_auth, requests_post_auth, next_auth_outcome, credentials.
  destruct (auth_server (net s)); reflexivity.
Qed.

Lemma current_trace force s :
  exists rest, trace (net (snd (current force s))) = (trace (net s) ++ rest)%list /\
               Forall carries_ticket rest.
Proof.
  destruct (current_effect force s) as [[_ Hc]|[_ [Hnet _]]].
  - exists []. rewrite Hc, app_nil_r. split; [reflexivity|constructor].
  - rewrite Hnet, after_auth_event. eexists. split; [reflexivity|].
    constructor; [exact I|constructor].
Qed.

Lemma after_data_clock method url ticket (payload : J) s :
  clock (net s) <= clock (net (after_data method url ticket payload s)).
Proof.
  unfold after_data, session_request.
  destruct (data_server (net s)); simpl; lia.
Qed.

Lemma after_data_validated method url ticket (payload : J) s :
  validated s -> validated (after_data method url ticket payload s).
Proof.
  unfold validated. rewrite after_data_mgr.
  destruct (_token (tgt_mgr s)); [tauto|].
  pose proof (after_data_clock method url ticket payload s). lia.
Qed.

Lemma request_trace_ticketed method path (payload : J) s :
  validated s ->
  validated (snd (_request method path payload s)) /\
  exists rest,
    trace (net (snd (_request method path payload s))) = (trace (net s) ++ rest)%list /\
    Forall carries_ticket rest.
Proof.
  intros Hv. rewrite request_after_ticket.
  destruct (current_keeps_validated false s Hv) as [Hv0 Hret0].
  destruct (current_trace false s) as [r0 [Ht0 Hc0]].
  destruct (current false s) as [[tok0|e0] s0]; cbn [fst snd] in *;
    [|split; [exact Hv0|exists r0; split; assumption]].
  destruct (Hret0 tok0 eq_refl) as [t0 [-> Hp0]]. cbv zeta.
  pose proof (after_data_validated method (BASE ++ path) (Some t0) payload s0 Hv0) as Hv1.
  pose proof (after_data_trace method (BASE ++ path) (Some t0) payload s0) as Ht1.
  set (s1 := after_data method (BASE ++ path) (Some t0) payload s0) in *.
  assert (Hfirst : exists rest,
             trace (net s1) = (trace (net s) ++ rest)%list /\ Forall carries_ticket rest).
  { eexists. rewrite Ht1, Ht0, <- app_assoc. split; [reflexivity|].
    apply Forall_app. split; [exact Hc0|].
    constructor; [exists t0; split; [reflexivity|exact Hp0]|constructor]. }
  destruct (next_data_outcome s0) as [resp1|e1]; [|split; assumption].
  destruct (auth_failure resp1); [|split; assumption].
  destruct (current_keeps_validated true s1 Hv1) as [Hv2 Hret2].
  destruct (current_trace true s1) as [r2 [Ht2 Hc2]].
  destruct Hfirst as [r1 [Hr1 Hc1]].
  destruct (current true s1) as [[tok1|e] s2]; cbn [fst snd] in *.
  - destruct (Hret2 tok1 eq_refl) as [t1 [-> Hp1]].
    split; [apply after_data_validated, Hv2|].
    eexists. rewrite after_data_trace, Ht2, Hr1, <- !app_assoc.
    split; [reflexivity|].
    apply Forall_app. split; [exact Hc1|]. apply Forall_app. split; [exact Hc2|].
    constructor; [exists t1; split; [reflexivity|exact Hp1]|constructor].
  - split; [exact Hv2|]. eexists. rewrite Ht2, Hr1, <- app_assoc.
    split; [reflexivity|]. apply Forall_app. split; assumption.
Qed.

(** A call that starts with a successful refresh continues as a call
    from the refreshed state. *)
Lemma request_after_refresh method path (payload : J) s tok :
  refreshes false s = true ->
  token_of_outcome (next_auth_outcome s) = Ok tok ->
  _request method path payload s
  = _request method path payload (refreshed tok (after_auth s)).
Proof.
  intros Href Htok. rewrite !request_after_ticket.
  rewrite (current_refresh false s Href), Htok.
  rewrite (current_cached (refreshed tok (after_auth s))); [reflexivity|].
  cbn [refreshed tgt_mgr _expires_at net]. unfold TTL_SECONDS. lia.
Qed.

(** X12.  From a state in which the slot is empty and expired, or holds a
    ticket of the expected format (a new manager in particular), every
    request that [_request] sends to a data endpoint, the retry included,
    carries a ticket that starts with the TGT- prefix, and the slot is in
    such a state again afterwards, whether the call returns or raises. *)
Theorem requests_carry_valid_ticket method path (payload : J) s :
  validated s ->
  validated (snd (_request method path payload s)) /\
  exists rest,
    trace (net (snd (_request method path payload s))) = (trace (net s) ++ rest)%list /\
    Forall carries_ticket rest.
Proof. apply request_trace_ticketed. Qed.

End RequestTraceProperties.

Section DashboardProperties.
Import Py Processors MoreProcessors.
Context `{RT : Runtime}.
Local Open Scope result_scope.





End DashboardProperties.

Section ContractProperties.
Import Py Processors MoreProcessors.
Context `{RT : Runtime}.
Local Open Scope result_scope.

Lemma bilateral_record_fields side (item : json) r :
  bilateral_record side item = Ok r ->
  assoc "type" r = Some (CObj (JStr side)) /\ has_key "datetime" r = true.
Proof.
  unfold bilateral_record. intros H. unchain H. injection H as <-.
  split; reflexivity.
Qed.

Lemma bilateral_side_records side (l : list json) rs :
  mapM (bilateral_record side) l = Ok rs ->
  Forall2 (fun item r => bilateral_record side item = Ok r) l rs /\
  Forall (fun r => assoc "type" r = Some (CObj (JStr side))) rs /\
  Forall (fun r => has_key "datetime" r = true) rs.
Proof.
  intros H. apply mapM_Forall2 in H. split; [exact H|].
  induction H as [|x r xs rs' Hx _ [IH1 IH2]]; [split; constructor|].
  destruct (bilateral_record_fields side x r Hx).
  split; constructor; assumption.
Qed.

(** X15.  The records of the contract normaliser are those of the buy
    side followed by those of the sell side: one record per dict item of
    each content, in the order of the content, the former all of type buy
    and the latter all of type sell; items that are not dicts contribute
    nothing. *)
Theorem bilateral_sides (buy_data sell_data : json) (records : list record) :
  bilateral_records buy_data sell_data = Ok records ->
  exists buy_items sell_items buys sells,
    (let* c := extract_content buy_data in py_iter c) = Ok buy_items /\
    (let* c := extract_content sell_data in py_iter c) = Ok sell_items /\
    records = (buys ++ sells)%list /\
    Forall2 (fun item r => bilateral_record "buy" item = Ok r)
      (List.filter is_dict buy_items) buys /\
    Forall2 (fun item r => bilateral_record "sell" item = Ok r)
      (List.filter is_dict sell_items) sells /\
    Forall (fun r => assoc "type" r = Some (CObj (JStr "buy"))) buys /\
    Forall (fun r => assoc "type" r = Some (CObj (JStr "sell"))) sells.
Proof.
  unfold bilateral_records. intros H.
  destruct (extract_content buy_data) as [bc|] eqn:Eb; cbn [rbind] in H |- *;
    [|discriminate].
  destruct (extract_content sell_data) as [sc|] eqn:Es; cbn [rbind] in H |- *;
    [|discriminate].
  destruct (py_iter bc) as [bi|] eqn:Ebi; cbn [rbind] in H; [|discriminate].
  destruct (mapM (bilateral_record "buy") _) as [buys|] eqn:Ebuys; cbn [rbind] in H;
    [|discriminate].
  destruct (py_iter sc) as [si|] eqn:Esi; cbn [rbind] in H; [|discriminate].
  destruct (mapM (bilateral_record "sell") _) as [sells|] eqn:Esells; cbn [rbind] in H;
    [|discriminate].
  injection H as <-.
  destruct (bilateral_side_records _ _ _ Ebuys) as [Hb2 [Hbt _]].
  destruct (bilateral_side_records _ _ _ Esells) as [Hs2 [Hst _]].
  exists bi, si, buys, sells. repeat split; assumption.
Qed.

Lemma bilateral_records_keys (buy_data sell_data : json) records :
  bilateral_records buy_data sell_data = Ok records ->
  Forall (fun r => has_key "datetime" r = true) records.
Proof.
  unfold bilateral_records. intros H. unchain H. injection H as <-.
  apply Forall_app. split.
  - match goal with
    | E : mapM (bilateral_record "buy") _ = Ok _ |- _ =>
        apply (bilateral_side_records _ _ _ E)
    end.
  - match goal with
    | E : mapM (bilateral_record "sell") _ = Ok _ |- _ =>
        apply (bilateral_side_records _ _ _ E)
    end.
Qed.

(** X16.  When the two sides yield at least one record, the contract
    normaliser hands [pivot_table] the records of both sides sorted by
    timestamp, and its result is what [pivot_table] makes of them; when
    the timestamps mix aware and naive ones it raises [TypeError] and
    [pivot_table] is not reached. *)
Theorem bilateral_pivot_input (pivot_table : DataFrame -> result DataFrame)
    (buy_data sell_data : json) (records : list record) :
  bilateral_records buy_data sell_data = Ok records ->
  records <> [] ->
  (Pd.tz_mixed (map (time_key "datetime") records) = false ->
   exists sorted,
     process_bilateral_contracts pivot_table buy_data sell_data = pivot_table sorted /\
     Permutation (rows sorted) records /\
     Sorted (fun x y => Pd.dt_leb x y = true) (datetimes sorted) /\
     index sorted = None) /\
  (Pd.tz_mixed (map (time_key "datetime") records) = true ->
   process_bilateral_contracts pivot_table buy_data sell_data = Raise TypeError).
Proof.
  intros H Hne. pose proof (bilateral_records_keys _ _ _ H) as Hk.
  unfold process_bilateral_contracts. rewrite H. cbn [rbind]. cbv zeta.
  destruct records as [|r rs]; [congruence|].
  inversion Hk as [|? ? Hr _]; subst.
  pose proof (columns_has_key "datetime" r rs Hr) as Hc.
  assert (He : empty (DataFrame_of_records (r :: rs)) = false).
  { unfold empty. change (rows (DataFrame_of_records (r :: rs))) with (r :: rs).
    destruct (columns (DataFrame_of_records (r :: rs))); [discriminate|reflexivity]. }
  rewrite He. cbn [negb]. unfold sort_values. rewrite Hc. cbn [negb].
  change (rows (DataFrame_of_records (r :: rs))) with (r :: rs).
  split; intros Hmix; rewrite Hmix; cbn [rbind]; [|reflexivity].
  eexists. split; [reflexivity|]. cbn [rows index]. split; [apply sort_by_perm|].
  split; [|reflexivity]. unfold datetimes. cbn [rows]. apply sort_by_sorted.
Qed.

End ContractProperties.

Section MoreFetcherProperties.
Import Py Processors Fetchers.
Context `{RT : Runtime}.
Local Open Scope result_scope.
Variable self : DataFetcher.

Lemma inverted_range (start_date end_date : Z) org plant :
  end_date < start_date ->
  DateRangeRequest (combine_min start_date) (combine_max end_date) org plant
  = Raise (ValueError "endDate must be after startDate").
Proof.
  intros H. unfold DateRangeRequest, datetime_ltb, combine_min, combine_max.
  cbn [fst snd]. apply Z.ltb_lt in H. rewrite H. reflexivity.
Qed.

Lemma ordered_range (start_date end_date : Z) org plant :
  start_date <= end_date ->
  DateRangeRequest (combine_min start_date) (combine_max end_date) org plant
  = Ok (mkRequest (Some (start_date, 0)) (Some (end_date, 86399999999)) org plant).
Proof.
  intros H. unfold DateRangeRequest, datetime_ltb, combine_min, combine_max.
  cbn [fst snd]. apply Z.ltb_ge in H. rewrite H.
  rewrite andb_false_r. reflexivity.
Qed.

(** X17.  A range of days that ends before it starts is rejected by the
    price, balancing, generation and plan fetchers with the [ValueError]
    of the request model, whatever the client would answer; a range of a
    single day is accepted, and for every ordered range the request runs
    from the first instant of the start day to the last microsecond of
    the end day and its payload goes to the normaliser of the fetcher. *)
Theorem inverted_range_rejected (organization_id start_date end_date : Z)
    (power_plant_id : option Z) :
  (end_date < start_date ->
   fetch_ptf_data self start_date end_date
   = Raise (ValueError "endDate must be after startDate") /\
   fetch_smf_data self start_date end_date
   = Raise (ValueError "endDate must be after startDate") /\
   fetch_generation_data self organization_id start_date end_date power_plant_id
   = Raise (ValueError "endDate must be after startDate") /\
   fetch_kgup_data self organization_id start_date end_date
   = Raise (ValueError "endDate must be after startDate")) /\
  (start_date <= end_date ->
   let range org plant :=
     mkRequest (Some (start_date, 0)) (Some (end_date, 86399999999)) org plant in
   fetch_ptf_data self start_date end_date
   = (let* data := get_paginated (client self) DAM_MCP (range None None) in
      process_ptf_data data) /\
   fetch_smf_data self start_date end_date
   = (let* data :=
        get_paginated (client self) BPM_SYSTEM_MARGINAL_PRICE (range None None) in
      process_smf_data data) /\
   fetch_generation_data self organization_id start_date end_date power_plant_id
   = (let* data :=
        get_paginated (client self) GENERATION_REALTIME
          (range (Some organization_id) power_plant_id) in
      process_generation_data data) /\
   fetch_kgup_data self organization_id start_date end_date
   = (let* data :=
        get_paginated (client self) GENERATION_DPP
          (range (Some organization_id) None) in
      process_kgup_data data)).
Proof.
  split; intros H.
  - unfold fetch_ptf_data, fetch_smf_data, fetch_generation_data, fetch_kgup_data.
    rewrite !(inverted_range _ _ _ _ H). repeat split.
  - cbv zeta.
    unfold fetch_ptf_data, fetch_smf_data, fetch_generation_data, fetch_kgup_data.
    rewrite !(ordered_range _ _ _ _ H). repeat split.
Qed.

(** X18.  With a range of days that ends before it starts, the overview
    of an organisation does not raise: it holds an empty table for
    generation, kgup, ptf and smf, and the UEVCB list is fetched all the
    same (the empty list when that fetch raises). *)
Theorem overview_survives_inverted_range (organization_id start_date end_date : Z) :
  end_date < start_date ->
  modelled (fetch_uevcb_list self organization_id) ->
  exists results,
    fetch_organization_overview self organization_id start_date end_date = Ok results /\
    results !! "generation" = Some (OvTable DataFrame_empty) /\
    results !! "kgup" = Some (OvTable DataFrame_empty) /\
    results !! "ptf" = Some (OvTable DataFrame_empty) /\
    results !! "smf" = Some (OvTable DataFrame_empty) /\
    results !! "uevcb_list"
    = Some (match fetch_uevcb_list self organization_id with
            | Ok l => OvList l
            | Raise _ => OvList []
            end).
Proof.
  intros H Hm.
  unfold fetch_organization_overview, overview_tasks, as_table.
  unfold fetch_ptf_data, fetch_smf_data, fetch_generation_data, fetch_kgup_data.
  rewrite !(inverted_range _ _ _ _ H). cbn [rbind].
  destruct (fetch_uevcb_list self organization_id) as [l|e].
  - cbn [rbind overview_loop try_except_Exception overview_default String.eqb
         Ascii.eqb Bool.eqb negb].
    eexists. split; [reflexivity|].
    repeat split;
      repeat (first [rewrite lookup_insert_eq; reflexivity
                    |rewrite lookup_insert_ne by discriminate]).
  - destruct e; try destruct Hm;
      (cbn [rbind overview_loop try_except_Exception overview_default String.eqb
            Ascii.eqb Bool.eqb negb];
       eexists; (split; [reflexivity|]);
       repeat split;
       repeat (first [rewrite lookup_insert_eq; reflexivity
                     |rewrite lookup_insert_ne by discriminate])).
Qed.

Lemma mapM_first_failure {A B} (f : A -> result B) (good : list A) x rest e :
  Forall (fun y => exists v, f y = Ok v) good ->
  f x = Raise e ->
  mapM f (good ++ x :: rest) = Raise e.
Proof.
  intros Hg Hx. induction Hg as [|y good [v Hy] _ IH]; simpl.
  - rewrite Hx. reflexivity.
  - rewrite Hy. cbn [rbind]. rewrite IH. reflexivity.
Qed.

Lemma mapM_all_ok {A B} (f : A -> result B) (l : list A) :
  Forall (fun y => exists v, f y = Ok v) l ->
  exists rs, mapM f l = Ok rs /\ length rs = length l.
Proof.
  intros H. induction H as [|y l [v Hy] _ [rs [IH Hlen]]]; simpl.
  - exists []. split; reflexivity.
  - exists (v :: rs). rewrite Hy. cbn [rbind]. rewrite IH. cbn [rbind].
    split; [reflexivity|simpl; congruence].
Qed.

(** X19.  When the answer to the UEVCB list request is a dict without a
    body, or with a body dict that has no uevcbList, [fetch_uevcb_list]
    returns the empty list instead of raising. *)
Theorem uevcb_list_missing_is_empty (organization_id : Z) d :
  post (client self) GENERATION_UEVCB_LIST (UEVCBListRequest organization_id)
  = Ok (JDict d) ->
  (assoc "body" d = None \/
   exists b, assoc "body" d = Some (JDict b) /\ assoc "uevcbList" b = None) ->
  fetch_uevcb_list self organization_id = Ok [].
Proof.
  intros Hp Hshape. unfold fetch_uevcb_list. cbv zeta. rewrite Hp. cbn [rbind].
  unfold py_in at 1, has_key at 1.
  destruct Hshape as [Hb|[b [Hb Hl]]]; rewrite Hb; cbn [rbind]; [reflexivity|].
  unfold py_getitem at 1. rewrite Hb. cbn [rbind py_in]. unfold has_key.
  rewrite Hl. reflexivity.
Qed.

(** X20.  The UEVCB list is all or nothing.  When the body lists the
    items, the fetcher returns one UEVCB per item, in order, if every item
    passes the validation of the model; the first item that fails it
    makes the whole call raise that item's exception, and the UEVCBs
    built before it are not returned. *)
Theorem uevcb_list_all_or_nothing (organization_id : Z) d b items :
  post (client self) GENERATION_UEVCB_LIST (UEVCBListRequest organization_id)
  = Ok (JDict d) ->
  assoc "body" d = Some (JDict b) ->
  assoc "uevcbList" b = Some (JList items) ->
  (forall l, fetch_uevcb_list self organization_id = Ok l ->
     Forall2 (fun x u => UEVCB_of self x = Ok u) items l) /\
  (Forall (fun x => exists u, UEVCB_of self x = Ok u) items ->
   exists l, fetch_uevcb_list self organization_id = Ok l /\ length l = length items) /\
  (forall good x rest e,
     items = (good ++ x :: rest)%list ->
     Forall (fun y => exists u, UEVCB_of self y = Ok u) good ->
     UEVCB_of self x = Raise e ->
     fetch_uevcb_list self organization_id = Raise e).
Proof.
  intros Hp Hb Hl.
  assert (Heq : fetch_uevcb_list self organization_id = mapM (UEVCB_of self) items).
  { unfold fetch_uevcb_list. cbv zeta. rewrite Hp. cbn [rbind].
    assert (Hg : py_getitem (JDict d) "body" = Ok (JDict b))
      by (unfold py_getitem; rewrite Hb; reflexivity).
    assert (Hi : py_in "body" (JDict d) = Ok true)
      by (unfold py_in, has_key; rewrite Hb; reflexivity).
    assert (Hi' : py_in "uevcbList" (JDict b) = Ok true)
      by (unfold py_in, has_key; rewrite Hl; reflexivity).
    assert (Hg' : py_getitem (JDict b) "uevcbList" = Ok (JList items))
      by (unfold py_getitem; rewrite Hl; reflexivity).
    rewrite Hi. cbn [rbind]. rewrite Hg. cbn [rbind]. rewrite Hi'. cbn [rbind].
    rewrite Hg'. reflexivity. }
  rewrite Heq. split; [|split].
  - intros l H. apply mapM_Forall2, H.
  - apply mapM_all_ok.
  - intros good x rest e -> Hg Hx. apply mapM_first_failure; assumption.
Qed.

End MoreFetcherProperties.

Section MarketProperties.
Import Auth Epias Slot Py Market.
Context `{RT : Runtime}.
Local Open Scope result_scope.

Lemma client_of_environ (environ : gmap string string) user pass :
  environ !! "EPIAS_USER" = Some user ->
  environ !! "EPIAS_PASS" = Some pass ->
  _client environ = Ok (init user pass).
Proof.
  intros Hu Hp. unfold _client, os_environ. rewrite Hu. cbn [rbind].
  rewrite Hp. reflexivity.
Qed.

(** X21.  Without both credentials in the environment the market query
    raises [KeyError] for the first variable that is missing, the user
    name before the password, and nothing is sent: the world is left as
    it was. *)
Theorem clearing_quantity_needs_credentials (environ : gmap string string)
    (start end_ : string) (power_plant_id : Z) (w : World json) :
  (environ !! "EPIAS_USER" = None ->
   clearing_quantity_items environ start end_ power_plant_id w
   = (Raise (KeyError "EPIAS_USER"), w)) /\
  (forall user, environ !! "EPIAS_USER" = Some user ->
   environ !! "EPIAS_PASS" = None ->
   clearing_quantity_items environ start end_ power_plant_id w
   = (Raise (KeyError "EPIAS_PASS"), w)).
Proof.
  split.
  - intros Hu. unfold clearing_quantity_items, _client, os_environ.
    rewrite Hu. reflexivity.
  - intros user Hu Hp. unfold clearing_quantity_items, _client, os_environ.
    rewrite Hu. cbn [rbind]. rewrite Hp. reflexivity.
Qed.

(** X22.  Every market query authenticates anew: with the credentials in
    the environment, the first request of a call goes to the
    authentication endpoint with these credentials, whatever was fetched
    before, since the client and its ticket slot are built by the call.
    When that exchange yields no ticket, its exception is the result and
    no request reaches a data endpoint; otherwise every data request of
    the call carries a ticket with the TGT- prefix. *)
Theorem clearing_quantity_authenticates_each_call (environ : gmap string string)
    (start end_ : string) (power_plant_id : Z) (w : World json) user pass :
  environ !! "EPIAS_USER" = Some user ->
  environ !! "EPIAS_PASS" = Some pass ->
  0 <= clock w ->
  let out := clearing_quantity_items environ start end_ power_plant_id w in
  let s := mkSys (init user pass) w in
  exists rest,
    trace (snd out)
    = (trace w
         ++ EvAuthPost ("username=" ++ user ++ "&password=" ++ pass)
              (clock (net (after_auth s))) (next_auth_outcome s) :: rest)%list /\
    Forall carries_ticket rest /\
    (forall e, token_of_outcome (next_auth_outcome s) = Raise e ->
       fst out = Raise e /\ rest = [] /\
       data_server (snd out) = data_server w).
Proof.
  intros Hu Hp Hclock. cbv zeta.
  unfold clearing_quantity_items. rewrite (client_of_environ _ _ _ Hu Hp).
  set (s := mkSys (init user pass) w).
  set (payload := clearing_quantity_payload start end_ power_plant_id).
  unfold post.
  assert (Href : false || (_expires_at (tgt_mgr s) <=? clock (net s)) = true).
  { cbn. apply Z.leb_le. exact Hclock. }
  pose proof (current_refresh false s Href) as Hcur.
  pose proof (after_auth_event s) as Hev.
  change (credentials (tgt_mgr s))
    with ("username=" ++ user ++ "&password=" ++ pass) in Hev.
  change (trace (net s)) with (trace w) in Hev.
  destruct (token_of_outcome (next_auth_outcome s)) as [tok|e0] eqn:Htok.
  - rewrite (request_after_refresh "POST" _ payload s tok Href Htok).
    set (s0 := refreshed tok (after_auth s)).
    assert (Hv0 : validated s0).
    { unfold validated, s0. cbn [refreshed tgt_mgr _token].
      unfold token_of_outcome in Htok.
      destruct (next_auth_outcome s) as [resp|]; [|discriminate].
      destruct (error_status (status_code resp)); [discriminate|].
      destruct (startswith (strip (text resp)) "TGT-") eqn:Hpre; [|discriminate].
      injection Htok as <-. exact Hpre. }
    assert (Ht0 : trace (net s0) = trace (net (after_auth s))) by reflexivity.
    destruct (request_trace_ticketed "POST" clearing_quantity_path payload s0 Hv0)
      as [_ [rest [Hrest Hall]]].
    destruct (_request "POST" clearing_quantity_path payload s0) as [r s'].
    cbn [snd fst] in *. exists rest. rewrite Hrest, Ht0, Hev, <- app_assoc.
    split; [reflexivity|]. split; [exact Hall|]. intros e He. discriminate.
  - rewrite request_after_ticket, Hcur. cbn [fst snd rbind]. exists [].
    split; [exact Hev|].
    split; [constructor|]. intros e He. injection He as <-.
    split; [reflexivity|]. split; [reflexivity|]. apply (after_auth_data s).
Qed.

End MarketProperties.

(* ===================================================================== *)
(** * The further properties on sample inputs                            *)
(* ===================================================================== *)

Section MoreAuthExamples.
Import Auth Epias Slot Samples.

Lemma current_failure_keeps_cache_witness :
  fst (current false (auth_once 500 "down")) = Raise (HTTPError 500) /\
  tgt_mgr (snd (current false (auth_once 500 "down"))) = init "user" "secret" /\
  refreshes false (auth_once 500 "down") = true.
Proof.
  split; [reflexivity|].
  destruct (current_failure_keeps_cache false (auth_once 500 "down") (HTTPError 500)
              eq_refl) as [Hm [Hr _]].
  split; [exact Hm|exact Hr].
Defined.

Lemma returned_tickets_validated_witness :
  0 <= 1000 /\
  Forall (fun o : result (option string) * Sys unit =>
            forall v, fst o = Ok v ->
              exists tok, v = Some tok /\ startswith tok "TGT-" = true)
         (run [Call false; Wait 10; Call false] (auth_once 200 "TGT-7")).
Proof.
  split; [lia|].
  apply (returned_tickets_validated "user" "secret"
           (mkWorld 1000 [mkExchange 2%N (Ok (mkResponse 200 "TGT-7" None))] [] [])
           [Call false; Wait 10; Call false]).
  simpl. lia.
Defined.

Lemma first_response_final_witness :
  let sys := client_sys (mkResponse 200 "TGT-2" None) [mkResponse 200 "" (Some 42)] in
  current false sys = (Ok (Some "TGT-1"), sys) /\
  fst (_request "GET" "/markets/dam/data/mcp" 7 sys) = Ok 42 /\
  data_requests (trace (net (snd (_request "GET" "/markets/dam/data/mcp" 7 sys))))
  = 1%nat.
Proof.
  intros sys. split; [reflexivity|].
  destruct (first_response_final "GET" "/markets/dam/data/mcp" 7 sys
              (Some "TGT-1") sys eq_refl) as [Hreq [Hd _]].
  { intros resp H. injection H as <-. reflexivity. }
  rewrite Hreq. split; [reflexivity|exact Hd].
Defined.

Lemma no_ticket_no_request_witness :
  fst (current false (auth_once 500 "down")) = Raise (HTTPError 500) /\
  fst (_request "GET" "/markets/dam/data/mcp" tt (auth_once 500 "down"))
  = Raise (HTTPError 500) /\
  data_requests
    (trace (net (snd (_request "GET" "/markets/dam/data/mcp" tt (auth_once 500 "down")))))
  = 0%nat.
Proof.
  split; [reflexivity|].
  destruct (no_ticket_no_request "GET" "/markets/dam/data/mcp" tt
              (auth_once 500 "down") (HTTPError 500) eq_refl) as [Hr [Hd _]].
  split; [exact Hr|exact Hd].
Defined.

Lemma requests_carry_valid_ticket_witness :
  let sys := client_sys (mkResponse 200 "TGT-2" None)
               [mkResponse 401 "" None; mkResponse 200 "" (Some 42)] in
  validated sys /\
  validated (snd (_request "POST" "/markets/dam/data/mcp" 7 sys)) /\
  exists rest,
    trace (net (snd (_request "POST" "/markets/dam/data/mcp" 7 sys)))
    = (trace (net sys) ++ rest)%list /\
    Forall carries_ticket rest.
Proof.
  intros sys. split; [reflexivity|].
  apply (requests_carry_valid_ticket "POST" "/markets/dam/data/mcp" 7 sys).
  reflexivity.
Defined.

End MoreAuthExamples.

Section MoreProcessorExamples.
Import Py Processors MoreProcessors Samples MoreSamples.
#[local] Existing Instance sample_runtime.

Lemma extract_content_raises_only_TypeError_witness :
  assoc "body" [("resultCode", JStr "500"); ("body", @JNull sample_runtime)]
  = Some JNull /\
  extract_content null_body_dashboard = Raise TypeError.
Proof.
  split; [reflexivity|].
  destruct (extract_content_raises_only_TypeError null_body_dashboard) as [_ [_ H]].
  apply (H _ eq_refl). reflexivity.
Defined.

Lemma alias_fallback_witness :
  aliased fallback_item "price" "value" = Ok (JInt 7) /\
  exists r, ptf_record fallback_item = Ok r /\
    exists src x, aliased fallback_item "price" "value" = Ok src /\
                  py_float src = Ok x /\ assoc "price" r = Some (CFloat x).
Proof.
  split; [reflexivity|].
  destruct alias_fallback as [_ [H _]].
  destruct (ptf_record fallback_item) as [r|e] eqn:E; [|discriminate E].
  exists r. split; [reflexivity|]. apply (H fallback_item r E).
Defined.

Lemma guarded_normalisers_accept_non_dict_items_witness :
  extract_content bare_strings = Ok (JList [JStr "a"; JStr "b"]) /\
  process_generation_data bare_strings = Ok DataFrame_empty /\
  process_kgup_data bare_strings = Ok DataFrame_empty /\
  process_consumption_data bare_strings = Ok DataFrame_empty.
Proof.
  split; [reflexivity|].
  destruct guarded_normalisers_accept_non_dict_items as [H _].
  apply (H bare_strings [JStr "a"; JStr "b"] eq_refl); [discriminate|].
  repeat constructor.
Defined.

Lemma unparseable_parent_masks_hours_witness :
  parse_datetime "yesterday" = Ok Pd.NaT /\
  exists rs,
    generation_records (masked_item "hourlyGenerations" "generation") = Ok rs /\
    length rs = 1%nat /\
    Forall (fun r => assoc "datetime" r = Some (CTime Pd.NaT)) rs.
Proof.
  split; [reflexivity|].
  destruct unparseable_parent_masks_hours as [H _].
  apply (H (masked_item "hourlyGenerations" "generation")
           [hour_24_entry "generation"] eq_refl eq_refl).
  repeat constructor. exists 24, 10. split; reflexivity.
Defined.

Lemma normalised_tables_sorted_witness :
  exists df,
    process_ptf_data ptf_payload = Ok df /\
    Sorted (fun x y => Pd.dt_leb x y = true) (datetimes df) /\
    forall i j, (i < j)%nat -> nth_error (datetimes df) i = Some Pd.NaT ->
                (j < length (datetimes df))%nat ->
                nth_error (datetimes df) j = Some Pd.NaT.
Proof.
  destruct (process_ptf_data ptf_payload) as [df|e] eqn:Hdf; [|discriminate Hdf].
  exists df. split; [reflexivity|].
  apply (normalised_tables_sorted ptf_payload df). left. exact Hdf.
Defined.



Lemma bilateral_sides_witness :
  bilateral_records buy_payload sell_payload = Ok contract_records /\
  exists buys sells,
    contract_records = (buys ++ sells)%list /\
    length buys = 1%nat /\ length sells = 1%nat /\
    Forall (fun r => assoc "type" r = Some (CObj (JStr "buy"))) buys /\
    Forall (fun r => assoc "type" r = Some (CObj (JStr "sell"))) sells.
Proof.
  assert (E : bilateral_records buy_payload sell_payload = Ok contract_records)
    by reflexivity.
  split; [exact E|].
  destruct (bilateral_sides buy_payload sell_payload contract_records E)
    as [bi [si [buys [sells [Hbi [Hsi [Hrec [Hb [Hs [Hbt Hst]]]]]]]]]].
  injection Hbi as <-. injection Hsi as <-.
  apply Forall2_length in Hb, Hs.
  exists buys, sells. split; [exact Hrec|].
  split; [symmetry; exact Hb|]. split; [symmetry; exact Hs|].
  split; assumption.
Defined.

Lemma bilateral_pivot_input_witness :
  bilateral_records buy_payload sell_payload = Ok contract_records /\
  Pd.tz_mixed (map (time_key "datetime") contract_records) = false /\
  exists sorted,
    process_bilateral_contracts (fun df => Ok df) buy_payload sell_payload = Ok sorted /\
    Permutation (rows sorted) contract_records /\
    Sorted (fun x y => Pd.dt_leb x y = true) (datetimes sorted).
Proof.
  assert (E : bilateral_records buy_payload sell_payload = Ok contract_records)
    by reflexivity.
  split; [exact E|]. split; [reflexivity|].
  destruct (bilateral_pivot_input (fun df => Ok df) buy_payload sell_payload
              contract_records E) as [H _]; [discriminate|].
  destruct (H eq_refl) as [sorted [Hp [Hperm [Hsorted _]]]].
  exists sorted. split; [exact Hp|]. split; [exact Hperm|exact Hsorted].
Defined.

End MoreProcessorExamples.

Section MoreFetcherExamples.
Import Py Processors Fetchers Samples MoreSamples.
#[local] Existing Instance sample_runtime.

Lemma inverted_range_rejected_witness :
  10 < 12 /\
  fetch_ptf_data (sample_fetcher summary_dashboard) 12 10
  = Raise (ValueError "endDate must be after startDate") /\
  fetch_kgup_data (sample_fetcher summary_dashboard) 1 12 10
  = Raise (ValueError "endDate must be after startDate").
Proof.
  split; [lia|].
  destruct (inverted_range_rejected (sample_fetcher summary_dashboard) 1 12 10 None)
    as [H _].
  destruct H as [Hptf [_ [_ Hkgup]]]; [lia|].
  split; [exact Hptf|exact Hkgup].
Defined.

Lemma overview_survives_inverted_range_witness :
  10 < 12 /\
  exists results,
    fetch_organization_overview (sample_fetcher summary_dashboard) 1 12 10 = Ok results /\
    results !! "ptf" = Some (OvTable DataFrame_empty) /\
    results !! "uevcb_list" = Some (OvList []).
Proof.
  split; [lia|].
  destruct (overview_survives_inverted_range (sample_fetcher summary_dashboard) 1 12 10)
    as [results [Hfetch [_ [_ [Hptf [_ Hlist]]]]]]; [lia|exact I|].
  exists results. split; [exact Hfetch|]. split; [exact Hptf|exact Hlist].
Defined.

Lemma uevcb_list_missing_is_empty_witness :
  assoc "body" [("resultCode", @JStr sample_runtime "200")] = None /\
  fetch_uevcb_list (listing_fetcher (JDict [("resultCode", JStr "200")])) 9 = Ok [].
Proof.
  split; [reflexivity|].
  apply (uevcb_list_missing_is_empty
           (listing_fetcher (JDict [("resultCode", JStr "200")])) 9
           [("resultCode", JStr "200")] eq_refl).
  left. reflexivity.
Defined.

Lemma uevcb_list_all_or_nothing_witness :
  sample_UEVCB_of uevcb_ok = Ok (mkUEVCB 1 "U1" "40W0001" 9 None) /\
  sample_UEVCB_of uevcb_incomplete = Raise (ValueError "validation error for UEVCB") /\
  fetch_uevcb_list
    (listing_fetcher (JDict (uevcb_listing [uevcb_ok; uevcb_incomplete; uevcb_ok]))) 9
  = Raise (ValueError "validation error for UEVCB").
Proof.
  split; [reflexivity|]. split; [reflexivity|].
  destruct (uevcb_list_all_or_nothing
              (listing_fetcher (JDict (uevcb_listing [uevcb_ok; uevcb_incomplete; uevcb_ok])))
              9 (uevcb_listing [uevcb_ok; uevcb_incomplete; uevcb_ok])
              [("uevcbList", JList [uevcb_ok; uevcb_incomplete; uevcb_ok])]
              [uevcb_ok; uevcb_incomplete; uevcb_ok] eq_refl eq_refl eq_refl)
    as [_ [_ H]].
  apply (H [uevcb_ok] uevcb_incomplete [uevcb_ok]); [reflexivity| |reflexivity].
  repeat constructor. eexists. reflexivity.
Defined.

End MoreFetcherExamples.

Section MarketExamples.
Import Auth Epias Slot Py Market Samples MoreSamples.
#[local] Existing Instance sample_runtime.

Lemma clearing_quantity_needs_credentials_witness :
  user_only !! "EPIAS_USER" = Some "user" /\
  user_only !! "EPIAS_PASS" = None /\
  clearing_quantity_items user_only "2024-01-01" "2024-01-02" 7 market_world
  = (Raise (KeyError "EPIAS_PASS"), market_world).
Proof.
  assert (Hu : user_only !! "EPIAS_USER" = Some "user")
    by apply lookup_insert_eq.
  assert (Hp : user_only !! "EPIAS_PASS" = None).
  { unfold user_only. rewrite lookup_insert_ne by discriminate. apply lookup_empty. }
  split; [exact Hu|]. split; [exact Hp|].
  destruct (clearing_quantity_needs_credentials user_only "2024-01-01" "2024-01-02" 7
              market_world) as [_ H].
  apply (H "user" Hu Hp).
Defined.

Lemma clearing_quantity_authenticates_each_call_witness :
  0 <= 1000 /\
  (exists t res rest,
     trace (snd (clearing_quantity_items both_credentials "2024-01-01" "2024-01-02" 7
                   market_world))
     = EvAuthPost "username=user&password=secret" t res :: rest /\
     Forall carries_ticket rest) /\
  fst (clearing_quantity_items both_credentials "2024-01-01" "2024-01-02" 7
         market_world_down)
  = Raise (HTTPError 503) /\
  data_server (snd (clearing_quantity_items both_credentials "2024-01-01" "2024-01-02" 7
                      market_world_down))
  = data_server market_world_down.
Proof.
  split; [lia|].
  assert (Hu : both_credentials !! "EPIAS_USER" = Some "user")
    by apply lookup_insert_eq.
  assert (Hp : both_credentials !! "EPIAS_PASS" = Some "secret").
  { unfold both_credentials. rewrite lookup_insert_ne by discriminate.
    apply lookup_insert_eq. }
  split.
  - destruct (clearing_quantity_authenticates_each_call both_credentials
                "2024-01-01" "2024-01-02" 7 market_world "user" "secret" Hu Hp)
      as [rest [Htrace [Hall _]]]; [simpl; lia|].
    eexists _, _, rest. split; [exact Htrace|exact Hall].
  - destruct (clearing_quantity_authenticates_each_call both_credentials
                "2024-01-01" "2024-01-02" 7 market_world_down "user" "secret" Hu Hp)
      as [rest [_ [_ Hfail]]]; [simpl; lia|].
    destruct (Hfail (HTTPError 503) eq_refl) as [Hr [_ Hd]].
    split; [exact Hr|exact Hd].
Defined.

End MarketExamples.

(* ===================================================================== *)
(** * Where a failure is not isolated                                    *)
(* ===================================================================== *)

Section BreakdownFailureProperties.
Import Py Processors.
Context `{RT : Runtime}.
Local Open Scope result_scope.

Lemma mapM_Exists_raise {A B} (f : A -> result B) (l : list A) :
  Exists (fun x => exists e, f x = Raise e) l -> exists e, mapM f l = Raise e.
Proof.
  induction 1 as [x l [e He]|x l _ [e IH]]; simpl.
  - rewrite He. eauto.
  - destruct (f x); cbn [rbind]; [rewrite IH|]; eauto.
Qed.

Lemma mapM_Ok_each {A B} (f : A -> result B) (l : list A) rs :
  mapM f l = Ok rs -> Forall (fun x => exists r, f x = Ok r) l.
Proof.
  intros H. apply mapM_Forall2 in H.
  induction H; constructor; eauto.
Qed.

Lemma replace_hour_in_range t h dt :
  Pd.replace_hour (Some t) h = Ok dt -> 0 <= h <= 23.
Proof.
  unfold Pd.replace_hour.
  destruct ((0 <=? h) && (h <=? 23)) eqn:E; [|discriminate].
  intros _. apply andb_true_iff in E as [E1 E2].
  apply Z.leb_le in E1, E2. lia.
Qed.

Lemma generation_hour_record_good (item : json) t (e : json) r :
  generation_hour_record item (Some t) e = Ok r ->
  exists h v, entry_hour e = Ok h /\ 0 <= h <= 23 /\
              entry_value "generation" e = Ok v.
Proof.
  unfold generation_hour_record, entry_hour, entry_value. intros H. unchain H.
  repeat match goal with
         | E : py_get e _ _ = Ok _ |- _ => rewrite E; clear E
         end.
  cbn [rbind].
  match goal with E : Pd.replace_hour _ _ = Ok _ |- _ =>
    apply replace_hour_in_range in E end.
  eauto.
Qed.

Lemma kgup_hour_record_good (item : json) t (e : json) r :
  kgup_hour_record item (Some t) e = Ok r ->
  exists h v, entry_hour e = Ok h /\ 0 <= h <= 23 /\
              entry_value "plannedGeneration" e = Ok v.
Proof.
  unfold kgup_hour_record, entry_hour, entry_value. intros H. unchain H.
  repeat match goal with
         | E : py_get e _ _ = Ok _ |- _ => rewrite E; clear E
         end.
  cbn [rbind].
  match goal with E : Pd.replace_hour _ _ = Ok _ |- _ =>
    apply replace_hour_in_range in E end.
  eauto.
Qed.

(** The rows of a record with a breakdown under a parent date that
    parses. *)
Lemma generation_records_breakdown (item : json) s t entries :
  py_get item "date" (JStr "") = Ok (JStr s) ->
  parse_datetime s = Ok (Some t) ->
  py_getitem item "hourlyGenerations" = Ok (JList entries) ->
  generation_records item = mapM (generation_hour_record item (Some t)) entries.
Proof.
  intros Hd Hp Hg. unfold generation_records. rewrite Hd. cbn [rbind parse_datetime_of].
  rewrite Hp. cbn [rbind]. rewrite (py_getitem_in _ _ _ Hg). cbn [rbind].
  rewrite Hg. reflexivity.
Qed.

Lemma kgup_records_breakdown (item : json) s t entries :
  py_get item "date" (JStr "") = Ok (JStr s) ->
  parse_datetime s = Ok (Some t) ->
  py_getitem item "hourlyPlans" = Ok (JList entries) ->
  kgup_records item = mapM (kgup_hour_record item (Some t)) entries.
Proof.
  intros Hd Hp Hg. unfold kgup_records. rewrite Hd. cbn [rbind parse_datetime_of].
  rewrite Hp. cbn [rbind]. rewrite (py_getitem_in _ _ _ Hg). cbn [rbind].
  rewrite Hg. reflexivity.
Qed.

Lemma entry_not_dict (e : json) :
  is_dict e = false -> entry_hour e = Raise AttributeError.
Proof. unfold entry_hour. destruct e; try reflexivity. discriminate. Qed.

(** What makes an hour entry unfit under a parent date that parses: it is
    not a dict, or its hour does not convert to an integer, or converts to
    one outside 0..23, or its value does not convert to a float. *)
Lemma unfit_entry_not_good key (e : json) :
  is_dict e = false \/
  (exists x, entry_hour e = Raise x) \/
  (exists h, entry_hour e = Ok h /\ (h < 0 \/ 23 < h)) \/
  (exists x, entry_value key e = Raise x) ->
  ~ exists h v, entry_hour e = Ok h /\ 0 <= h <= 23 /\ entry_value key e = Ok v.
Proof.
  intros Hbad [h [v [Hh [Hr Hv]]]].
  destruct Hbad as [Hd|[[x Hx]|[[h' [Hh' Hout]]|[x Hx]]]].
  - rewrite (entry_not_dict e Hd) in Hh. discriminate.
  - rewrite Hx in Hh. discriminate.
  - rewrite Hh' in Hh. injection Hh as ->. lia.
  - rewrite Hx in Hv. discriminate.
Qed.

Lemma unfit_entry_raises {A} (f : json -> result A) key (entries : list json) :
  (forall e r, f e = Ok r ->
     exists h v, entry_hour e = Ok h /\ 0 <= h <= 23 /\ entry_value key e = Ok v) ->
  Exists (fun e => is_dict e = false \/
                   (exists x, entry_hour e = Raise x) \/
                   (exists h, entry_hour e = Ok h /\ (h < 0 \/ 23 < h)) \/
                   (exists x, entry_value key e = Raise x)) entries ->
  exists x, mapM f entries = Raise x.
Proof.
  intros Hgood Hbad. apply mapM_Exists_raise.
  induction Hbad as [e l Hbad|e l _ IH]; [|apply Exists_cons_tl, IH].
  apply Exists_cons_hd. destruct (f e) as [r|x] eqn:E; [|eauto].
  exfalso. apply (unfit_entry_not_good key e Hbad). apply (Hgood e r E).
Qed.

Lemma failing_item_fails_table (f : json -> result (list record)) (items : list json)
    (item : json) x :
  In item items -> is_dict item = true -> f item = Raise x ->
  exists x', mapM f (List.filter is_dict items) = Raise x'.
Proof.
  intros Hin Hd Hx. apply mapM_Exists_raise. apply List.Exists_exists.
  exists item. split; [apply List.filter_In; split; assumption|eauto].
Qed.

(** X23.  Under a parent date that parses, the generation and plan
    normalisers build the rows of a breakdown only when every hour entry
    is a dict whose hour converts to an integer in 0..23 and whose value
    converts to a float.  One entry that is not a dict, or whose hour does
    not convert or lies outside 0..23, or whose value does not convert
    (null among them), makes the record yield no row at all; and one
    record that raises makes the normaliser raise, whatever the other
    records hold. *)
Theorem malformed_hour_entry_fails_table :
  (forall (item : json) s t entries,
      py_get item "date" (JStr "") = Ok (JStr s) ->
      parse_datetime s = Ok (Some t) ->
      py_getitem item "hourlyGenerations" = Ok (JList entries) ->
      (forall rs, generation_records item = Ok rs ->
         Forall (fun e => exists h v,
                     entry_hour e = Ok h /\ 0 <= h <= 23 /\
                     entry_value "generation" e = Ok v) entries) /\
      (Exists (fun e => is_dict e = false \/
                        (exists x, entry_hour e = Raise x) \/
                        (exists h, entry_hour e = Ok h /\ (h < 0 \/ 23 < h)) \/
                        (exists x, entry_value "generation" e = Raise x)) entries ->
       exists x, generation_records item = Raise x)) /\
  (forall (item : json) s t entries,
      py_get item "date" (JStr "") = Ok (JStr s) ->
      parse_datetime s = Ok (Some t) ->
      py_getitem item "hourlyPlans" = Ok (JList entries) ->
      (forall rs, kgup_records item = Ok rs ->
         Forall (fun e => exists h v,
                     entry_hour e = Ok h /\ 0 <= h <= 23 /\
                     entry_value "plannedGeneration" e = Ok v) entries) /\
      (Exists (fun e => is_dict e = false \/
                        (exists x, entry_hour e = Raise x) \/
                        (exists h, entry_hour e = Ok h /\ (h < 0 \/ 23 < h)) \/
                        (exists x, entry_value "plannedGeneration" e = Raise x)) entries ->
       exists x, kgup_records item = Raise x)) /\
  (forall (data : json) items (item : json) x,
      extract_content data = Ok (JList items) ->
      In item items -> is_dict item = true ->
      (generation_records item = Raise x ->
       exists x', process_generation_data data = Raise x') /\
      (kgup_records item = Raise x ->
       exists x', process_kgup_data data = Raise x')).
Proof.
  split; [|split].
  - intros item s t entries Hd Hp Hg.
    rewrite (generation_records_breakdown item s t entries Hd Hp Hg). split.
    + intros rs H. apply mapM_Ok_each in H.
      eapply List.Forall_impl; [|exact H].
      intros e [r Hr]. apply (generation_hour_record_good item t e r Hr).
    + apply unfit_entry_raises. apply generation_hour_record_good.
  - intros item s t entries Hd Hp Hg.
    rewrite (kgup_records_breakdown item s t entries Hd Hp Hg). split.
    + intros rs H. apply mapM_Ok_each in H.
      eapply List.Forall_impl; [|exact H].
      intros e [r Hr]. apply (kgup_hour_record_good item t e r Hr).
    + apply unfit_entry_raises. apply kgup_hour_record_good.
  - intros data items item x Hx Hin Hd.
    assert (Ht : truthy (JList items) = true)
      by (destruct items; [destruct Hin|reflexivity]).
    split; intros Hr.
    + destruct (failing_item_fails_table generation_records items item x Hin Hd Hr)
        as [x' Hx'].
      exists x'. unfold process_generation_data. rewrite Hx. cbn [rbind].
      rewrite Ht. cbn [negb py_iter rbind]. rewrite Hx'. reflexivity.
    + destruct (failing_item_fails_table kgup_records items item x Hin Hd Hr)
        as [x' Hx'].
      exists x'. unfold process_kgup_data. rewrite Hx. cbn [rbind].
      rewrite Ht. cbn [negb py_iter rbind]. rewrite Hx'. reflexivity.
Qed.

End BreakdownFailureProperties.

Section DashboardBatchProperties.
Import Py Processors Fetchers.
Context `{RT : Runtime}.
Local Open Scope result_scope.
Variable self : DataFetcher.

Lemma dashboard_loop_first_failure (good : list (string * string)) name endpoint rest e :
  forall acc : gmap string DataFrame,
  Forall (fun ne => exists df, dashboard_entry self (snd ne) = Ok df) good ->
  dashboard_entry self endpoint = Raise e ->
  dashboard_loop self (good ++ (name, endpoint) :: rest) acc = Raise e.
Proof.
  induction good as [|[n ep] good IH]; intros acc Hgood He; simpl.
  - rewrite He. reflexivity.
  - inversion Hgood as [|? ? [df Hdf] Hgood']; subst. simpl in Hdf.
    rewrite Hdf. cbn [rbind]. apply IH; assumption.
Qed.

Lemma dashboard_loop_some_failure (endpoints : list (string * string)) :
  forall acc : gmap string DataFrame,
  Exists (fun ne => exists e, dashboard_entry self (snd ne) = Raise e) endpoints ->
  exists ne e, In ne endpoints /\ dashboard_entry self (snd ne) = Raise e /\
               dashboard_loop self endpoints acc = Raise e.
Proof.
  induction endpoints as [|[n ep] endpoints IH]; intros acc Hex.
  - inversion Hex.
  - simpl. destruct (dashboard_entry self ep) as [df|e] eqn:E.
    + cbn [rbind]. inversion Hex as [? ? [e He]|? ? Hex']; subst.
      * simpl in He. congruence.
      * destruct (IH (<[n := df]> acc) Hex') as [ne [e [Hin [He Hloop]]]].
        exists ne, e. split; [right; exact Hin|]. split; assumption.
    + exists (n, ep), e. split; [left; reflexivity|]. split; [exact E|reflexivity].
Qed.

Lemma normaliser_failure_is_entry_failure endpoint payload e :
  get (client self) endpoint = Ok payload ->
  process_dashboard_data (now self) payload = Raise e ->
  dashboard_entry self endpoint = Raise e.
Proof. intros Hg Hp. unfold dashboard_entry. rewrite Hg. exact Hp. Qed.

(** X24.  [fetch_dashboard_data] isolates the failure of a request only:
    when a dashboard payload arrives and its normalisation raises, the
    whole call raises and no entry is returned, those of the dashboards
    fetched before included.  The exception is that of the first
    dashboard, in the order of the endpoints, whose normalisation raises;
    when every dashboard ends in a value or an exception of Python, so
    does the call. *)
Theorem dashboard_normaliser_failure_aborts_batch :
  (forall good name endpoint rest payload e,
      dashboard_endpoints = (good ++ (name, endpoint) :: rest)%list ->
      Forall (fun ne => exists df, dashboard_entry self (snd ne) = Ok df) good ->
      get (client self) endpoint = Ok payload ->
      process_dashboard_data (now self) payload = Raise e ->
      fetch_dashboard_data self = Raise e) /\
  (forall name endpoint payload e,
      In (name, endpoint) dashboard_endpoints ->
      get (client self) endpoint = Ok payload ->
      process_dashboard_data (now self) payload = Raise e ->
      exists e', fetch_dashboard_data self = Raise e' /\
        ((forall ne, In ne dashboard_endpoints ->
            modelled (dashboard_entry self (snd ne))) ->
         e' <> Unmodelled)).
Proof.
  split.
  - intros good name endpoint rest payload e Heq Hgood Hg Hp.
    unfold fetch_dashboard_data. rewrite Heq.
    apply dashboard_loop_first_failure; [exact Hgood|].
    apply (normaliser_failure_is_entry_failure endpoint payload e Hg Hp).
  - intros name endpoint payload e Hin Hg Hp.
    destruct (dashboard_loop_some_failure dashboard_endpoints ∅)
      as [ne [e' [Hne [He' Hloop]]]].
    { apply List.Exists_exists. exists (name, endpoint). split; [exact Hin|].
      exists e. apply (normaliser_failure_is_entry_failure endpoint payload e Hg Hp). }
    exists e'. split; [exact Hloop|].
    intros Hmod Heq. specialize (Hmod ne Hne). rewrite He', Heq in Hmod.
    exact Hmod.
Qed.

End DashboardBatchProperties.

Section FailureExamples.
Import Py Processors Fetchers Samples.
#[local] Existing Instance sample_runtime.

Lemma malformed_hour_entry_fails_table_witness :
  parse_datetime "2024-01-01" = Ok (Some midnight) /\
  (exists x,
     generation_records
       (JDict [("date", JStr "2024-01-01");
               ("hourlyGenerations",
                JList [JDict [("hour", JInt 24); ("generation", JInt 10)]])])
     = Raise x) /\
  (exists x,
     kgup_records
       (JDict [("date", JStr "2024-01-01");
               ("hourlyPlans", JList [JStr "n/a"])])
     = Raise x).
Proof.
  split; [reflexivity|].
  destruct malformed_hour_entry_fails_table as [Hgen [Hplan _]].
  split.
  - destruct (Hgen (JDict [("date", JStr "2024-01-01");
                           ("hourlyGenerations",
                            JList [JDict [("hour", JInt 24); ("generation", JInt 10)]])])
                "2024-01-01" midnight
                [JDict [("hour", JInt 24); ("generation", JInt 10)]]
                eq_refl eq_refl eq_refl) as [_ H].
    apply H. apply Exists_cons_hd. right. right. left.
    exists 24. split; [reflexivity|lia].
  - destruct (Hplan (JDict [("date", JStr "2024-01-01");
                            ("hourlyPlans", JList [JStr "n/a"])])
                "2024-01-01" midnight [JStr "n/a"]
                eq_refl eq_refl eq_refl) as [_ H].
    apply H. apply Exists_cons_hd. left. reflexivity.
Defined.

Lemma dashboard_normaliser_failure_aborts_batch_witness :
  get (client (sample_fetcher null_body_dashboard)) DASHBOARD_BPM
  = Raise (HTTPError 500) /\
  get (client (sample_fetcher null_body_dashboard)) DASHBOARD_DAM
  = Ok null_body_dashboard /\
  process_dashboard_data midnight null_body_dashboard = Raise TypeError /\
  fetch_dashboard_data (sample_fetcher null_body_dashboard) = Raise TypeError.
Proof.
  split; [reflexivity|]. split; [reflexivity|]. split; [reflexivity|].
  destruct (dashboard_normaliser_failure_aborts_batch
              (sample_fetcher null_body_dashboard)) as [H _].
  apply (H [("bpm", DASHBOARD_BPM)] "dam" DASHBOARD_DAM
           [("idm", DASHBOARD_IDM); ("consumption", DASHBOARD_CONSUMPTION);
            ("generation", DASHBOARD_GENERATION);
            ("weighted_price", DASHBOARD_WEIGHTED_PRICE)]
           null_body_dashboard TypeError);
    [reflexivity| |reflexivity|reflexivity].
  repeat constructor. eexists. reflexivity.
Defined.

End FailureExamples.
